(** * tb-cli: backup, restore, clone and label of a ThingsBoard installation

    A shallow embedding of the command bodies of the CLI entry file
    (the 1026-line variant with per-tenant export, and the earlier
    601-line [src/index.ts]) together with the [services/api] layer they
    call, and the properties of the restore, export, clone and label paths
    that the design document states about them.

    The entry file works on untyped JSON bodies ([any]); they are modelled
    as JavaScript values.  Every request to the platform, every file written
    and every console line is an event of a small free monad, so that a run
    against an arbitrary platform yields the trace of what the tool did. *)

From Stdlib Require Import ZArith String Ascii List DecimalString DecimalNat Lia.
From stdpp Require Import base option list strings gmap.

Open Scope string_scope.
Open Scope Z_scope.

#[global] Set Warnings "-register-all".

(** ** JavaScript values *)

Module Js.

(** A JavaScript value as [JSON.parse] and the HTTP client produce it.
    Numbers are integers: the only numbers the command bodies compute with
    are error codes, lengths and page sizes.  The property list of an object
    is kept in own-property enumeration order, which is the order
    [Object.keys] returns. *)
Inductive value : Type :=
| VUndef
| VNull
| VBool (b : bool)
| VNum (n : Z)
| VStr (s : string)
| VArr (elems : list value)
| VObj (props : list (string * value)).

(** What a [throw] carries.  The command bodies only ever look at
    [e.response?.data] of a caught error, so a rejected HTTP request is
    kept as that payload ([VUndef] when the error has no response, as for
    a network failure); every error raised by the runtime itself is a
    [TypeError], which has no [response] at all. *)
Inductive exn : Type :=
| TypeError
| AxiosError (response_data : value).

(** Result of a pure fragment of JavaScript.  [Unmodelled] marks the few
    coercions whose ECMAScript definition this development does not follow
    (see [gt_zero]); it is never caught by a handler. *)
Inductive res (A : Type) : Type :=
| Val (a : A)
| Raise (e : exn)
| Unmodelled.
Arguments Val {A} a.
Arguments Raise {A} e.
Arguments Unmodelled {A}.

#[global] Instance res_ret : MRet res := fun A a => Val a.
#[global] Instance res_bind : MBind res := fun A B f m =>
  match m with
  | Val a => f a
  | Raise e => Raise e
  | Unmodelled => Unmodelled
  end.
#[global] Instance res_fmap : FMap res := fun A B f m =>
  match m with
  | Val a => Val (f a)
  | Raise e => Raise e
  | Unmodelled => Unmodelled
  end.

(** *** Strings of values *)

Definition string_of_nat (n : nat) : string :=
  NilZero.string_of_uint (Nat.to_uint n).

Definition string_of_Z (n : Z) : string :=
  NilZero.string_of_int (Z.to_int n).

(** [Array.prototype.join] on already converted pieces. *)
Definition join (sep : string) (pieces : list string) : string :=
  String.concat sep pieces.

(** [ToString], as the template literals of the entry file apply it to
    the names, titles and ids the platform gives; computed property keys
    are converted by [toPropertyKey] below, which says where the two
    differ. *)
Fixpoint toString (v : value) : string :=
  match v with
  | VUndef => "undefined"
  | VNull => "null"
  | VBool true => "true"
  | VBool false => "false"
  | VNum n => string_of_Z n
  | VStr s => s
  | VArr l =>
      join ","
        (List.map (fun x => match x with
                            | VUndef | VNull => ""
                            | _ => toString x
                            end) l)
  | VObj _ => "[object Object]"
  end.

(** [ToPropertyKey] of a value read from parsed JSON, as the computed key
    of [o[k]] and [o[k] = x] converts it.  An object that has a [toString]
    of its own has no primitive value, since parsed JSON never makes that
    property callable and [Object.prototype.valueOf] returns the object:
    the conversion throws.  An array is joined from the conversions of its
    elements.  A number of magnitude [10^21] or more is written with an
    exponent, which is not followed. *)
Fixpoint toPropertyKey (v : value) : res string :=
  match v with
  | VNum n =>
      if (Z.abs n <? 10 ^ 21)%Z then Val (string_of_Z n) else Unmodelled
  | VArr l =>
      pieces ← mapM (fun x => match x with
                              | VUndef | VNull => Val ""
                              | _ => toPropertyKey x
                              end) l;
      Val (join "," pieces)
  | VObj ps =>
      if existsb (String.eqb "toString") (List.map fst ps) then Raise TypeError
      else Val "[object Object]"
  | _ => Val (toString v)
  end.

(** An array index written as a property key: the canonical decimal
    numerals. *)
Definition index_of_key (k : string) : option nat :=
  match NilZero.uint_of_string k with
  | Some u =>
      let n := Nat.of_uint u in
      if String.eqb (string_of_nat n) k then Some n else None
  | None => None
  end.

(** *** Property lists *)

Fixpoint assoc_get (k : string) (ps : list (string * value)) : value :=
  match ps with
  | [] => VUndef
  | (k', v) :: rest => if String.eqb k k' then v else assoc_get k rest
  end.

(** Assignment keeps the position of a property that exists and appends a
    new one. *)
Fixpoint assoc_set (k : string) (x : value) (ps : list (string * value))
  : list (string * value) :=
  match ps with
  | [] => [(k, x)]
  | (k', v) :: rest =>
      if String.eqb k k' then (k', x) :: rest
      else (k', v) :: assoc_set k x rest
  end.

Fixpoint assoc_del (k : string) (ps : list (string * value))
  : list (string * value) :=
  match ps with
  | [] => []
  | (k', v) :: rest =>
      if String.eqb k k' then assoc_del k rest
      else (k', v) :: assoc_del k rest
  end.

Definition char_at (s : string) (i : nat) : value :=
  match String.get i s with
  | Some c => VStr (String c EmptyString)
  | None => VUndef
  end.

(** Writing index [i] of an array; past the end the array grows, the gap
    being filled with holes. *)
Definition array_set (l : list value) (i : nat) (x : value) : list value :=
  if decide (i < length l)%nat then <[i := x]> l
  else l ++ replicate (i - length l) VUndef ++ [x].

(** *** Property access *)

(** [o[k]] and [o.k] for an already converted key. *)
Definition get_prop (o : value) (k : string) : res value :=
  match o with
  | VUndef | VNull => Raise TypeError
  | VObj ps => Val (assoc_get k ps)
  | VArr l =>
      if String.eqb k "length" then Val (VNum (Z.of_nat (length l)))
      else match index_of_key k with
           | Some i => Val (default VUndef (l !! i))
           | None => Val VUndef
           end
  | VStr s =>
      if String.eqb k "length" then Val (VNum (Z.of_nat (String.length s)))
      else match index_of_key k with
           | Some i => Val (char_at s i)
           | None => Val VUndef
           end
  | VBool _ | VNum _ => Val VUndef
  end.

(** [o[i]] for a literal index. *)
Definition get_index (o : value) (i : nat) : res value :=
  get_prop o (string_of_nat i).

(** [o?.k]. *)
Definition get_opt (o : value) (k : string) : value :=
  match o with
  | VUndef | VNull => VUndef
  | _ => match get_prop o k with Val v => v | _ => VUndef end
  end.

(** The members every object inherits from [Object.prototype]. *)
Definition object_members : list string :=
  ["constructor"; "hasOwnProperty"; "isPrototypeOf"; "propertyIsEnumerable";
   "toLocaleString"; "toString"; "valueOf"; "__proto__";
   "__defineGetter__"; "__defineSetter__"; "__lookupGetter__";
   "__lookupSetter__"].

(** [o[key]] for a key that comes from data.  An object answers with its
    own property under the converted key, and with [undefined] when it has
    none and inherits none; an inherited member is a function (or, for
    [__proto__], the prototype), which is no [value], and such a read is
    not followed.  Neither is the read of anything but an index or the
    [length] of a receiver that is no object. *)
Definition get_computed (o key : value) : res value :=
  match o with
  | VUndef | VNull => Raise TypeError
  | VObj ps =>
      k ← toPropertyKey key;
      if existsb (String.eqb k) (List.map fst ps) then Val (assoc_get k ps)
      else if existsb (String.eqb k) object_members then Unmodelled
      else Val VUndef
  | VArr _ | VStr _ =>
      k ← toPropertyKey key;
      if String.eqb k "length" then get_prop o k
      else match index_of_key k with
           | Some _ => get_prop o k
           | None => Unmodelled
           end
  | VBool _ | VNum _ => Unmodelled
  end.

(** [o.p1.p2...pn]. *)
Fixpoint get_path (o : value) (path : list string) : res value :=
  match path with
  | [] => Val o
  | p :: rest => o' ← get_prop o p; get_path o' rest
  end.

(** [o[k] = x], returning the object after the assignment.  The entry file
    is an ES module, hence strict code: creating a property on a primitive
    throws.  A named property put on an array is invisible to every later
    read the command bodies make and is dropped when the body is
    serialised, so the array is returned as it was. *)
Definition set_prop (o : value) (k : string) (x : value) : res value :=
  match o with
  | VObj ps => Val (VObj (assoc_set k x ps))
  | VArr l =>
      match index_of_key k with
      | Some i => Val (VArr (array_set l i x))
      | None => Val (VArr l)
      end
  | _ => Raise TypeError
  end.

(** [o] once [delete o.k] has run, for an [o] that is not [null] or
    [undefined]. *)
Definition without (k : string) (o : value) : value :=
  match o with
  | VObj ps => VObj (assoc_del k ps)
  | VArr l =>
      match index_of_key k with
      | Some i => if decide (i < length l)%nat then VArr (<[i := VUndef]> l) else o
      | None => o
      end
  | _ => o
  end.

(** [delete o.k]. *)
Definition delete_prop (o : value) (k : string) : res value :=
  match o with
  | VUndef | VNull => Raise TypeError
  | _ => Val (without k o)
  end.

(** [o.p1...pn[k] = x] on a tree of objects: the objects on the way are
    read, the last one is assigned to, and the change is seen from the
    root because the root holds it by reference. *)
Fixpoint set_path (o : value) (path : list string) (k : string) (x : value)
  : res value :=
  match path with
  | [] => set_prop o k x
  | p :: rest =>
      child ← get_prop o p;
      child' ← set_path child rest k x;
      set_prop o p child'
  end.

(** *** Operators *)

Definition truthy (v : value) : bool :=
  match v with
  | VUndef | VNull | VBool false | VNum 0 | VStr EmptyString => false
  | _ => true
  end.

(** [a || b] *)
Definition or_else (a b : value) : value := if truthy a then a else b.

(** [a ?? b] *)
Definition nullish_else (a b : value) : value :=
  match a with VUndef | VNull => b | _ => a end.

(** [a === b] where at least one side is a primitive, which is the only
    way the command bodies use it: an object or array is then never equal
    to the other side. *)
Definition strict_eq (a b : value) : bool :=
  match a, b with
  | VUndef, VUndef | VNull, VNull => true
  | VBool x, VBool y => Bool.eqb x y
  | VNum x, VNum y => Z.eqb x y
  | VStr x, VStr y => String.eqb x y
  | _, _ => false
  end.

(** [v > 0].  [undefined] converts to [NaN], [null] to [0], booleans to [0]
    and [1]; the conversion of strings, arrays and objects to a number is
    not followed. *)
Definition gt_zero (v : value) : res bool :=
  match v with
  | VNum n => Val (0 <? n)
  | VUndef | VNull => Val false
  | VBool b => Val b
  | VStr _ | VArr _ | VObj _ => Unmodelled
  end.

(** [Object.keys(o)]. *)
Definition keys (o : value) : res (list string) :=
  match o with
  | VUndef | VNull => Raise TypeError
  | VObj ps => Val (List.map fst ps)
  | VArr l => Val (List.map string_of_nat (seq 0 (length l)))
  | VStr s => Val (List.map string_of_nat (seq 0 (String.length s)))
  | VBool _ | VNum _ => Val []
  end.

(** The receiver of [forEach], [map] and [filter]: only arrays have these
    methods, on anything else the call throws. *)
Definition as_array (o : value) : res (list value) :=
  match o with
  | VArr l => Val l
  | _ => Raise TypeError
  end.

(** [{ ...o }]: the own enumerable properties of [o]. *)
Definition spread (o : value) : list (string * value) :=
  match o with
  | VObj ps => ps
  | VArr l => imap (fun i x => (string_of_nat i, x)) l
  | VStr s =>
      List.map (fun i => (string_of_nat i, char_at s i))
               (seq 0 (String.length s))
  | _ => []
  end.

(** [array.splice(i, 1)]: nothing is removed when [i] is past the end. *)
Definition splice1 (l : list value) (i : nat) : list value := delete i l.

End Js.

Import Js.

(** ** Effects: requests, files, console, exit *)

Module Eff.

(** [type AttributesScope] of the api layer. *)
Inductive AttributesScope : Type :=
| SERVER_SCOPE
| SHARED_SCOPE
| CLIENT_SCOPE.

#[global] Instance AttributesScope_eq_dec : EqDecision AttributesScope.
Proof. solve_decision. Defined.

Definition scope_name (sc : AttributesScope) : string :=
  match sc with
  | SERVER_SCOPE => "SERVER_SCOPE"
  | SHARED_SCOPE => "SHARED_SCOPE"
  | CLIENT_SCOPE => "CLIENT_SCOPE"
  end.

(** [type GetListParams]: every field is optional. *)
Record GetListParams : Type := mkParams {
  pageSize : option Z;
  page : option Z;
  textSearch : value
}.

Definition DEFAULT_GET_LIST_PARAMS : GetListParams :=
  {| pageSize := Some 1000; page := Some 0; textSearch := VUndef |}.

(** [{ page: 0, ...params }] *)
Definition with_page0 (params : GetListParams) : GetListParams :=
  {| pageSize := pageSize params;
     page := Some (default 0 (page params));
     textSearch := textSearch params |}.

(** One constructor per function of the api layer that the modelled
    command bodies call, with the arguments the function sends. *)
Inductive Api : Type :=
| GetWidgetBundles
| GetWidgetBundlesData (alias : value) (isSystem : bool)
| GetDashboards (params : GetListParams)
| GetDashboardById (id : value)
| SaveDashboard (dashboard : value)
| GetDevices (params : GetListParams)
| SaveDevice (device : value) (accessToken : value)
| GetDeviceCredentials (id : value)
| SaveDeviceCredentials (credentials : value)
| GetDeviceAttributesByScope (id : value) (scope : AttributesScope)
| GetDeviceAttributes (id : value) (keys : list string)
| SaveDeviceAttributes (id : value) (scope : AttributesScope)
                       (attributes : gmap string value)
| GetCustomers (params : GetListParams).

(** The verb and URL each of them is sent to. *)
Definition endpoint (a : Api) : string * string :=
  match a with
  | GetWidgetBundles => ("GET", "/widgetsBundles")
  | GetWidgetBundlesData alias isSystem =>
      ("GET", "widgetTypes?isSystem=" +:+ toString (VBool isSystem)
                +:+ "&bundleAlias=" +:+ toString alias)
  | GetDashboards _ => ("GET", "/tenant/dashboards")
  | GetDashboardById id => ("GET", "/dashboard/" +:+ toString id)
  | SaveDashboard _ => ("POST", "/dashboard")
  | GetDevices _ => ("GET", "/tenant/devices")
  | SaveDevice _ _ => ("POST", "/device")
  | GetDeviceCredentials id =>
      ("GET", "/device/" +:+ toString id +:+ "/credentials")
  | SaveDeviceCredentials _ => ("POST", "/device/credentials")
  | GetDeviceAttributesByScope id sc =>
      ("GET", "/plugins/telemetry/DEVICE/" +:+ toString id
                +:+ "/values/attributes/" +:+ scope_name sc +:+ "?keys=")
  | GetDeviceAttributes id ks =>
      ("GET", "/plugins/telemetry/DEVICE/" +:+ toString id
                +:+ "/values/attributes?keys=" +:+ join "," ks)
  | SaveDeviceAttributes id sc _ =>
      ("POST", "/plugins/telemetry/" +:+ toString id +:+ "/" +:+ scope_name sc)
  | GetCustomers _ => ("GET", "/customers")
  end.

(** What [console.log] is given. *)
Inductive logged : Type :=
| LogValue (v : value)
| LogError (e : exn).

(** Everything a command body does to the outside. *)
Inductive Call : Type :=
| Request (a : Api)
| AxiosPost (url : string) (body : value)
| WriteFile (path : list string) (body : value)
| ConsoleLog (l : logged).

(** What comes back: the [data] of the response, or the [response.data]
    of the error the request is rejected with. *)
Inductive Resp : Type :=
| Ok (data : value)
| Fail (response_data : value).

(** A command body: it returns, throws, leaves through [process.exit],
    leaves the model, or performs a call and goes on with the answer. *)
Inductive Prog (A : Type) : Type :=
| Ret (a : A)
| Throw (e : exn)
| Exit (code : Z)
| OutOfModel
| Vis (c : Call) (k : Resp -> Prog A).
Arguments Ret {A} a.
Arguments Throw {A} e.
Arguments Exit {A} code.
Arguments OutOfModel {A}.
Arguments Vis {A} c k.

Fixpoint bind {A B : Type} (p : Prog A) (f : A -> Prog B) : Prog B :=
  match p with
  | Ret a => f a
  | Throw e => Throw e
  | Exit c => Exit c
  | OutOfModel => OutOfModel
  | Vis c k => Vis c (fun r => bind (k r) f)
  end.

#[global] Instance Prog_ret : MRet Prog := fun A a => Ret a.
#[global] Instance Prog_bind : MBind Prog := fun A B f p => bind p f.

(** [try { p } catch (e) { h e }] *)
Fixpoint try_catch {A : Type} (p : Prog A) (h : exn -> Prog A) : Prog A :=
  match p with
  | Ret a => Ret a
  | Throw e => h e
  | Exit c => Exit c
  | OutOfModel => OutOfModel
  | Vis c k => Vis c (fun r => try_catch (k r) h)
  end.

(** A pure fragment inside a command body. *)
Definition lift {A : Type} (r : res A) : Prog A :=
  match r with
  | Val a => Ret a
  | Raise e => Throw e
  | Js.Unmodelled => OutOfModel
  end.

(** [await] of a request: the response data, or the rejection thrown. *)
Definition await (c : Call) : Prog value :=
  Vis c (fun r => match r with
                  | Ok d => Ret d
                  | Fail d => Throw (AxiosError d)
                  end).

(** A call whose result the body does not look at and that is taken to
    succeed: [console.log]. *)
Definition perform (c : Call) : Prog unit := Vis c (fun _ => Ret tt).

Definition console_log (v : value) : Prog unit := perform (ConsoleLog (LogValue v)).
Definition console_log_error (e : exn) : Prog unit := perform (ConsoleLog (LogError e)).

(** [e.response?.data] *)
Definition response_data (e : exn) : value :=
  match e with
  | TypeError => VUndef
  | AxiosError d => d
  end.

(** *** Running a body against a platform *)

(** The platform, the disk and the console together: a state and the
    answer to each call. *)
Definition handler (S : Type) : Type := Call -> S -> Resp * S.

Inductive outcome (A : Type) : Type :=
| Returned (a : A)
| Threw (e : exn)
| Exited (code : Z)
| LeftModel.
Arguments Returned {A} a.
Arguments Threw {A} e.
Arguments Exited {A} code.
Arguments LeftModel {A}.

Record result (S A : Type) : Type := mkResult {
  out : outcome A;
  trace : list (Call * Resp);
  final : S
}.
Arguments mkResult {S A}.
Arguments out {S A}.
Arguments trace {S A}.
Arguments final {S A}.

Fixpoint run {S A : Type} (h : handler S) (p : Prog A) (s : S) : result S A :=
  match p with
  | Ret a => mkResult (Returned a) [] s
  | Throw e => mkResult (Threw e) [] s
  | Exit c => mkResult (Exited c) [] s
  | OutOfModel => mkResult LeftModel [] s
  | Vis c k =>
      let rs := h c s in
      let r := run h (k rs.1) rs.2 in
      mkResult (out r) ((c, rs.1) :: trace r) (final r)
  end.

(** The calls of a run, in order. *)
Definition calls {S A : Type} (r : result S A) : list Call :=
  List.map fst (trace r).

End Eff.

Import Eff.

(** ** The api layer *)

Module api.

Definition getWidgetBundles : Prog value := await (Request GetWidgetBundles).

(** [isSystem] defaults to [false]; the 1026-line entry file never passes
    it. *)
Definition getWidgetBundlesData (alias : value) (isSystem : bool) : Prog value :=
  await (Request (GetWidgetBundlesData alias isSystem)).

Definition getDashboards (params : GetListParams) : Prog value :=
  await (Request (GetDashboards (with_page0 params))).

Definition getDashboardById (id : value) : Prog value :=
  await (Request (GetDashboardById id)).

Definition saveDashboard (dashboard : value) : Prog value :=
  await (Request (SaveDashboard dashboard)).

Definition getDevices (params : GetListParams) : Prog value :=
  await (Request (GetDevices (with_page0 params))).

Definition saveDevice (device : value) (accessToken : value) : Prog value :=
  await (Request (SaveDevice device accessToken)).

Definition getDeviceCredentials (id : value) : Prog value :=
  await (Request (GetDeviceCredentials id)).

Definition saveDeviceCredentials (credentials : value) : Prog value :=
  await (Request (SaveDeviceCredentials credentials)).

Definition getDeviceAttributesByScope (id : value) (scope : AttributesScope)
  : Prog value :=
  await (Request (GetDeviceAttributesByScope id scope)).

Definition getDeviceAttributes (id : value) (ks : list string) : Prog value :=
  await (Request (GetDeviceAttributes id ks)).

Definition saveDeviceAttributes (id : value) (scope : AttributesScope)
    (attributes : gmap string value) : Prog value :=
  await (Request (SaveDeviceAttributes id scope attributes)).

Definition getCustomers (params : GetListParams) : Prog value :=
  await (Request (GetCustomers (with_page0 params))).

End api.

(** ** Concurrent callbacks *)

Module Async.

(** [Promise.all(items.map(async (item, index) => { ... await request; ... }))]
    where each callback awaits exactly one request.

    [map] runs every callback up to its [await] while it walks the array, so
    all requests leave in index order before any answer is looked at.  The
    callbacks then resume one by one in the order their answers arrive,
    which the program does not control: a [schedule] picks, at each step,
    which of the callbacks still waiting resumes next (its head, modulo
    the number waiting; the empty schedule resumes them in index order). *)
Definition schedule : Type := list nat.

(** The settled result of an awaited promise, kept until the callback
    resumes. *)
Definition capture (p : Prog value) : Prog (res value) :=
  try_catch (v ← p; Ret (Val v)) (fun e => Ret (Raise e)).

Section PromiseAll.
Context {I St : Type}.

(** The callback before its [await]: it throws, returns without
    awaiting, or hands out the promise it awaits.  It reads the shared
    state and does not write it. *)
Variable before : St -> nat -> I -> res (option (Prog value)).

(** The callback after its [await], on the value awaited. *)
Variable after : nat -> I -> value -> St -> res St.

(** First pass.  Returns the first rejection among the callbacks that
    threw before awaiting, and the callbacks left waiting with their
    settled promise. *)
Fixpoint start (s : St) (i : nat) (items : list I)
  : Prog (option exn * list (nat * I * res value)) :=
  match items with
  | [] => Ret (None, [])
  | item :: rest =>
      match before s i item with
      | Val None => start s (S i) rest
      | Val (Some p) =>
          r ← capture p;
          '(e, ws) ← start s (S i) rest;
          Ret (e, (i, item, r) :: ws)
      | Raise e =>
          '(_, ws) ← start s (S i) rest;
          Ret (Some e, ws)
      | Js.Unmodelled => OutOfModel
      end
  end.

(** Second pass: [n] callbacks are waiting. *)
Fixpoint settle (n : nat) (picks : schedule)
    (ws : list (nat * I * res value)) (s : St) : res St :=
  match n with
  | O => Val s
  | S n' =>
      let k := (hd 0 picks `mod` length ws)%nat in
      match ws !! k with
      | None => Val s
      | Some (i, item, r) =>
          v ← r;
          s' ← after i item v s;
          settle n' (tl picks) (delete k ws) s'
      end
  end.

(** The [await Promise.all(...)]: it throws the first rejection; the
    callbacks that resume after it only touch the local state, which is
    dropped with the exception. *)
Definition promise_all_map (picks : schedule) (items : list I) (s : St)
  : Prog St :=
  '(e, ws) ← start s 0 items;
  match e with
  | Some e => Throw e
  | None => lift (settle (length ws) picks ws s)
  end.
End PromiseAll.

End Async.

Import Async.

(** ** Restore *)

Module Restore.

(** [s.split('.')] *)
Fixpoint split_dot (s : string) : list string :=
  match s with
  | EmptyString => [EmptyString]
  | String c rest =>
      if Ascii.eqb c "." then EmptyString :: split_dot rest
      else match split_dot rest with
           | [] => [String c EmptyString]
           | piece :: pieces => String c piece :: pieces
           end
  end.

(** [file.split('.').slice(0, -1).join('.')]: the file name without its
    last extension. *)
Definition entityName (file : string) : string :=
  join "." (removelast (split_dot file)).

(** [attributesObject[key] = x] on the object [getAttributesObject]
    builds from [{}], kept as the map of its own properties, which is what
    is sent.  The key [__proto__] is no property of the object but the
    accessor it inherits from [Object.prototype]: assigning a primitive to
    it does nothing, and assigning an object or [null] replaces the
    prototype, after which the assignments are not followed. *)
Definition assignAttribute (attributesObject : gmap string value)
    (key x : value) : res (gmap string value) :=
  k ← toPropertyKey key;
  if String.eqb k "__proto__" then
    match x with
    | VNull | VArr _ | VObj _ => Js.Unmodelled
    | _ => Val attributesObject
    end
  else Val (<[k := x]> attributesObject).

(** [getAttributesObject]: the stored list of [{key, value}] entries as the
    map the platform takes; a later entry overrides an earlier one with
    the same key. *)
Definition getAttributesObject (attributesArray : value)
  : res (gmap string value) :=
  items ← as_array attributesArray;
  foldl (fun acc item =>
           attributesObject ← acc;
           key ← get_prop item "key";
           value ← get_prop item "value";
           assignAttribute attributesObject key value)
        (Val ∅) items.

(** The body of the first [try]: create the device with the stored token
    as its credential. *)
Definition createDevice (deviceName : string) (device : value) : Prog value :=
  accessToken ← lift (get_prop device "accessToken");
  data ← api.saveDevice
           (VObj [("name", VStr deviceName); ("type", VStr "AT_CORE")])
           accessToken;
  lift (get_path data ["id"; "id"]).

(** The [errorCode === 31] branch: find the device by name and put the
    stored token into its credentials. *)
Definition repairCredentials (deviceName : string) (device : value)
  : Prog value :=
  page ← api.getDevices
           {| pageSize := Some 1; page := None; textSearch := VStr deviceName |};
  devices ← lift (get_prop page "data");
  deviceId ← lift (first ← get_index devices 0; get_path first ["id"; "id"]);
  try_catch
    (credentials ← api.getDeviceCredentials deviceId;
     accessToken ← lift (get_prop device "accessToken");
     _ ← api.saveDeviceCredentials
           (VObj (assoc_set "credentialsId" accessToken (spread credentials)));
     Ret tt)
    (fun e => console_log (get_opt (response_data e) "message"));;
  Ret deviceId.

(** [let deviceId = null; try { ... } catch (e) { ... }]: the value of
    [deviceId] afterwards. *)
Definition establishIdentity (deviceName : string) (device : value)
  : Prog value :=
  try_catch (createDevice deviceName device)
    (fun e =>
       if strict_eq (get_opt (response_data e) "errorCode") (VNum 31)
       then repairCredentials deviceName device
       else console_log (get_opt (response_data e) "message");; Ret VNull).

(** One of the three [if (device.attributes.x.length > 0) { ... }]. *)
Definition restoreScope (deviceId device : value) (field : string)
    (scope : AttributesScope) : Prog unit :=
  len ← lift (get_path device ["attributes"; field; "length"]);
  nonEmpty ← lift (gt_zero len);
  if nonEmpty : bool then
    stored ← lift (get_path device ["attributes"; field]);
    attributes ← lift (getAttributesObject stored);
    _ ← api.saveDeviceAttributes deviceId scope attributes;
    Ret tt
  else Ret tt.

Definition restoreAttributes (deviceId device : value) : Prog unit :=
  restoreScope deviceId device "server" SERVER_SCOPE;;
  restoreScope deviceId device "shared" SHARED_SCOPE;;
  restoreScope deviceId device "client" CLIENT_SCOPE.

(** What both entry files run for one file of [devices/], [device] being
    what [JSON.parse(content)] returned. *)
Definition restoreDeviceBody (file : string) (device : value) : Prog unit :=
  let deviceName := entityName file in
  deviceId ← establishIdentity deviceName device;
  restoreAttributes deviceId device.

(** The 1026-line entry file wraps the body in [try { ... } catch (e) {}]. *)
Definition restoreDevice (file : string) (device : value) : Prog unit :=
  try_catch (restoreDeviceBody file device) (fun _ => Ret tt).

(** *** Dashboards *)

(** [delete dashboard.id; delete dashboard.createdTime;
    delete dashboard.tenantId] *)
Definition stripSourceFields (dashboard : value) : res value :=
  d ← delete_prop dashboard "id";
  d ← delete_prop d "createdTime";
  delete_prop d "tenantId".

Definition aliasPath (key : string) : list string :=
  ["configuration"; "entityAliases"; key].

(** The alias callback up to its [await].  Of an entry that is an array,
    [filter] is [Array.prototype.filter], a function, whose [type] is
    [undefined]: the entry is passed over like any other that is not a
    single entity. *)
Definition aliasBefore (dashboard : value) (_ : nat) (key : string)
  : res (option (Prog value)) :=
  entry ← get_path dashboard (aliasPath key);
  match entry with
  | VArr _ => Val None
  | _ =>
      type ← get_path dashboard (aliasPath key ++ ["filter"; "type"]);
      if strict_eq type (VStr "singleEntity") then
        entityType ← get_path dashboard
                       (aliasPath key ++ ["filter"; "singleEntity"; "entityType"]);
        if strict_eq entityType (VStr "DEVICE") then
          deviceName ← get_path dashboard (aliasPath key ++ ["alias"]);
          Val (Some (api.getDevices
                       {| pageSize := Some 1; page := None;
                          textSearch := deviceName |}))
        else Val None
      else Val None
  end.

(** The alias callback once the device page is there. *)
Definition aliasAfter (_ : nat) (key : string) (page dashboard : value)
  : res value :=
  devices ← get_prop page "data";
  first ← get_index devices 0;
  if truthy first then
    id ← get_path first ["id"; "id"];
    set_path dashboard (aliasPath key ++ ["filter"; "singleEntity"]) "id" id
  else Val dashboard.

(** The customer callback up to its [await]. *)
Definition customerBefore (_ : value) (_ : nat) (entry : value)
  : res (option (Prog value)) :=
  title ← get_prop entry "title";
  Val (Some (api.getCustomers
               {| pageSize := Some 1; page := None; textSearch := title |})).

(** The customer callback once the customer page is there: [index] is the
    position the entry had when [map] walked the array. *)
Definition customerAfter (index : nat) (_ : value) (page dashboard : value)
  : res value :=
  customers ← get_prop page "data";
  first ← get_index customers 0;
  if truthy first then
    id ← get_path first ["id"; "id"];
    set_path dashboard ["assignedCustomers"; string_of_nat index; "customerId"]
             "id" id
  else
    assigned ← get_prop dashboard "assignedCustomers";
    entries ← as_array assigned;
    set_prop dashboard "assignedCustomers" (VArr (splice1 entries index)).

Definition rewriteAliases (picks : schedule) (dashboard : value) : Prog value :=
  aliases ← lift (get_path dashboard ["configuration"; "entityAliases"]);
  ks ← lift (keys aliases);
  promise_all_map aliasBefore aliasAfter picks ks dashboard.

Definition rewriteCustomers (picks : schedule) (dashboard : value) : Prog value :=
  assigned ← lift (get_prop dashboard "assignedCustomers");
  if truthy assigned then
    entries ← lift (as_array assigned);
    promise_all_map customerBefore customerAfter picks entries dashboard
  else Ret dashboard.

(** What the entry file runs for one file of [dashboards/]; the two
    schedules are the arrival orders of the device pages and of the
    customer pages. *)
Definition restoreDashboard (aliasOrder customerOrder : schedule)
    (parsed : value) : Prog unit :=
  try_catch
    (dashboard ← lift (stripSourceFields parsed);
     dashboard ← rewriteAliases aliasOrder dashboard;
     dashboard ← rewriteCustomers customerOrder dashboard;
     _ ← api.saveDashboard dashboard;
     Ret tt)
    (fun _ => Ret tt).

End Restore.

(** ** Export *)

Module Backup.

(** The document [JSON.stringify] writes, as the value [JSON.parse] reads
    back from it: a property holding [undefined] is left out, an
    [undefined] element of an array becomes [null]. *)
Fixpoint JSON_stringify (v : value) : value :=
  match v with
  | VArr l =>
      VArr (List.map (fun x => match x with
                               | VUndef => VNull
                               | _ => JSON_stringify x
                               end) l)
  | VObj ps =>
      VObj (omap (fun '(k, x) => match x with
                                 | VUndef => None
                                 | _ => Some (k, JSON_stringify x)
                                 end) ps)
  | _ => v
  end.

(** [fsPromise.writeFile(path.join(...segments), JSON.stringify(body, undefined, 2))]
    followed by [.then(resolve)].  Of a body that is [undefined] there is no
    text to write, and a write the disk refuses leaves the promise of the
    entity unsettled; neither is followed further. *)
Definition writeJson (segments : list string) (body : value) : Prog unit :=
  match body with
  | VUndef => OutOfModel
  | _ =>
      Vis (WriteFile segments (JSON_stringify body))
          (fun r => match r with Ok _ => Ret tt | Fail _ => OutOfModel end)
  end.

(** The [.catch(e => { console.log(e); reject(e); })] every export promise
    ends with. *)
Definition logAndReject {A : Type} (p : Prog A) : Prog A :=
  try_catch p (fun e => console_log_error e;; Throw e).

(** [Promise.all(entities.map(backupOne))]: every promise is started, a
    rejected one does not stop the others.  Returns whether all were
    fulfilled.  The requests of different entities interleave on the wire;
    the order kept here is the one inside each entity. *)
Fixpoint fanOut {A : Type} (backupOne : A -> Prog unit) (entities : list A)
  : Prog bool :=
  match entities with
  | [] => Ret true
  | x :: rest =>
      ok ← try_catch (backupOne x;; Ret true) (fun _ => Ret false);
      oks ← fanOut backupOne rest;
      Ret (ok && oks)
  end.

(** [.then(() => { console.log(done); resolve(); })] on the [Promise.all]:
    when one of the promises was rejected nothing handles it and the
    category never reports completion. *)
Definition whenAll (allFulfilled : bool) (done : string) : Prog unit :=
  if allFulfilled then console_log (VStr done) else OutOfModel.

(** The part of [account] (the decoded session token) that the export of a
    tenant reads. *)
Record Account : Type := { tenantId : string }.

Definition backupWidgetBundle (tenantDir : string) (widgetBundle : value)
  : Prog unit :=
  alias ← lift (get_prop widgetBundle "alias");
  logAndReject
    (widgetBundleData ← api.getWidgetBundlesData alias false;
     title ← lift (get_prop widgetBundle "title");
     writeJson [tenantDir; "widgets"; toString title +:+ ".json"]
               widgetBundleData).

(** [account.tenantId === widgetBundle.tenantId.id] *)
Definition ownedBy (account : Account) (widgetBundle : value) : res bool :=
  owner ← get_path widgetBundle ["tenantId"; "id"];
  Val (strict_eq (VStr (tenantId account)) owner).

(** [array.filter(keep)] with a predicate that may throw. *)
Fixpoint filterRes {A : Type} (keep : A -> res bool) (l : list A)
  : res (list A) :=
  match l with
  | [] => Val []
  | x :: rest =>
      b ← keep x;
      kept ← filterRes keep rest;
      Val (if b : bool then x :: kept else kept)
  end.

Definition backupWidgets (account : Account) (tenantDir : string) : Prog unit :=
  console_log (VStr "Backup Widgets...");;
  logAndReject
    (widgetBundles ← api.getWidgetBundles;
     listed ← lift (as_array widgetBundles);
     own ← lift (filterRes (ownedBy account) listed);
     allFulfilled ← fanOut (backupWidgetBundle tenantDir) own;
     whenAll allFulfilled "Widgets backup completed!").

Definition backupDashboard (tenantDir : string) (dashboard : value)
  : Prog unit :=
  id ← lift (get_path dashboard ["id"; "id"]);
  logAndReject
    (dashboardData ← api.getDashboardById id;
     name ← lift (get_prop dashboard "name");
     writeJson [tenantDir; "dashboards"; toString name +:+ ".json"]
               dashboardData).

Definition backupDashboards (tenantDir : string) : Prog unit :=
  console_log (VStr "Backup Dashboards...");;
  logAndReject
    (page ← api.getDashboards DEFAULT_GET_LIST_PARAMS;
     dashboards ← lift (get_prop page "data");
     listed ← lift (as_array dashboards);
     allFulfilled ← fanOut (backupDashboard tenantDir) listed;
     whenAll allFulfilled "Dashboards backup completed!").

(** [attributes.forEach(item => { delete item.lastUpdateTs; })] *)
Definition dropLastUpdateTs (attributes : value) : res value :=
  items ← as_array attributes;
  items' ← mapM (fun item => delete_prop item "lastUpdateTs") items;
  Val (VArr items').

(** The four requests of a device are started together; the callback runs
    when all four are there.  Nothing handles a rejection here: it is
    reported as thrown. *)
Definition backupDevice (tenantDir : string) (device : value) : Prog unit :=
  deviceId ← lift (get_path device ["id"; "id"]);
  r1 ← capture (api.getDeviceAttributesByScope deviceId SERVER_SCOPE);
  r2 ← capture (api.getDeviceAttributesByScope deviceId SHARED_SCOPE);
  r3 ← capture (api.getDeviceAttributesByScope deviceId CLIENT_SCOPE);
  r4 ← capture (api.getDeviceCredentials deviceId);
  serverAttributes ← lift r1;
  sharedAttributes ← lift r2;
  clientAttributes ← lift r3;
  credentials ← lift r4;
  serverAttributes ← lift (dropLastUpdateTs serverAttributes);
  sharedAttributes ← lift (dropLastUpdateTs sharedAttributes);
  clientAttributes ← lift (dropLastUpdateTs clientAttributes);
  let attributes := VObj [("server", serverAttributes);
                          ("shared", sharedAttributes);
                          ("client", clientAttributes)] in
  accessToken ← lift (get_prop credentials "credentialsId");
  name ← lift (get_prop device "name");
  writeJson [tenantDir; "devices"; toString name +:+ ".json"]
            (VObj [("accessToken", accessToken); ("attributes", attributes)]).

End Backup.

(** ** Clone and label *)

Module Derived.

(** [const { data: { data: found } } = await list({ pageSize: 1, textSearch });
    if (!found[0]) { console.log(`${kind} ${name} not found!`); process.exit(1); }]
    and the entity that was found. *)
Definition resolveOrExit (list : GetListParams -> Prog value) (kind name : string)
  : Prog value :=
  page ← list {| pageSize := Some 1; page := None; textSearch := VStr name |};
  found ← lift (get_prop page "data");
  first ← lift (get_index found 0);
  if truthy first then Ret first
  else
    console_log (VStr (kind +:+ " " +:+ name +:+ " not found!"));;
    Exit 1.

(** [Object.keys(o)[0]] used as a property key. *)
Definition firstKey (ks : list string) : string :=
  match ks with
  | k :: _ => k
  | [] => toString VUndef
  end.

(** [name] is the [-n] option: [VUndef] when it was not given. *)
Definition clone (dashboardName deviceName : string) (name : value) : Prog unit :=
  dashboard ← resolveOrExit api.getDashboards "Dashboard" dashboardName;
  device ← resolveOrExit api.getDevices "Device" deviceName;
  deviceTitle ← lift (get_prop device "name");
  let clonedDashboardName := or_else name deviceTitle in
  id ← lift (get_path dashboard ["id"; "id"]);
  dashboardData ← api.getDashboardById id;
  aliases ← lift (get_path dashboardData ["configuration"; "entityAliases"]);
  ks ← lift (keys aliases);
  let dashboardEntityAliasID := firstKey ks in
  let alias := ["configuration"; "entityAliases"; dashboardEntityAliasID] in
  deviceId ← lift (get_path device ["id"; "id"]);
  dashboardData ← lift (set_path dashboardData (alias ++ ["filter"; "singleEntity"])
                                 "id" deviceId);
  dashboardData ← lift (set_path dashboardData alias "alias" deviceTitle);
  dashboardData ← lift (set_path dashboardData ["configuration"; "states"; "default"]
                                 "name" clonedDashboardName);
  dashboardData ← lift (set_prop dashboardData "title" clonedDashboardName);
  dashboardData ← lift (set_prop dashboardData "name" clonedDashboardName);
  dashboardData ← lift (delete_prop dashboardData "id");
  _ ← await (AxiosPost "dashboard" dashboardData);
  console_log (VStr ("Dashboard " +:+ toString clonedDashboardName
                       +:+ " created successfully")).

(** [labels[key] || fallback], the fallback being read only when needed. *)
Definition labelOr (labels key : value) (fallback : res value) : res value :=
  found ← get_computed labels key;
  if truthy found then Val found else fallback.

(** The branch guarded by [widget.type === 'latest' || 'timeseries']. *)
Definition relabelDatasources (labels widget : value) : res value :=
  datasources ← get_path widget ["config"; "datasources"];
  len ← get_prop datasources "length";
  if strict_eq len (VNum 1) then
    name ← get_path widget ["config"; "datasources"; "0"; "dataKeys"; "0"; "name"];
    title ← labelOr labels name (get_path widget ["config"; "title"]);
    set_path widget ["config"] "title" title
  else
    sources ← as_array datasources;
    foldl (fun acc '(i, source) =>
             w ← acc;
             dataKeys ← get_prop source "dataKeys";
             dks ← as_array dataKeys;
             foldl (fun acc '(j, dataKey) =>
                      w ← acc;
                      name ← get_prop dataKey "name";
                      let slot := ["config"; "datasources"; string_of_nat i;
                                   "dataKeys"; string_of_nat j] in
                      lbl ← labelOr labels name (get_path w (slot ++ ["label"]));
                      set_path w slot "label" lbl)
                   (Val w) (imap (fun j dataKey => (j, dataKey)) dks))
          (Val widget) (imap (fun i source => (i, source)) sources).

(** The body of [Object.keys(widgets).forEach(widgetID => { ... })] in the
    1026-line entry file, for one widget. *)
Definition relabelWidget (labels widget : value) : res value :=
  type ← get_prop widget "type";
  if strict_eq type (VStr "rpc") then
    settings ← get_path widget ["config"; "settings"];
    valueKey ← get_prop settings "valueKey";
    valueAttribute ← get_prop settings "valueAttribute";
    method ← get_prop settings "method";
    widget ← set_path widget ["config"] "showTitle" (VBool false);
    found ← get_computed labels (or_else (or_else valueKey valueAttribute) method);
    old ← get_path widget ["config"; "settings"; "title"];
    set_path widget ["config"; "settings"] "title" (nullish_else found old)
  else if truthy (or_else (VBool (strict_eq type (VStr "latest"))) (VStr "timeseries")) then
    relabelDatasources labels widget
  else Val widget.

Definition relabelAll (relabel : value -> value -> res value)
    (labels widgets : value) : res value :=
  ks ← keys widgets;
  foldl (fun acc widgetID =>
           ws ← acc;
           widget ← get_prop ws widgetID;
           widget ← relabel labels widget;
           set_prop ws widgetID widget)
        (Val widgets) ks.

Definition label (dashboardName deviceName : string) : Prog unit :=
  dashboard ← resolveOrExit api.getDashboards "Dashboard" dashboardName;
  device ← resolveOrExit api.getDevices "Device" deviceName;
  deviceId ← lift (get_path device ["id"; "id"]);
  attributes ← api.getDeviceAttributes deviceId ["LABELS"];
  labels ← lift (first ← get_index attributes 0; get_prop first "value");
  id ← lift (get_path dashboard ["id"; "id"]);
  dashboardData ← api.getDashboardById id;
  widgets ← lift (get_path dashboardData ["configuration"; "widgets"]);
  widgets ← lift (relabelAll relabelWidget labels widgets);
  dashboardData ← lift (set_path dashboardData ["configuration"] "widgets" widgets);
  _ ← await (AxiosPost "dashboard" dashboardData);
  console_log (VStr ("Dashboard " +:+ dashboardName +:+ " labeled successfully")).

End Derived.

(** ** The earlier entry file, [src/index.ts]

    Its device restore, clone and the datasource branch of label are, line
    for line, the ones above; what differs is modelled here. *)

Module Legacy.

(** The body of the [fs.readFile] callback is not inside a [try]: what it
    throws is an unhandled rejection. *)
Definition restoreDevice (file : string) (device : value) : Prog unit :=
  Restore.restoreDeviceBody file device.

(** The [rpc] branch assigns the looked-up label to [widget.config.title]
    as it is. *)
Definition relabelWidget (labels widget : value) : res value :=
  type ← get_prop widget "type";
  if strict_eq type (VStr "rpc") then
    settings ← get_path widget ["config"; "settings"];
    valueKey ← get_prop settings "valueKey";
    valueAttribute ← get_prop settings "valueAttribute";
    found ← get_computed labels (or_else valueKey valueAttribute);
    set_path widget ["config"] "title" found
  else if truthy (or_else (VBool (strict_eq type (VStr "latest"))) (VStr "timeseries")) then
    Derived.relabelDatasources labels widget
  else Val widget.

(** [fs.writeFile(`${a}/${b}/...`, JSON.stringify(body), cb)] *)
Definition writeJson (segments : list string) (body : value) : Prog unit :=
  match body with
  | VUndef => Throw TypeError
  | _ => perform (WriteFile segments (Backup.JSON_stringify body))
  end.

(** The callback of [widgetBundles.forEach(async widgetBundle => ...)]:
    system bundles are fetched too, with [isSystem] set.  Creating the
    directory of the bundle is left out of the trace. *)
Definition backupWidgetBundle (account : Backup.Account) (dir : string)
    (widgetBundle : value) : Prog unit :=
  alias ← lift (get_prop widgetBundle "alias");
  owner ← lift (get_path widgetBundle ["tenantId"; "id"]);
  widgetBundleData ← api.getWidgetBundlesData alias
                       (negb (strict_eq (VStr (Backup.tenantId account)) owner));
  title ← lift (get_prop widgetBundle "title");
  writeJson [dir; "widgets"; toString title +:+ ".json"] widgetBundleData;;
  widgetList ← lift (as_array widgetBundleData);
  foldl (fun acc widget =>
           acc;;
           name ← lift (get_prop widget "name");
           writeJson [dir; "widgets"; toString title; toString name +:+ ".json"]
                     widget)
        (Ret tt) widgetList.

Definition backupWidgets (account : Backup.Account) (dir : string) : Prog unit :=
  widgetBundles ← api.getWidgetBundles;
  listed ← lift (as_array widgetBundles);
  _ ← Backup.fanOut (backupWidgetBundle account dir) listed;
  Ret tt.

End Legacy.

(** ** Vocabulary of the statements *)

Module Spec.

(** All calls a body can ever make satisfy [P], whatever it is answered. *)
Inductive all_calls {A : Type} (P : Call -> Prop) : Prog A -> Prop :=
| all_ret a : all_calls P (Ret a)
| all_throw e : all_calls P (Throw e)
| all_exit c : all_calls P (Exit c)
| all_out : all_calls P OutOfModel
| all_vis c k : P c -> (forall r, all_calls P (k r)) -> all_calls P (Vis c k).

(** How a run goes on after its first part. *)
Definition and_then {S A B : Type} (h : handler S) (r1 : result S A)
    (f : A -> Prog B) : result S B :=
  match out r1 with
  | Returned a =>
      let r2 := run h (f a) (final r1) in
      mkResult (out r2) (trace r1 ++ trace r2) (final r2)
  | Threw e => mkResult (Threw e) (trace r1) (final r1)
  | Exited c => mkResult (Exited c) (trace r1) (final r1)
  | LeftModel => mkResult LeftModel (trace r1) (final r1)
  end.

(** How a run goes on when its first part is inside a [try]. *)
Definition or_catch {S A : Type} (h : handler S) (r1 : result S A)
    (handle : exn -> Prog A) : result S A :=
  match out r1 with
  | Threw e =>
      let r2 := run h (handle e) (final r1) in
      mkResult (out r2) (trace r1 ++ trace r2) (final r2)
  | _ => r1
  end.

(** The calls that write the attributes of scope [sc]. *)
Definition writes_scope (sc : AttributesScope) (c : Call) : Prop :=
  exists id attributes, c = Request (SaveDeviceAttributes id sc attributes).

(** The stored entries of an attribute list are objects. *)
Definition entries (l : list value) : Prop :=
  Forall (fun e => exists ps, e = VObj ps) l.

(** An entry [getAttributesObject] takes: it is not [null] or [undefined],
    its key converts to a property key, and when that key is [__proto__]
    its value is a primitive, which leaves the prototype of the map
    alone. *)
Definition taken (e : value) : bool :=
  match e with
  | VUndef | VNull => false
  | _ =>
      match toPropertyKey (get_opt e "key") with
      | Val k =>
          negb (String.eqb k "__proto__") ||
          match get_opt e "value" with
          | VNull | VArr _ | VObj _ => false
          | _ => true
          end
      | _ => false
      end
  end.

(** A stored list all of whose entries are taken. *)
Definition storable (l : list value) : Prop := Forall (fun e => taken e = true) l.

(** The map once the entry [e] has been assigned to it: the value of the
    entry under its key, an entry keyed [__proto__] leaving no trace. *)
Definition withEntry (m : gmap string value) (e : value) : gmap string value :=
  match toPropertyKey (get_opt e "key") with
  | Val k =>
      if String.eqb k "__proto__" then m else <[k := get_opt e "value"]> m
  | _ => m
  end.

(** What [getAttributesObject] builds from a list of entries it takes. *)
Definition attributesOf (l : list value) : gmap string value :=
  foldl withEntry ∅ l.

(** The body every device is created with. *)
Definition deviceBody (name : string) : value :=
  VObj [("name", VStr name); ("type", VStr "AT_CORE")].

(** What the identity stage can send: a creation with the fixed body, and
    never an attribute write. *)
Definition identity_call (name : string) (c : Call) : Prop :=
  (forall body tok, c = Request (SaveDevice body tok) -> body = deviceBody name) /\
  (forall sc, ~ writes_scope sc c).

(** A request of the repair path: the lookup of the device by name, or a
    read or a write of credentials. *)
Definition repair_call (c : Call) : Prop :=
  (exists q, c = Request (GetDevices q)) \/
  (exists id, c = Request (GetDeviceCredentials id)) \/
  (exists credentials, c = Request (SaveDeviceCredentials credentials)).

(** The field of the stored [attributes] each scope is read from. *)
Definition scope_field (sc : AttributesScope) : string :=
  match sc with
  | SERVER_SCOPE => "server"
  | SHARED_SCOPE => "shared"
  | CLIENT_SCOPE => "client"
  end.

(** The query of a lookup by name, as it is sent. *)
Definition byName (name : value) : GetListParams :=
  {| pageSize := Some 1; page := Some 0; textSearch := name |}.

(** The request that writes [l] to scope [sc] of device [id]. *)
Definition writeOf (id : value) (sc : AttributesScope) (l : list value) : Call :=
  Request (SaveDeviceAttributes id sc (attributesOf l)).



(** The dashboards among the calls of a run that went through
    [saveDashboard]. *)
Definition dashboardsIn (cs : list Call) : list value :=
  omap (fun c => match c with
                 | Request (SaveDashboard d) => Some d
                 | _ => None
                 end) cs.

Definition submitted {S A : Type} (r : result S A) : list value :=
  dashboardsIn (calls r).

(** An alias entry the restore rewrites: a single-entity filter on a
    device. *)
Definition single_device (a : value) : bool :=
  strict_eq (get_opt (get_opt a "filter") "type") (VStr "singleEntity") &&
  strict_eq (get_opt (get_opt (get_opt a "filter") "singleEntity") "entityType")
            (VStr "DEVICE").

(** An alias entry whose filter can be read: an object with an object
    [filter], which holds an object [singleEntity] when its type says
    so. *)
Definition readable_alias (a : value) : Prop :=
  exists ps f,
    a = VObj ps /\
    assoc_get "filter" ps = VObj f /\
    (strict_eq (assoc_get "type" f) (VStr "singleEntity") = true ->
     exists se, assoc_get "singleEntity" f = VObj se).

(** [a] with [i] as the id of its single entity. *)
Definition with_id (i : value) (a : value) : value :=
  match a with
  | VObj ps =>
      match assoc_get "filter" ps with
      | VObj f =>
          match assoc_get "singleEntity" f with
          | VObj se =>
              VObj (assoc_set "filter"
                      (VObj (assoc_set "singleEntity"
                               (VObj (assoc_set "id" i se)) f)) ps)
          | _ => a
          end
      | _ => a
      end
  | _ => a
  end.

(** The alias entry after the restore, [live] giving the id of the device
    of a given name on the target when there is one: a single-entity
    device alias whose name resolves gets the live id, every other entry
    is as it was stored. *)
Definition rewritten (live : value -> option value) (a : value) : value :=
  if single_device a then
    match live (get_opt a "alias") with
    | Some i => with_id i a
    | None => a
    end
  else a.

(** The id of the first entity of a page, when the page has one. *)
Definition firstId (page : value) : res (option value) :=
  found ← get_prop page "data";
  first ← get_index found 0;
  if truthy first then id ← get_path first ["id"; "id"]; Val (Some id)
  else Val None.

(** The platform answers every lookup of a device by name with a page
    whose first device, if any, is the one [live] gives. *)
Definition resolves_devices {S : Type} (h : handler S)
    (live : value -> option value) : Prop :=
  forall name st,
    exists page,
      (h (Request (GetDevices (byName name))) st).1 = Ok page /\
      firstId page = Val (live name).

(** The bodies a run has posted to [dashboard] directly. *)
Definition posted {S A : Type} (r : result S A) : list value :=
  omap (fun c => match c with
                 | AxiosPost "dashboard" d => Some d
                 | _ => None
                 end) (calls r).

(** The files a run has written. *)
Definition files {S A : Type} (r : result S A) : list (list string * value) :=
  omap (fun c => match c with
                 | WriteFile path body => Some (path, body)
                 | _ => None
                 end) (calls r).





(** The disk takes every file. *)
Definition disk_accepts {S : Type} (h : handler S) : Prop :=
  forall path body st, exists d, (h (WriteFile path body) st).1 = Ok d.

(** A dashboard body the clone can rewrite: the first of its aliases,
    [key], has a single-entity filter, and it has a default state. *)
Definition cloneable (body : value) (key : string) : Prop :=
  exists top conf a0 others f se st df,
    body = VObj top /\
    assoc_get "configuration" top = VObj conf /\
    assoc_get "entityAliases" conf = VObj ((key, VObj a0) :: others) /\
    assoc_get "filter" a0 = VObj f /\
    assoc_get "singleEntity" f = VObj se /\
    assoc_get "states" conf = VObj st /\
    assoc_get "default" st = VObj df.

(** The key of the first alias of a dashboard. *)
Definition firstAlias (dashboard : value) : res string :=
  aliases ← get_path dashboard ["configuration"; "entityAliases"];
  ks ← keys aliases;
  Val (Derived.firstKey ks).

(** The line printed when a name resolves to nothing. *)
Definition notFound (kind name : string) : Call :=
  ConsoleLog (LogValue (VStr (kind +:+ " " +:+ name +:+ " not found!"))).

(** The dashboard while the alias callbacks run: an object whose aliases
    are, key by key, the stored entry or the rewritten one. *)
Definition alias_state (live : value -> option value)
    (top0 aliases : list (string * value)) (d : value) : Prop :=
  exists topd confd al,
    d = VObj topd /\
    assoc_get "configuration" topd = VObj confd /\
    assoc_get "entityAliases" confd = VObj al /\
    (forall key, assoc_get key al = assoc_get key aliases \/
                 assoc_get key al = rewritten live (assoc_get key aliases)) /\
    assoc_get "assignedCustomers" topd = assoc_get "assignedCustomers" top0.

(** The alias under [key] has been rewritten. *)
Definition alias_done (live : value -> option value)
    (aliases : list (string * value)) (key : string) (d : value) : Prop :=
  get_path d ["configuration"; "entityAliases"; key] =
    Val (rewritten live (assoc_get key aliases)).

(** A callback that waits with the page of its device. *)
Definition alias_waiting (live : value -> option value)
    (aliases : list (string * value)) (w : nat * string * res value) : Prop :=
  In w.1.2 (List.map fst aliases) /\
  single_device (assoc_get w.1.2 aliases) = true /\
  exists page,
    w.2 = Val page /\
    firstId page = Val (live (get_opt (assoc_get w.1.2 aliases) "alias")).

(** An entry of [assignedCustomers] whose customer id can be written: an
    object that holds an object [customerId]. *)
Definition readable_assignment (e : value) : Prop :=
  exists ps c, e = VObj ps /\ assoc_get "customerId" ps = VObj c.

(** [e] with [i] as the id of its customer. *)
Definition with_customer (i : value) (e : value) : value :=
  match e with
  | VObj ps =>
      match assoc_get "customerId" ps with
      | VObj c => VObj (assoc_set "customerId" (VObj (assoc_set "id" i c)) ps)
      | _ => e
      end
  | _ => e
  end.

(** The assignment after the restore, [live] giving the id of the customer
    of a given title on the target when there is one. *)
Definition reassigned (live : value -> option value) (e : value) : value :=
  match live (get_opt e "title") with
  | Some i => with_customer i e
  | None => e
  end.

(** The platform answers every lookup of a customer by title with a page
    whose first customer, if any, is the one [live] gives. *)
Definition resolves_customers {S : Type} (h : handler S)
    (live : value -> option value) : Prop :=
  forall title st,
    exists page,
      (h (Request (GetCustomers (byName title))) st).1 = Ok page /\
      firstId page = Val (live title).

(** Every assignment of [l] can be written and names a customer of the
    target. *)
Definition all_resolved (live : value -> option value) (l : list value) : Prop :=
  Forall (fun e => readable_assignment e /\ is_Some (live (get_opt e "title"))) l.

(** The dashboard while the customer callbacks run, none of them having
    removed an entry: its assignments are, index by index, the stored
    entry or the reassigned one. *)
Definition customer_state (live : value -> option value) (l : list value)
    (d : value) : Prop :=
  exists topd cur,
    d = VObj topd /\
    assoc_get "assignedCustomers" topd = VArr cur /\
    length cur = length l /\
    (forall j e, l !! j = Some e ->
                 cur !! j = Some e \/ cur !! j = Some (reassigned live e)).

(** The assignment at index [j] has been rewritten. *)
Definition customer_done (live : value -> option value) (l : list value)
    (j : nat) (e : value) (d : value) : Prop :=
  l !! j = Some e /\
  get_path d ["assignedCustomers"; string_of_nat j] = Val (reassigned live e).

(** A callback that waits with the page of its customer, which is
    there. *)
Definition customer_waiting (live : value -> option value) (l : list value)
    (w : nat * value * res value) : Prop :=
  l !! w.1.1 = Some w.1.2 /\
  exists page id,
    w.2 = Val page /\
    live (get_opt w.1.2 "title") = Some id /\
    firstId page = Val (Some id).

(** The dashboard is an object whose [configuration] is [c]. *)
Definition keeps_configuration (c : value) (d : value) : Prop :=
  exists topd, d = VObj topd /\ assoc_get "configuration" topd = c.

End Spec.

Import Spec.

(** ** Sample installations *)

Module Sample.

(** A file of [devices/]: one server attribute, one shared attribute, no
    client attribute. *)
Definition storedDevice : value :=
  VObj [("accessToken", VStr "tok-1");
        ("attributes",
         VObj [("server", VArr [VObj [("key", VStr "fw"); ("value", VNum 3)]]);
               ("shared", VArr [VObj [("key", VStr "mode"); ("value", VStr "auto")]]);
               ("client", VArr [])])].

(** The three lists of [storedDevice]. *)
Definition storedLists (sc : AttributesScope) : list value :=
  match sc with
  | SERVER_SCOPE => [VObj [("key", VStr "fw"); ("value", VNum 3)]]
  | SHARED_SCOPE => [VObj [("key", VStr "mode"); ("value", VStr "auto")]]
  | CLIENT_SCOPE => []
  end.

Definition liveDevice : value :=
  VObj [("id", VObj [("entityType", VStr "DEVICE"); ("id", VStr "dev-7")]);
        ("name", VStr "Sensor-7")].

Definition liveCredentials : list (string * value) :=
  [("id", VObj [("id", VStr "cred-7")]);
   ("deviceId", VObj [("entityType", VStr "DEVICE"); ("id", VStr "dev-7")]);
   ("credentialsType", VStr "ACCESS_TOKEN");
   ("credentialsId", VStr "old-token")].

(** [{ data: [...] }] *)
Definition pageOf (found : list value) : value := VObj [("data", VArr found)].

(** The state of a sample platform: the attribute writes it has received,
    newest first. *)
Definition journal : Type := list Call.

Definition noted (c : Call) (s : journal) : journal :=
  match c with
  | Request (SaveDeviceAttributes _ _ _) => c :: s
  | _ => s
  end.


(** A target that holds no device and no customer: every creation
    succeeds, every lookup comes back empty. *)
Definition emptyTarget : handler journal := fun c s =>
  (match c with
   | Request (SaveDevice _ _) => Ok (VObj [("id", VObj [("id", VStr "dev-9")])])
   | Request (GetDevices _) | Request (GetCustomers _)
   | Request (GetDashboards _) => Ok (pageOf [])
   | _ => Ok VNull
   end, noted c s).


(** A target that refuses to create the device with error [code], holds
    [Sensor-7], and rejects a write to a device id that is not a string. *)
Definition refusing (code : Z) : handler journal := fun c s =>
  (match c with
   | Request (SaveDevice _ _) =>
       Fail (VObj [("status", VNum 400); ("message", VStr "refused");
                   ("errorCode", VNum code)])
   | Request (GetDevices _) => Ok (pageOf [liveDevice])
   | Request (GetDeviceCredentials _) => Ok (VObj liveCredentials)
   | Request (SaveDeviceAttributes (VStr _) _ _) => Ok VNull
   | Request (SaveDeviceAttributes _ _ _) =>
       Fail (VObj [("status", VNum 400); ("message", VStr "Invalid UUID string")])
   | _ => Ok VNull
   end, noted c s).

(** One entry of [assignedCustomers]. *)
Definition assignment (title id : string) : value :=
  VObj [("customerId", VObj [("entityType", VStr "CUSTOMER"); ("id", VStr id)]);
        ("title", VStr title);
        ("public", VBool false)].

(** A single-entity alias for the device called [name]. *)
Definition deviceAlias (key name id : string) : value :=
  VObj [("id", VStr key);
        ("alias", VStr name);
        ("filter",
         VObj [("type", VStr "singleEntity");
               ("resolveMultiple", VBool false);
               ("singleEntity", VObj [("entityType", VStr "DEVICE"); ("id", VStr id)])])].

Definition dataKey (name label : string) : value :=
  VObj [("name", VStr name); ("type", VStr "timeseries"); ("label", VStr label)].

(** A widget of kind [kind] with one datasource and one key. *)
Definition chart (kind title key label : string) : value :=
  VObj [("type", VStr kind);
        ("config",
         VObj [("title", VStr title);
               ("datasources",
                VArr [VObj [("type", VStr "entity");
                            ("dataKeys", VArr [dataKey key label])]])])].

Definition knob (title valueKey : string) : value :=
  VObj [("type", VStr "rpc");
        ("config",
         VObj [("settings", VObj [("valueKey", VStr valueKey); ("title", VStr title)])])].

(** The aliases of the sample dashboard: a device the target holds, a
    device it does not hold, a filter that is not a single entity. *)
Definition sampleAliases : list (string * value) :=
  [("alias-1", deviceAlias "alias-1" "Sensor-7" "src-7");
   ("alias-2", deviceAlias "alias-2" "Gone-3" "src-3");
   ("alias-3",
    VObj [("id", VStr "alias-3");
          ("alias", VStr "All devices");
          ("filter", VObj [("type", VStr "entityType");
                           ("entityType", VStr "DEVICE")])])].

(** Its configuration: three widgets (latest values, an alarm table, an
    rpc knob), the aliases and the default state. *)
Definition sampleConfiguration : list (string * value) :=
  [("widgets",
    VObj [("w-latest", chart "latest" "Latest" "temperature" "t");
          ("w-alarm", chart "alarm" "Alarms" "temperature" "t");
          ("w-knob", knob "Setpoint" "setpoint")]);
   ("entityAliases", VObj sampleAliases);
   ("states",
    VObj [("default", VObj [("name", VStr "Base"); ("root", VBool true)])])].

(** A dashboard as the platform returns it, with the given
    [assignedCustomers]. *)
Definition dashboardFields (assigned : value) : list (string * value) :=
  [("id", VObj [("entityType", VStr "DASHBOARD"); ("id", VStr "dash-1")]);
   ("createdTime", VNum 1600000000000);
   ("tenantId", VObj [("entityType", VStr "TENANT"); ("id", VStr "tenant-1")]);
   ("name", VStr "Base");
   ("title", VStr "Base");
   ("assignedCustomers", assigned);
   ("configuration", VObj sampleConfiguration)].

Definition dashboardWith (assigned : value) : value :=
  VObj (dashboardFields assigned).

Definition liveDashboard : value := dashboardWith VNull.

Definition liveCustomer : value :=
  VObj [("id", VObj [("entityType", VStr "CUSTOMER"); ("id", VStr "cust-live")]);
        ("title", VStr "Acme")].

(** The [LABELS] attribute of [Sensor-7]. *)
Definition labelsAttribute : value :=
  VObj [("lastUpdateTs", VNum 1600000000001);
        ("key", VStr "LABELS");
        ("value", VObj [("temperature", VStr "Temperature")])].

Definition ownBundle : value :=
  VObj [("alias", VStr "plant"); ("title", VStr "Plant");
        ("tenantId", VObj [("entityType", VStr "TENANT"); ("id", VStr "tenant-1")])].

Definition systemBundle : value :=
  VObj [("alias", VStr "charts"); ("title", VStr "Charts");
        ("tenantId", VObj [("entityType", VStr "TENANT");
                           ("id", VStr "13814000-1dd2-11b2-8080-808080808080")])].

Definition widgetType : value :=
  VObj [("alias", VStr "gauge"); ("name", VStr "Gauge")].

(** [textSearch] names exactly [name], in either case the commands send. *)
Definition asks (q : GetListParams) (name lowered : string) : bool :=
  strict_eq (textSearch q) (VStr name) || strict_eq (textSearch q) (VStr lowered).

(** The live id of the device called [name] on the sample installation. *)
Definition liveIds (name : value) : option value :=
  if asks (byName name) "Sensor-7" "sensor-7" then Some (VStr "dev-7") else None.

(** The customers of the sample installation, by title. *)
Definition liveCustomers (title : value) : option value :=
  if asks (byName title) "Acme" "acme" then Some (VStr "cust-live") else None.

(** An installation that holds the device [Sensor-7], the customer [Acme],
    the dashboard [Base] and two widget bundles, one of them of the system
    tenant. *)
Definition target : handler journal := fun c s =>
  (match c with
   | Request GetWidgetBundles => Ok (VArr [ownBundle; systemBundle])
   | Request (GetWidgetBundlesData _ _) => Ok (VArr [widgetType])
   | Request (GetDashboards q) =>
       Ok (pageOf (if asks q "Base" "base" then [liveDashboard] else []))
   | Request (GetDashboardById _) => Ok liveDashboard
   | Request (GetDevices q) =>
       Ok (pageOf (if asks q "Sensor-7" "sensor-7" then [liveDevice] else []))
   | Request (GetCustomers q) =>
       Ok (pageOf (if asks q "Acme" "acme" then [liveCustomer] else []))
   | Request (GetDeviceCredentials _) => Ok (VObj liveCredentials)
   | Request (GetDeviceAttributesByScope _ SERVER_SCOPE) =>
       Ok (VArr [VObj [("lastUpdateTs", VNum 1600000000002);
                       ("key", VStr "fw"); ("value", VNum 3)]])
   | Request (GetDeviceAttributesByScope _ _) => Ok (VArr [])
   | Request (GetDeviceAttributes _ _) => Ok (VArr [labelsAttribute])
   | _ => Ok VNull
   end, noted c s).

End Sample.

(** ** The rest of the entry file

    The commands and helpers that the statements above do not reach:
    the restore of widget bundles, [convert], and the choice of the
    categories a [restore] run covers. *)

(** [String.prototype.toLowerCase] and [path.parse]. *)
Module Node.

Definition lower (c : ascii) : ascii :=
  let n := nat_of_ascii c in
  if (65 <=? n)%nat && (n <=? 90)%nat then ascii_of_nat (n + 32) else c.

Fixpoint is_ascii (s : string) : bool :=
  match s with
  | EmptyString => true
  | String c rest => (nat_of_ascii c <? 128)%nat && is_ascii rest
  end.

Fixpoint map_chars (f : ascii -> ascii) (s : string) : string :=
  match s with
  | EmptyString => EmptyString
  | String c rest => String (f c) (map_chars f rest)
  end.

(** [s.toLowerCase()].  Strings are kept as bytes here; the case mapping
    of a character outside ASCII is not followed. *)
Definition toLowerCase (s : string) : res string :=
  if is_ascii s then Val (map_chars lower s) else Js.Unmodelled.

(** The index of the last dot of [s]. *)
Fixpoint last_dot (s : string) : option nat :=
  match s with
  | EmptyString => None
  | String c rest =>
      match last_dot rest with
      | Some i => Some (S i)
      | None => if Ascii.eqb c "." then Some 0%nat else None
      end
  end.

Fixpoint has_separator (s : string) : bool :=
  match s with
  | EmptyString => false
  | String c rest =>
      Ascii.eqb c "/" || Ascii.eqb c "\" || Ascii.eqb c ":" || has_separator rest
  end.

(** [path.parse(base).name] for a directory entry: the entry up to its
    last dot, and the whole entry when it has no dot, when its only dot is
    its first character, or when it is [..].  An entry holds no
    separator; the directory part of a longer path is not followed. *)
Definition parse_name (base : string) : res string :=
  if has_separator base then Js.Unmodelled
  else
    match last_dot base with
    | None | Some O => Val base
    | Some i => if String.eqb base ".." then Val base else Val (substring 0 i base)
    end.

End Node.

(** *** Restore of widget bundles *)

Module Widgets.

(** [saveWidgetsBundle] and [saveWidgetType] of the api layer. *)
Definition saveWidgetsBundle (widgetsBundle : value) : Prog value :=
  await (AxiosPost "widgetsBundle" widgetsBundle).

Definition saveWidgetType (widgetType : value) : Prog value :=
  await (AxiosPost "widgetType" widgetType).

(** [delete widgetType.id; delete widgetType.createdTime;
    delete widgetType.tenantId] *)
Definition stripWidgetType (widgetType : value) : res value :=
  w ← delete_prop widgetType "id";
  w ← delete_prop w "createdTime";
  delete_prop w "tenantId".

(** The callback of [widgetTypes.forEach(async widgetType => { ... })].
    It runs up to its [await] while [forEach] walks the array, so its post
    leaves at once; nothing awaits the callback, and what it throws or is
    rejected with reaches no handler.  Returns that rejection, if any. *)
Definition restoreWidgetType (widgetType : value) : Prog (option exn) :=
  try_catch
    (w ← lift (stripWidgetType widgetType);
     _ ← saveWidgetType w;
     Ret None)
    (fun e => Ret (Some e)).

Fixpoint forEachAsync (widgetTypes : list value) : Prog (list exn) :=
  match widgetTypes with
  | [] => Ret []
  | widgetType :: rest =>
      r ← restoreWidgetType widgetType;
      rs ← forEachAsync rest;
      Ret (match r with Some e => e :: rs | None => rs end)
  end.

(** What the entry file runs for one file of [widgets/], [widgetTypes]
    being what [JSON.parse(content)] returned; the value is the list of the
    rejections left unhandled. *)
Definition restoreWidgetsFile (file : string) (widgetTypes : value)
  : Prog (list exn) :=
  try_catch
    (let widgetsBundleName := Restore.entityName file in
     alias ← lift (Node.toLowerCase widgetsBundleName);
     _ ← saveWidgetsBundle
           (VObj [("alias", VStr alias); ("image", VNull);
                  ("title", VStr widgetsBundleName)]);
     items ← lift (as_array widgetTypes);
     forEachAsync items)
    (fun _ => Ret []).

End Widgets.

(** *** Convert *)

Module Convert.

(** The callback of [readFile] for one file of [dashboards/], up to the
    write. *)
Definition convertDashboard (dashboard : value) : res value :=
  d ← delete_prop dashboard "id";
  d ← delete_prop d "createdTime";
  d ← delete_prop d "tenantId";
  delete_prop d "assignedCustomers".

(** The write is started and not awaited; what the callback throws is an
    unhandled rejection. *)
Definition convertDashboardFile (dir filename : string) (parsed : value)
  : Prog unit :=
  dashboard ← lift (convertDashboard parsed);
  perform (WriteFile [dir; "dashboards"; filename]
                     (Backup.JSON_stringify dashboard)).

(** [delete ruleChain.nodes[index].id; delete ...createdTime;
    delete ...ruleChainId] *)
Definition stripNode (node : value) : res value :=
  n ← delete_prop node "id";
  n ← delete_prop n "createdTime";
  delete_prop n "ruleChainId".

(** The callback of [readFile] for one file of [ruleChains/], up to the
    write. *)
Definition convertRuleChain (filename : string) (ruleChain : value)
  : res value :=
  rc ← delete_prop ruleChain "ruleChainId";
  nodes ← get_prop rc "nodes";
  items ← as_array nodes;
  items' ← mapM stripNode items;
  metadata ← set_prop rc "nodes" (VArr items');
  name ← Node.parse_name filename;
  Val (VObj [("ruleChain",
              VObj [("additionalInfo", VNull);
                    ("name", VStr name);
                    ("firstRuleNodeId", VNull);
                    ("root", VBool false);
                    ("debugMode", VBool false);
                    ("configuration", VNull)]);
             ("metadata", metadata)]).

End Convert.

(** *** The categories of a restore run *)

Module Cli.

Definition ALL_OPTIONS : list string :=
  ["dashboards"; "rulechains"; "widgets"; "devices"].

(** [ALL_OPTIONS.filter(option => cmdObj[option])], then all of them when
    none is left: the [options] the 1026-line entry file passes to
    [restore]. *)
Definition selectOptions (cmdObj : value) : res (list string) :=
  options ← Backup.filterRes (fun option => truthy <$> get_prop cmdObj option)
                             ALL_OPTIONS;
  Val (if (0 <? length options)%nat then options else ALL_OPTIONS).

(** [options.includes(category)] *)
Definition includes (options : list string) (category : string) : bool :=
  existsb (String.eqb category) options.

End Cli.

(** *** Export of a whole category *)

Module Category.

(** [backupDevices]: the listing and one [backupDevice] per device. *)
Definition backupDevices (tenantDir : string) : Prog unit :=
  console_log (VStr "Backup Devices...");;
  Backup.logAndReject
    (page ← api.getDevices DEFAULT_GET_LIST_PARAMS;
     devices ← lift (get_prop page "data");
     listed ← lift (as_array devices);
     allFulfilled ← Backup.fanOut (Backup.backupDevice tenantDir) listed;
     Backup.whenAll allFulfilled "Devices backup completed!").

End Category.

(** ** Vocabulary of the further statements *)

Module Obs.

Fixpoint has_dot (s : string) : bool :=
  match s with
  | EmptyString => false
  | String c rest => Ascii.eqb c "." || has_dot rest
  end.

(** [undefined] or [null]: what no property can be read from. *)
Definition nullish (v : value) : bool :=
  match v with
  | VUndef | VNull => true
  | _ => false
  end.



(** An entry on which [getAttributesObject] throws: [null] or [undefined],
    whose destructuring fails, or an entry whose key has no primitive
    value. *)
Definition throwing (e : value) : bool :=
  nullish e ||
  match toPropertyKey (get_opt e "key") with
  | Raise _ => true
  | _ => false
  end.

(** A value as a JSON document gives it: [undefined] occurs nowhere. *)
Fixpoint is_json (v : value) : bool :=
  match v with
  | VUndef => false
  | VArr l => forallb is_json l
  | VObj ps => forallb (fun '(_, x) => is_json x) ps
  | _ => true
  end.

(** The object [d] has no property called [k]. *)
Definition lacks (k : string) (d : value) : Prop :=
  exists top, d = VObj top /\ ~ In k (List.map fst top).

(** The requests of a run that were rejected. *)
Definition rejected {S A : Type} (r : result S A) : list Call :=
  omap (fun '(c, resp) => match resp with
                          | Fail _ => Some c
                          | Ok _ => None
                          end) (trace r).

(** The widget types a run has posted. *)
Definition widgetTypesPosted {S A : Type} (r : result S A) : list value :=
  omap (fun c => match c with
                 | AxiosPost "widgetType" w => Some w
                 | _ => None
                 end) (calls r).

(** [w] without the three fields of the source installation. *)
Definition withoutSource (w : value) : value :=
  without "tenantId" (without "createdTime" (without "id" w)).

(** A node of a rule chain without the three fields [convert] removes. *)
Definition strippedNode (n : value) : value :=
  without "ruleChainId" (without "createdTime" (without "id" n)).

(** The bundle a file of [widgets/] is restored as. *)
Definition bundleOf (name alias : string) : value :=
  VObj [("alias", VStr alias); ("image", VNull); ("title", VStr name)].

(** The four reads of the export of a device. *)
Definition deviceReads (id : value) : list Call :=
  [Request (GetDeviceAttributesByScope id SERVER_SCOPE);
   Request (GetDeviceAttributesByScope id SHARED_SCOPE);
   Request (GetDeviceAttributesByScope id CLIENT_SCOPE);
   Request (GetDeviceCredentials id)].

(** The line a category prints when all its entities are written. *)
Definition completed (category : string) : Call :=
  ConsoleLog (LogValue (VStr (category +:+ " backup completed!"))).

(** An answer as the promise of the request settles with it. *)
Definition settled (resp : Resp) : res value :=
  match resp with
  | Ok d => Val d
  | Fail d => Raise (AxiosError d)
  end.

(** What the export of a device does once its four answers are there. *)
Definition afterReads (tenantDir : string) (device : value)
    (r1 r2 r3 r4 : res value) : Prog unit :=
  serverAttributes ← lift r1;
  sharedAttributes ← lift r2;
  clientAttributes ← lift r3;
  credentials ← lift r4;
  serverAttributes ← lift (Backup.dropLastUpdateTs serverAttributes);
  sharedAttributes ← lift (Backup.dropLastUpdateTs sharedAttributes);
  clientAttributes ← lift (Backup.dropLastUpdateTs clientAttributes);
  let attributes := VObj [("server", serverAttributes);
                          ("shared", sharedAttributes);
                          ("client", clientAttributes)] in
  accessToken ← lift (get_prop credentials "credentialsId");
  name ← lift (get_prop device "name");
  Backup.writeJson [tenantDir; "devices"; toString name +:+ ".json"]
                   (VObj [("accessToken", accessToken); ("attributes", attributes)]).

End Obs.

Import Obs.

(** ** Further sample installations *)

Module Fixture.

(** The sample installation with the credentials of its devices out of
    reach. *)
Definition noCredentials : handler Sample.journal := fun c s =>
  match c with
  | Request (GetDeviceCredentials _) =>
      (Fail (VObj [("status", VNum 403); ("message", VStr "forbidden")]), s)
  | _ => Sample.target c s
  end.

(** A listed dashboard. *)
Definition listed (id name : string) : value :=
  VObj [("id", VObj [("entityType", VStr "DASHBOARD"); ("id", VStr id)]);
        ("name", VStr name)].

(** An installation that lists two dashboards and rejects the fetch of the
    first. *)
Definition flaky : handler Sample.journal := fun c s =>
  match c with
  | Request (GetDashboards _) =>
      (Ok (Sample.pageOf [listed "dash-1" "Base"; listed "dash-2" "Plant"]), s)
  | Request (GetDashboardById id) =>
      (if strict_eq id (VStr "dash-1")
       then Fail (VObj [("status", VNum 500); ("message", VStr "unavailable")])
       else Ok Sample.liveDashboard, s)
  | _ => Sample.target c s
  end.

(** The sample installation with a [Sensor-7] that has no [LABELS]
    attribute. *)
Definition unlabelled : handler Sample.journal := fun c s =>
  match c with
  | Request (GetDeviceAttributes _ _) => (Ok (VArr []), Sample.noted c s)
  | _ => Sample.target c s
  end.

(** A target that refuses every creation as a duplicate and whose lookups
    by name find nothing. *)
Definition hidden : handler Sample.journal := fun c s =>
  match c with
  | Request (GetDevices _) => (Ok (Sample.pageOf []), Sample.noted c s)
  | _ => Sample.refusing 31 c s
  end.

(** An installation that lists [Sensor-7] and a device without an id, and
    keeps the credentials of its devices out of reach. *)
Definition fleet : handler Sample.journal := fun c s =>
  match c with
  | Request (GetDevices _) =>
      (Ok (Sample.pageOf [VObj [("name", VStr "Ghost")]; Sample.liveDevice]), s)
  | _ => noCredentials c s
  end.

End Fixture.

(** ** General facts *)

Lemma bind_unfold {A B : Type} (p : Prog A) (f : A -> Prog B) :
  (p ≫= f) = bind p f.
Proof. reflexivity. Qed.

Lemma result_eta {S A : Type} (r : result S A) :
  mkResult (out r) (trace r) (final r) = r.
Proof. by destruct r. Qed.

Lemma run_bind {S A B : Type} (h : handler S) (p : Prog A) (f : A -> Prog B) s :
  run h (p ≫= f) s = and_then h (run h p s) f.
Proof.
  rewrite bind_unfold. revert s.
  induction p as [a|e|c| |c k IH]; intros s; simpl; try reflexivity.
  - unfold and_then; simpl. by rewrite result_eta.
  - rewrite IH. unfold and_then; simpl.
    by destruct (run h (k (h c s).1) (h c s).2) as [[] ? ?].
Qed.

Lemma run_try_catch {S A : Type} (h : handler S) (p : Prog A) handle s :
  run h (try_catch p handle) s = or_catch h (run h p s) handle.
Proof.
  revert s.
  induction p as [a|e|c| |c k IH]; intros s; simpl; try reflexivity.
  - unfold or_catch; simpl. by rewrite result_eta.
  - rewrite IH. unfold or_catch; simpl.
    by destruct (run h (k (h c s).1) (h c s).2) as [[] ? ?].
Qed.

(** A body wrapped in [try { ... } catch (e) {}] never ends by throwing. *)
Lemma run_swallowed {S : Type} (h : handler S) (p : Prog unit) s e :
  out (run h (try_catch p (fun _ => Ret tt)) s) <> Threw e.
Proof.
  rewrite run_try_catch. unfold or_catch.
  by destruct (run h p s) as [[] ? ?].
Qed.

Lemma run_bind_returned {S A B : Type} (h : handler S) (p : Prog A)
    (f : A -> Prog B) s a t s1 :
  run h p s = mkResult (Returned a) t s1 ->
  run h (p ≫= f) s =
    mkResult (out (run h (f a) s1)) (t ++ trace (run h (f a) s1))
             (final (run h (f a) s1)).
Proof. intros H. rewrite run_bind, H. reflexivity. Qed.

(** *** Calls that can never happen *)

Lemma all_calls_bind {A B : Type} (P : Call -> Prop) (p : Prog A) (f : A -> Prog B) :
  all_calls P p -> (forall a, all_calls P (f a)) -> all_calls P (p ≫= f).
Proof.
  rewrite bind_unfold. intros Hp Hf.
  induction Hp; simpl; try constructor; auto.
Qed.

Lemma all_calls_try_catch {A : Type} (P : Call -> Prop) (p : Prog A) handle :
  all_calls P p -> (forall e, all_calls P (handle e)) ->
  all_calls P (try_catch p handle).
Proof.
  intros Hp Hh. induction Hp; simpl; try constructor; auto.
Qed.

Lemma all_calls_lift {A : Type} (P : Call -> Prop) (r : res A) :
  all_calls P (lift r).
Proof. destruct r; constructor. Qed.

Lemma all_calls_await {P : Call -> Prop} (c : Call) :
  P c -> all_calls P (await c).
Proof. intros H. constructor; [done|]. intros []; constructor. Qed.

Lemma all_calls_perform {P : Call -> Prop} (c : Call) :
  P c -> all_calls P (perform c).
Proof. intros H. constructor; [done|]. intros; constructor. Qed.

Lemma all_calls_run {S A : Type} (P : Call -> Prop) (p : Prog A) (h : handler S) s :
  all_calls P p -> Forall P (calls (run h p s)).
Proof.
  intros Hp. revert s. induction Hp; intros s; simpl; try constructor; auto.
  apply H1.
Qed.

Lemma all_calls_weaken {A : Type} (P Q : Call -> Prop) (p : Prog A) :
  (forall c, P c -> Q c) -> all_calls P p -> all_calls Q p.
Proof. intros HPQ Hp. induction Hp; constructor; auto. Qed.


(** *** Property lists and paths *)

Lemma assoc_get_set_eq k x ps : assoc_get k (assoc_set k x ps) = x.
Proof.
  induction ps as [|[k' v] ps IH]; simpl.
  - by rewrite String.eqb_refl.
  - destruct (String.eqb k k') eqn:E; simpl; rewrite E; [done | apply IH].
Qed.

Lemma assoc_get_set_ne k k' x ps :
  k <> k' -> assoc_get k' (assoc_set k x ps) = assoc_get k' ps.
Proof.
  intros Hne. induction ps as [|[k0 v] ps IH]; simpl.
  - destruct (String.eqb k' k) eqn:E; [|done].
    apply String.eqb_eq in E. congruence.
  - destruct (String.eqb k k0) eqn:E; simpl.
    + apply String.eqb_eq in E. subst k0.
      destruct (String.eqb k' k) eqn:E'; [|done].
      apply String.eqb_eq in E'. congruence.
    + destruct (String.eqb k' k0); [done | apply IH].
Qed.

Lemma assoc_get_del_eq k ps : assoc_get k (assoc_del k ps) = VUndef.
Proof.
  induction ps as [|[k' v] ps IH]; simpl; [done|].
  destruct (String.eqb k k') eqn:E; simpl; [done|]. by rewrite E.
Qed.

Lemma assoc_get_del_ne k k' ps :
  k <> k' -> assoc_get k' (assoc_del k ps) = assoc_get k' ps.
Proof.
  intros Hne. induction ps as [|[k0 v] ps IH]; simpl; [done|].
  destruct (String.eqb k k0) eqn:E; simpl.
  - apply String.eqb_eq in E. subst k0.
    destruct (String.eqb k' k) eqn:E'; [|done].
    apply String.eqb_eq in E'. congruence.
  - destruct (String.eqb k' k0); [done | apply IH].
Qed.

Lemma get_path_app o p q :
  get_path o (p ++ q) = get_path o p ≫= (fun o' => get_path o' q).
Proof.
  revert o. induction p as [|k p IH]; intros o; simpl; [done|].
  destruct (get_prop o k); simpl; [apply IH | done | done].
Qed.

Lemma get_path_val_app o p q o' :
  get_path o p = Val o' -> get_path o (p ++ q) = get_path o' q.
Proof. intros H. by rewrite get_path_app, H. Qed.

Lemma get_path_cons_val o k p v :
  get_path o (k :: p) = Val v ->
  exists o', get_prop o k = Val o' /\ get_path o' p = Val v.
Proof.
  simpl. destruct (get_prop o k) as [o'| |]; simpl; [|done|done]. eauto.
Qed.

(** *** Attribute lists *)

Lemma get_prop_get_opt e k : nullish e = false -> get_prop e k = Val (get_opt e k).
Proof.
  destruct e; simpl; try done; intros _;
    repeat match goal with
           | |- context [if ?b then _ else _] => destruct b
           | |- context [match ?x with _ => _ end] => destruct x
           end; done.
Qed.

Lemma get_prop_nullish e k : nullish e = true -> get_prop e k = Raise TypeError.
Proof. by destruct e. Qed.

(** Induction on a value with the hypothesis for every element of an
    array and every property of an object. *)
Lemma value_nested_ind (P : value -> Prop) :
  P VUndef -> P VNull -> (forall b, P (VBool b)) -> (forall n, P (VNum n)) ->
  (forall s, P (VStr s)) ->
  (forall l, Forall P l -> P (VArr l)) ->
  (forall ps, Forall (fun p => P p.2) ps -> P (VObj ps)) ->
  forall v, P v.
Proof.
  intros Hu Hn Hb Hz Hs Ha Ho. fix IH 1.
  intros [| |b|n|s|l|ps]; [exact Hu|exact Hn|apply Hb|apply Hz|apply Hs| |].
  - apply Ha. induction l as [|x l IHl]; constructor; [apply IH | apply IHl].
  - apply Ho. induction ps as [|[k x] ps IHps]; constructor; [apply IH | apply IHps].
Qed.

(** The only error a key conversion throws is a [TypeError]. *)
Lemma toPropertyKey_raises v e : toPropertyKey v = Raise e -> e = TypeError.
Proof.
  revert e. induction v as [| | | | |l IH|ps _] using value_nested_ind;
    intros e; cbn [toPropertyKey]; try done.
  - by destruct (_ <? _)%Z.
  - assert (Hgo : forall e, mapM (fun x => match x with
                                           | VUndef | VNull => Val ""
                                           | _ => toPropertyKey x
                                           end) l = Raise e -> e = TypeError).
    { induction IH as [|x l Hx _ IHl]; intros e'; cbn [mapM]; [done|].
      assert (Hp : forall e, match x with
                             | VUndef | VNull => Val ""
                             | _ => toPropertyKey x
                             end = Raise e -> e = TypeError).
      { intros e0. destruct x; try done; apply Hx. }
      destruct (match x with VUndef | VNull => Val "" | _ => toPropertyKey x end)
        as [piece|e0|] eqn:Ex; cbn [mbind res_bind]; [|intros [= <-]; by apply Hp|done].
      destruct (mapM _ l) as [others|e1|] eqn:El; cbn [mbind res_bind mret]; try done.
      intros [= <-]. by apply IHl. }
    destruct (mapM _ l) as [pieces|e0|] eqn:El; cbn [mbind res_bind]; try done.
    intros [= <-]. by apply Hgo.
  - destruct (existsb _ _); [by intros [= <-]|done].
Qed.

(** What one entry does to the map being built. *)
Lemma getAttributesObject_step m e :
  (key ← get_prop e "key";
   x ← get_prop e "value";
   Restore.assignAttribute m key x) =
  if taken e then Val (withEntry m e)
  else if throwing e then Raise TypeError else Js.Unmodelled.
Proof.
  destruct (nullish e) eqn:En.
  { rewrite (get_prop_nullish _ _ En). unfold throwing. rewrite En. by destruct e. }
  rewrite !(get_prop_get_opt _ _ En). cbn [mbind res_bind].
  unfold Restore.assignAttribute, withEntry, throwing.
  rewrite En. cbn [orb].
  assert (Ht : taken e =
               match toPropertyKey (get_opt e "key") with
               | Val k =>
                   negb (String.eqb k "__proto__") ||
                   match get_opt e "value" with
                   | VNull | VArr _ | VObj _ => false
                   | _ => true
                   end
               | _ => false
               end) by by destruct e.
  rewrite Ht.
  destruct (toPropertyKey (get_opt e "key")) as [k|ex|] eqn:Ek; cbn [mbind res_bind].
  - destruct (String.eqb k "__proto__"); cbn [negb orb]; [|done].
    by destruct (get_opt e "value").
  - by rewrite (toPropertyKey_raises _ _ Ek).
  - done.
Qed.

Lemma getAttributesObject_stuck (acc : res (gmap string value)) l :
  (forall m, acc <> Val m) ->
  foldl (fun acc item =>
           attributesObject ← acc;
           key ← get_prop item "key";
           x ← get_prop item "value";
           Restore.assignAttribute attributesObject key x) acc l = acc.
Proof.
  revert acc. induction l as [|e l IH]; intros acc Hacc; [done|].
  cbn [foldl]. destruct acc as [m| |]; [by destruct (Hacc m)| |];
    cbn [mbind res_bind]; by apply IH.
Qed.

Lemma getAttributesObject_cons m e l :
  foldl (fun acc item =>
           attributesObject ← acc;
           key ← get_prop item "key";
           x ← get_prop item "value";
           Restore.assignAttribute attributesObject key x) (Val m) (e :: l) =
  if taken e
  then foldl (fun acc item =>
                attributesObject ← acc;
                key ← get_prop item "key";
                x ← get_prop item "value";
                Restore.assignAttribute attributesObject key x)
             (Val (withEntry m e)) l
  else if throwing e then Raise TypeError else Js.Unmodelled.
Proof.
  cbn [foldl].
  match goal with
  | |- foldl ?F ?a l = _ =>
      change a
        with (key ← get_prop e "key";
              x ← get_prop e "value";
              Restore.assignAttribute m key x)
  end.
  rewrite (getAttributesObject_step m e).
  destruct (taken e); [done|].
  destruct (throwing e); by apply getAttributesObject_stuck.
Qed.

Lemma getAttributesObject_from m l :
  Forall (fun e => taken e = true) l ->
  foldl (fun acc item =>
           attributesObject ← acc;
           key ← get_prop item "key";
           x ← get_prop item "value";
           Restore.assignAttribute attributesObject key x) (Val m) l =
  Val (foldl withEntry m l).
Proof.
  intros Hl. revert m. induction Hl as [|e l He _ IH]; intros m; [done|].
  rewrite getAttributesObject_cons, He. apply IH.
Qed.

(** A list of entries that are all taken becomes the map of its entries. *)
Lemma getAttributesObject_taken l :
  storable l ->
  Restore.getAttributesObject (VArr l) = Val (attributesOf l).
Proof.
  intros Hl. unfold Restore.getAttributesObject, attributesOf.
  cbn [as_array mbind res_bind]. by apply getAttributesObject_from.
Qed.

(** ** Device restore *)

Lemma run_restoreScope {S : Type} (h : handler S) id device sc l s :
  get_path device ["attributes"; scope_field sc] = Val (VArr l) ->
  storable l ->
  run h (Restore.restoreScope id device (scope_field sc) sc) s =
    match l with
    | [] => mkResult (Returned tt) [] s
    | _ :: _ =>
        match (h (writeOf id sc l) s).1 with
        | Ok d => mkResult (Returned tt) [(writeOf id sc l, Ok d)]
                           (h (writeOf id sc l) s).2
        | Fail d => mkResult (Threw (AxiosError d)) [(writeOf id sc l, Fail d)]
                             (h (writeOf id sc l) s).2
        end
    end.
Proof.
  intros Hl He. unfold Restore.restoreScope.
  change ["attributes"; scope_field sc; "length"]
    with (["attributes"; scope_field sc] ++ ["length"])%list.
  rewrite (get_path_val_app _ _ _ _ Hl), Hl. simpl.
  destruct l as [|e l]; [done|].
  rewrite (getAttributesObject_taken _ He).
  cbn -[attributesOf length]. unfold writeOf.
  destruct (Z.of_nat (length (e :: l))) eqn:E; try done; simpl.
  by destruct (h _ s).1.
Qed.

Ltac calls_tac :=
  repeat first
    [ apply all_calls_bind; [|intros ?]
    | apply all_calls_try_catch; [|intros ?]
    | apply all_calls_lift
    | apply all_calls_await
    | apply all_calls_perform
    | match goal with
      | |- all_calls _ (if ?b then _ else _) => destruct b
      | |- all_calls _ (match ?x with _ => _ end) => destruct x
      end
    | constructor ].

(** One step of a run, keeping the vocabulary of the statements folded. *)
Ltac step :=
  cbn -[Restore.entityName strict_eq get_opt get_path get_prop get_index
        Restore.repairCredentials assoc_set assoc_get attributesOf truthy].

Ltac not_that_call :=
  repeat match goal with
         | |- _ /\ _ => split
         | |- forall _, _ => intros ?
         | H : writes_scope _ _ |- _ => destruct H as (? & ? & ?)
         | |- ~ _ => intros ?
         end;
  try discriminate; try congruence.

Lemma establishIdentity_calls name device :
  all_calls (identity_call name) (Restore.establishIdentity name device).
Proof.
  unfold Restore.establishIdentity, Restore.createDevice,
    Restore.repairCredentials, api.saveDevice, api.getDevices,
    api.getDeviceCredentials, api.saveDeviceCredentials, console_log.
  calls_tac; unfold identity_call, deviceBody; not_that_call.
Qed.

Lemma restoreDeviceBody_creates name device :
  all_calls (fun c => forall body tok,
               c = Request (SaveDevice body tok) -> body = deviceBody name)
            (Restore.establishIdentity name device ≫=
               (fun deviceId => Restore.restoreAttributes deviceId device)).
Proof.
  apply all_calls_bind.
  - eapply all_calls_weaken; [|apply establishIdentity_calls].
    by intros c [H _].
  - intros id.
    unfold Restore.restoreAttributes, Restore.restoreScope,
      api.saveDeviceAttributes.
    calls_tac; intros; discriminate.
Qed.

(** C10.  A device is always created as [{ name, type: 'AT_CORE' }], the
    name being the file name without its extension: whatever the stored
    file holds, the body of every creation request of the restore of that
    file is this one, in both entry files; and when the stored file is an
    object, that request is the first thing the restore sends. *)
Theorem C10_device_created_as_AT_CORE {S : Type} (h : handler S) (s : S)
    (file : string) (device : value) :
  (forall body tok,
     In (Request (SaveDevice body tok))
        (calls (run h (Restore.restoreDevice file device) s)) \/
     In (Request (SaveDevice body tok))
        (calls (run h (Legacy.restoreDevice file device) s)) ->
     body = deviceBody (Restore.entityName file)) /\
  (forall tok,
     get_prop device "accessToken" = Val tok ->
     hd_error (calls (run h (Restore.restoreDevice file device) s)) =
       Some (Request (SaveDevice (deviceBody (Restore.entityName file)) tok)) /\
     hd_error (calls (run h (Legacy.restoreDevice file device) s)) =
       Some (Request (SaveDevice (deviceBody (Restore.entityName file)) tok))).
Proof.
  split.
  - intros body tok Hin.
    pose proof (restoreDeviceBody_creates (Restore.entityName file) device) as Hc.
    assert (Hall : forall p : Prog unit,
               all_calls (fun c => forall body tok,
                            c = Request (SaveDevice body tok) ->
                            body = deviceBody (Restore.entityName file)) p ->
               In (Request (SaveDevice body tok)) (calls (run h p s)) ->
               body = deviceBody (Restore.entityName file)).
    { intros p Hp Hi. eapply all_calls_run in Hp.
      rewrite List.Forall_forall in Hp. by eapply Hp. }
    destruct Hin as [Hin|Hin]; revert Hin; apply Hall.
    + unfold Restore.restoreDevice. apply all_calls_try_catch; [exact Hc|].
      intros; constructor.
    + exact Hc.
  - intros tok Htok.
    unfold Legacy.restoreDevice, Restore.restoreDevice, Restore.restoreDeviceBody,
      Restore.establishIdentity, Restore.createDevice.
    rewrite Htok. split; reflexivity.
Qed.

(** The restore of [Sensor-7.json] on an empty target starts by creating
    [{ name: 'Sensor-7', type: 'AT_CORE' }]. *)
Lemma C10_witness :
  hd_error (calls (run Sample.emptyTarget
                       (Restore.restoreDevice "Sensor-7.json" Sample.storedDevice) [])) =
    Some (Request (SaveDevice (VObj [("name", VStr "Sensor-7"); ("type", VStr "AT_CORE")])
                              (VStr "tok-1"))).
Proof.
  exact (proj1 (proj2 (C10_device_created_as_AT_CORE
                         Sample.emptyTarget [] "Sensor-7.json" Sample.storedDevice)
                      (VStr "tok-1") eq_refl)).
Defined.

(** The identity stage after a refused creation.  With error code 31 it
    asks for the device named after the file (one result), takes the first
    one found, fetches its credential record and sends it back with
    [credentialsId] set to the stored token and every other field as it
    was; it then ends normally with the id of that device, also when the
    credential requests themselves are rejected.  With any other error
    code none of this is sent: the message is logged and [deviceId] stays
    [null]. *)
Lemma establishIdentity_on_refusal {S : Type} (h : handler S)
    (s0 s1 : S) (file : string) (device tok d : value) :
  get_prop device "accessToken" = Val tok ->
  h (Request (SaveDevice (deviceBody (Restore.entityName file)) tok)) s0 = (Fail d, s1) ->
  let name := Restore.entityName file in
  let r := run h (Restore.establishIdentity name device) s0 in
  (strict_eq (get_opt d "errorCode") (VNum 31) = true ->
   forall page s2 id,
     h (Request (GetDevices (byName (VStr name)))) s1 = (Ok page, s2) ->
     get_path page ["data"; "0"; "id"; "id"] = Val id ->
     out r = Returned id /\
     firstn 3 (calls r) =
       [Request (SaveDevice (deviceBody name) tok);
        Request (GetDevices (byName (VStr name)));
        Request (GetDeviceCredentials id)] /\
     (forall ps s3,
        h (Request (GetDeviceCredentials id)) s2 = (Ok (VObj ps), s3) ->
        firstn 4 (calls r) =
          [Request (SaveDevice (deviceBody name) tok);
           Request (GetDevices (byName (VStr name)));
           Request (GetDeviceCredentials id);
           Request (SaveDeviceCredentials (VObj (assoc_set "credentialsId" tok ps)))])) /\
  (strict_eq (get_opt d "errorCode") (VNum 31) = false ->
   out r = Returned VNull /\
   calls r = [Request (SaveDevice (deviceBody name) tok);
              ConsoleLog (LogValue (get_opt d "message"))]).
Proof.
  intros Htok Hcreate name r. subst r name.
  unfold Restore.establishIdentity, Restore.createDevice, api.saveDevice, calls.
  rewrite Htok. step. fold (deviceBody (Restore.entityName file)).
  rewrite Hcreate. step.
  split.
  - intros H31 page s2 id Hfind Hid. rewrite H31.
    unfold Restore.repairCredentials, api.getDevices, api.getDeviceCredentials,
      api.saveDeviceCredentials, with_page0.
    step. fold (byName (VStr (Restore.entityName file))).
    rewrite Hfind. step.
    apply get_path_cons_val in Hid as (devices & Hdevices & Hid).
    apply get_path_cons_val in Hid as (first & Hfirst & Hid).
    unfold get_index. change (string_of_nat 0) with "0".
    rewrite Hdevices. step. rewrite Hfirst. step. rewrite Hid. step.
    split; [|split].
    + destruct (h (Request (GetDeviceCredentials id)) s2) as [[c|c] s3];
        step; [|done].
      rewrite Htok. step. by destruct (h _ s3) as [[?|?] ?].
    + destruct (h (Request (GetDeviceCredentials id)) s2) as [[c|c] s3];
        step; [|done].
      rewrite Htok. by step.
    + intros ps s3 Hcred. rewrite Hcred. step. rewrite Htok. step. reflexivity.
  - intros Hother. rewrite Hother. done.
Qed.







(** In both entry files the calls of the restore of a device are those of
    the identity stage followed by those of the attribute stage. *)
Lemma restoreDevice_calls {S : Type} (h : handler S) s0 s1 file device id tr :
  run h (Restore.establishIdentity (Restore.entityName file) device) s0 =
    mkResult (Returned id) tr s1 ->
  forall r,
    r = run h (Restore.restoreDevice file device) s0 \/
    r = run h (Legacy.restoreDevice file device) s0 ->
    calls r = (List.map fst tr ++
               calls (run h (Restore.restoreAttributes id device) s1))%list.
Proof.
  intros Hid.
  assert (Hbody : calls (run h (Restore.restoreDeviceBody file device) s0) =
                  (List.map fst tr ++
                   calls (run h (Restore.restoreAttributes id device) s1))%list).
  { unfold Restore.restoreDeviceBody.
    rewrite (run_bind_returned _ _ _ _ _ _ _ Hid). unfold calls. simpl.
    by rewrite List.map_app. }
  intros r [-> | ->]; [|exact Hbody].
  unfold Restore.restoreDevice. rewrite run_try_catch. unfold or_catch.
  destruct (run h (Restore.restoreDeviceBody file device) s0) as [[] t sf];
    try exact Hbody.
  unfold calls in *. simpl in *. by rewrite List.app_nil_r.
Qed.

(** In [src/index.ts] the restore of a device ends as its attribute stage
    does. *)
Lemma earlier_restoreDevice_out {S : Type} (h : handler S) s0 s1 file device id tr :
  run h (Restore.establishIdentity (Restore.entityName file) device) s0 =
    mkResult (Returned id) tr s1 ->
  out (run h (Legacy.restoreDevice file device) s0) =
    out (run h (Restore.restoreAttributes id device) s1).
Proof.
  intros Hid. unfold Legacy.restoreDevice, Restore.restoreDeviceBody.
  by rewrite (run_bind_returned _ _ _ _ _ _ _ Hid).
Qed.

Lemma firstn_app_exact {A : Type} (n : nat) (l1 l2 l' : list A) :
  firstn n l1 = l' -> length l' = n -> firstn n (l1 ++ l2) = l'.
Proof.
  intros <- Hlen. rewrite List.firstn_app.
  rewrite List.length_firstn in Hlen.
  replace (n - length l1)%nat with 0%nat by lia.
  by rewrite List.app_nil_r.
Qed.

Lemma restoreAttributes_no_repair id device :
  all_calls (fun c => ~ repair_call c) (Restore.restoreAttributes id device).
Proof.
  unfold Restore.restoreAttributes, Restore.restoreScope, api.saveDeviceAttributes.
  calls_tac; intros [[? ?]|[[? ?]|[? ?]]]; discriminate.
Qed.

(** When the creation of the device is refused with error code 31 and
    the lookup of the device named after the file (one result) finds a
    device, the restore of the file, in both entry files, goes on with the
    read of the credentials of the first device found and, when they are
    read, sends them back with [credentialsId] set to the stored token and
    every other field as it was: these are its first four requests.  The
    identity stage then ends with the id of that device, also when the
    credential requests are rejected, and what follows is the attribute
    stage on that device; in [src/index.ts] the restore ends as that stage
    ends.  With any other error code the message is logged and no request
    of the repair path is ever sent.  In the 1026-line entry file nothing
    the restore of a device throws leaves its callback. *)
Lemma duplicate_device_repairs_credential {S : Type} (h : handler S)
    (s0 s1 : S) (file : string) (device tok d : value) (r : result S unit) :
  get_prop device "accessToken" = Val tok ->
  h (Request (SaveDevice (deviceBody (Restore.entityName file)) tok)) s0 = (Fail d, s1) ->
  r = run h (Restore.restoreDevice file device) s0 \/
  r = run h (Legacy.restoreDevice file device) s0 ->
  let name := Restore.entityName file in
  (strict_eq (get_opt d "errorCode") (VNum 31) = true ->
   forall page s2 id,
     h (Request (GetDevices (byName (VStr name)))) s1 = (Ok page, s2) ->
     get_path page ["data"; "0"; "id"; "id"] = Val id ->
     firstn 3 (calls r) =
       [Request (SaveDevice (deviceBody name) tok);
        Request (GetDevices (byName (VStr name)));
        Request (GetDeviceCredentials id)] /\
     (forall ps s3,
        h (Request (GetDeviceCredentials id)) s2 = (Ok (VObj ps), s3) ->
        let saved := assoc_set "credentialsId" tok ps in
        firstn 4 (calls r) =
          [Request (SaveDevice (deviceBody name) tok);
           Request (GetDevices (byName (VStr name)));
           Request (GetDeviceCredentials id);
           Request (SaveDeviceCredentials (VObj saved))] /\
        assoc_get "credentialsId" saved = tok /\
        (forall k, k <> "credentialsId" -> assoc_get k saved = assoc_get k ps)) /\
     (exists tr s',
        run h (Restore.establishIdentity name device) s0 = mkResult (Returned id) tr s' /\
        calls r =
          (List.map fst tr ++ calls (run h (Restore.restoreAttributes id device) s'))%list /\
        (r = run h (Legacy.restoreDevice file device) s0 ->
         out r = out (run h (Restore.restoreAttributes id device) s')))) /\
  (strict_eq (get_opt d "errorCode") (VNum 31) = false ->
   firstn 2 (calls r) =
     [Request (SaveDevice (deviceBody name) tok);
      ConsoleLog (LogValue (get_opt d "message"))] /\
   Forall (fun c => ~ repair_call c) (calls r)) /\
  (forall e, out (run h (Restore.restoreDevice file device) s0) <> Threw e).
Proof.
  intros Htok Hcreate Hr name. subst name.
  destruct (establishIdentity_on_refusal h s0 s1 file device tok d Htok Hcreate)
    as [H31 Hother].
  split; [|split; [|intros e; apply run_swallowed]].
  - intros Hcode page s2 id Hfind Hid.
    destruct (H31 Hcode page s2 id Hfind Hid) as (Hout & Hthree & Hfour).
    destruct (run h (Restore.establishIdentity (Restore.entityName file) device) s0)
      as [o tr s'] eqn:Hrun.
    cbn [out] in Hout. subst o. unfold calls in Hthree, Hfour. cbn [trace] in Hthree, Hfour.
    pose proof (restoreDevice_calls h s0 s' file device id tr Hrun r Hr) as Hcalls.
    split; [|split].
    + rewrite Hcalls. by apply firstn_app_exact.
    + intros ps s3 Hcred saved. split; [|split].
      * rewrite Hcalls. apply firstn_app_exact; [|done]. by apply (Hfour ps s3).
      * apply assoc_get_set_eq.
      * intros k Hk. by apply assoc_get_set_ne.
    + exists tr, s'. split; [done|]. split; [done|].
      intros ->. by apply (earlier_restoreDevice_out h s0 s' file device id tr).
  - intros Hcode. destruct (Hother Hcode) as [Hout Hlog].
    destruct (run h (Restore.establishIdentity (Restore.entityName file) device) s0)
      as [o tr s'] eqn:Hrun.
    cbn [out] in Hout. subst o. unfold calls in Hlog. cbn [trace] in Hlog.
    pose proof (restoreDevice_calls h s0 s' file device VNull tr Hrun r Hr) as Hcalls.
    rewrite Hcalls, Hlog. split; [reflexivity|].
    apply List.Forall_app. split.
    + repeat constructor; intros [[? ?]|[[? ?]|[? ?]]]; discriminate.
    + apply all_calls_run, restoreAttributes_no_repair.
Qed.

(** On a target that holds [Sensor-7] and refuses its creation with code
    31, the restore of [Sensor-7.json] starts with the creation, the
    lookup, the read of the credentials and their write with the stored
    token; with code 2 it starts with the creation and the log. *)
Lemma duplicate_device_repaired_on_sample :
  firstn 4 (calls (run (Sample.refusing 31)
                       (Restore.restoreDevice "Sensor-7.json" Sample.storedDevice) [])) =
    [Request (SaveDevice (deviceBody "Sensor-7") (VStr "tok-1"));
     Request (GetDevices (byName (VStr "Sensor-7")));
     Request (GetDeviceCredentials (VStr "dev-7"));
     Request (SaveDeviceCredentials
                (VObj [("id", VObj [("id", VStr "cred-7")]);
                       ("deviceId", VObj [("entityType", VStr "DEVICE");
                                          ("id", VStr "dev-7")]);
                       ("credentialsType", VStr "ACCESS_TOKEN");
                       ("credentialsId", VStr "tok-1")]))] /\
  firstn 2 (calls (run (Sample.refusing 2)
                       (Legacy.restoreDevice "Sensor-7.json" Sample.storedDevice) [])) =
    [Request (SaveDevice (deviceBody "Sensor-7") (VStr "tok-1"));
     ConsoleLog (LogValue (VStr "refused"))].
Proof.
  split.
  - destruct (duplicate_device_repairs_credential (Sample.refusing 31) [] []
                "Sensor-7.json" Sample.storedDevice (VStr "tok-1") _ _
                eq_refl eq_refl (or_introl eq_refl))
      as (H31 & _ & _).
    destruct (H31 eq_refl _ [] (VStr "dev-7") eq_refl eq_refl) as (_ & Hfour & _).
    exact (proj1 (Hfour Sample.liveCredentials [] eq_refl)).
  - destruct (duplicate_device_repairs_credential (Sample.refusing 2) [] []
                "Sensor-7.json" Sample.storedDevice (VStr "tok-1") _ _
                eq_refl eq_refl (or_intror eq_refl))
      as (_ & Hother & _).
    exact (proj1 (Hother eq_refl)).
Qed.

(** C1.  A target refuses the creation of [Sensor-7] with code 31 and
    answers the lookup by name with an empty page.  [devices[0].id.id]
    then throws inside the [catch] block: the lookup is the last request
    of the restore of the file, the credentials are neither read nor
    written and the stored attributes are not sent, in either entry file.
    In the 1026-line entry file the [try] around the body swallows the
    error; in [src/index.ts] it leaves the callback. *)
Theorem C1_unmatched_duplicate_is_not_repaired :
  (exists d,
     (Fixture.hidden (Request (SaveDevice (deviceBody "Sensor-7") (VStr "tok-1"))) []).1 =
       Fail d /\
     strict_eq (get_opt d "errorCode") (VNum 31) = true) /\
  (Fixture.hidden (Request (GetDevices (byName (VStr "Sensor-7")))) []).1 =
    Ok (Sample.pageOf []) /\
  calls (run Fixture.hidden (Restore.restoreDevice "Sensor-7.json" Sample.storedDevice) []) =
    [Request (SaveDevice (deviceBody "Sensor-7") (VStr "tok-1"));
     Request (GetDevices (byName (VStr "Sensor-7")))] /\
  out (run Fixture.hidden (Restore.restoreDevice "Sensor-7.json" Sample.storedDevice) []) =
    Returned tt /\
  calls (run Fixture.hidden (Legacy.restoreDevice "Sensor-7.json" Sample.storedDevice) []) =
    [Request (SaveDevice (deviceBody "Sensor-7") (VStr "tok-1"));
     Request (GetDevices (byName (VStr "Sensor-7")))] /\
  out (run Fixture.hidden (Legacy.restoreDevice "Sensor-7.json" Sample.storedDevice) []) =
    Threw TypeError.
Proof. split; [eexists; split; reflexivity|]. repeat split; reflexivity. Qed.


Lemma rejected_calls {S A : Type} (r : result S A) c :
  In c (rejected r) -> In c (calls r).
Proof.
  unfold rejected, calls. induction (trace r) as [|[c' resp] tr IH]; simpl; [done|].
  destruct resp; simpl; [by right; apply IH|].
  intros [<-|H]; [by left | right; by apply IH].
Qed.







(** Whatever the platform: when the creation is refused with a code other
    than 31 and the stored server list is not empty, the third call of the
    restore of the device is the write of that list to the id [null]. *)
Lemma refused_creation_reaches_attributes {S : Type} (h : handler S) (s0 s1 : S)
    (file : string) (device tok d e : value) (l : list value) (r : result S unit) :
  get_prop device "accessToken" = Val tok ->
  h (Request (SaveDevice (deviceBody (Restore.entityName file)) tok)) s0 = (Fail d, s1) ->
  strict_eq (get_opt d "errorCode") (VNum 31) = false ->
  get_path device ["attributes"; "server"] = Val (VArr (e :: l)) ->
  storable (e :: l) ->
  r = run h (Restore.restoreDevice file device) s0 \/
  r = run h (Legacy.restoreDevice file device) s0 ->
  firstn 3 (calls r) =
    [Request (SaveDevice (deviceBody (Restore.entityName file)) tok);
     ConsoleLog (LogValue (get_opt d "message"));
     writeOf VNull SERVER_SCOPE (e :: l)].
Proof.
  intros Htok Hcreate Hcode Hserver Hen Hr.
  set (note := ConsoleLog (LogValue (get_opt d "message"))).
  assert (Hid : run h (Restore.establishIdentity (Restore.entityName file) device) s0 =
                mkResult (Returned VNull)
                  [(Request (SaveDevice (deviceBody (Restore.entityName file)) tok), Fail d);
                   (note, (h note s1).1)] (h note s1).2).
  { unfold Restore.establishIdentity, Restore.createDevice, api.saveDevice.
    rewrite Htok. step. fold (deviceBody (Restore.entityName file)).
    rewrite Hcreate. step. by rewrite Hcode. }
  pose proof (run_restoreScope h VNull device SERVER_SCOPE (e :: l) (h note s1).2
                Hserver Hen) as Hscope.
  simpl scope_field in Hscope.
  assert (Hbody : firstn 3 (calls (run h (Restore.restoreDeviceBody file device) s0)) =
                  [Request (SaveDevice (deviceBody (Restore.entityName file)) tok);
                   note; writeOf VNull SERVER_SCOPE (e :: l)]).
  { unfold Restore.restoreDeviceBody.
    rewrite (run_bind_returned _ _ _ _ _ _ _ Hid).
    unfold Restore.restoreAttributes. rewrite run_bind, Hscope.
    unfold calls, and_then.
    by destruct (h (writeOf VNull SERVER_SCOPE (e :: l)) (h note s1).2).1. }
  destruct Hr as [-> | ->]; [|exact Hbody].
  unfold Restore.restoreDevice. rewrite run_try_catch. unfold or_catch.
  destruct (run h (Restore.restoreDeviceBody file device) s0) as [[] tr sf];
    try exact Hbody.
  unfold calls in *. simpl in *. rewrite List.app_nil_r. exact Hbody.
Qed.

(** C5.  A creation refused with a code other than 31 does not stop the
    restore of the device: [deviceId] is still [null] when the attribute
    stage runs, and the stored server list is posted to
    [/plugins/telemetry/null/SERVER_SCOPE].  Here the refusal carries code
    2 and the stored device has one server attribute. *)
Theorem C5_attributes_written_after_refused_creation :
  calls (run (Sample.refusing 2)
             (Restore.restoreDevice "Sensor-7.json" Sample.storedDevice) []) =
    [Request (SaveDevice (deviceBody "Sensor-7") (VStr "tok-1"));
     ConsoleLog (LogValue (VStr "refused"));
     writeOf VNull SERVER_SCOPE (Sample.storedLists SERVER_SCOPE)] /\
  calls (run (Sample.refusing 2)
             (Legacy.restoreDevice "Sensor-7.json" Sample.storedDevice) []) =
    [Request (SaveDevice (deviceBody "Sensor-7") (VStr "tok-1"));
     ConsoleLog (LogValue (VStr "refused"));
     writeOf VNull SERVER_SCOPE (Sample.storedLists SERVER_SCOPE)] /\
  writes_scope SERVER_SCOPE (writeOf VNull SERVER_SCOPE (Sample.storedLists SERVER_SCOPE)) /\
  endpoint (SaveDeviceAttributes VNull SERVER_SCOPE
              (attributesOf (Sample.storedLists SERVER_SCOPE))) =
    ("POST", "/plugins/telemetry/null/SERVER_SCOPE").
Proof.
  repeat split; try reflexivity.
  unfold writes_scope, writeOf. eauto.
Qed.

(** ** Dashboard restore: customers *)

(** C6.  An unresolved assignment is removed at the index it had when the
    list was walked.  With two unresolved assignments answered in the
    order they were asked, removing the first moves the second to index 0,
    the removal at index 1 then finds nothing, and the dashboard is
    submitted with the second assignment and its source customer id.
    Answered in the other order both are removed.  With an unresolved
    assignment followed by a resolved one, the rewrite of the second reads
    past the end of the list and no dashboard is submitted at all. *)
Theorem C6_unresolved_assignment_survives :
  (fun d => get_prop d "assignedCustomers") <$>
    submitted (run Sample.target
                 (Restore.restoreDashboard [] []
                    (Sample.dashboardWith
                       (VArr [Sample.assignment "Initech" "src-c1";
                              Sample.assignment "Globex" "src-c2"]))) []) =
    [Val (VArr [Sample.assignment "Globex" "src-c2"])] /\
  (fun d => get_prop d "assignedCustomers") <$>
    submitted (run Sample.target
                 (Restore.restoreDashboard [] [1%nat]
                    (Sample.dashboardWith
                       (VArr [Sample.assignment "Initech" "src-c1";
                              Sample.assignment "Globex" "src-c2"]))) []) =
    [Val (VArr [])] /\
  submitted (run Sample.target
               (Restore.restoreDashboard [] []
                  (Sample.dashboardWith
                     (VArr [Sample.assignment "Initech" "src-c1";
                            Sample.assignment "Acme" "src-c3"]))) []) = [].
Proof. repeat split; reflexivity. Qed.

(** ** Label *)

(** C7.  The second branch of the widget loop is guarded by
    [widget.type === 'latest' || 'timeseries'], which is the string
    ['timeseries'] whenever the kind is not ['latest'], hence always taken:
    an alarm table whose key has a label is retitled like a chart, in both
    entry files, and the dashboard is posted with the new title.  An rpc
    widget whose key has no label keeps its title in the 1026-line entry
    file; in [src/index.ts] its [config.title] is overwritten with
    [undefined]. *)
Theorem C7_label_retitles_other_kinds :
  Derived.relabelWidget (VObj [("temperature", VStr "Temperature")])
      (Sample.chart "alarm" "Alarms" "temperature" "t") =
    Val (Sample.chart "alarm" "Temperature" "temperature" "t") /\
  Legacy.relabelWidget (VObj [("temperature", VStr "Temperature")])
      (Sample.chart "alarm" "Alarms" "temperature" "t") =
    Val (Sample.chart "alarm" "Temperature" "temperature" "t") /\
  (fun d => get_path d ["configuration"; "widgets"; "w-alarm"; "config"; "title"]) <$>
    posted (run Sample.target (Derived.label "base" "sensor-7") []) =
    [Val (VStr "Temperature")] /\
  (fun d => get_path d ["configuration"; "widgets"; "w-knob"; "config"; "settings"; "title"]) <$>
    posted (run Sample.target (Derived.label "base" "sensor-7") []) =
    [Val (VStr "Setpoint")] /\
  (w ← Legacy.relabelWidget (VObj [("temperature", VStr "Temperature")])
         (VObj [("type", VStr "rpc");
                ("config", VObj [("title", VStr "Setpoint");
                                 ("settings", VObj [("valueKey", VStr "setpoint")])])]);
   get_path w ["config"; "title"]) = Val VUndef.
Proof. repeat split; reflexivity. Qed.

(** ** Export *)






(** *** Widget bundles *)


Lemma all_calls_fanOut {A : Type} (P : Call -> Prop) (f : A -> Prog unit) l :
  (forall x, In x l -> all_calls P (f x)) -> all_calls P (Backup.fanOut f l).
Proof.
  induction l as [|x l IH]; intros H; simpl; [constructor|].
  apply all_calls_bind.
  - apply all_calls_try_catch; [|intros; constructor].
    apply all_calls_bind; [|intros; constructor].
    apply H. by left.
  - intros ok. apply all_calls_bind; [|intros; constructor].
    apply IH. intros y Hy. apply H. by right.
Qed.








Lemma get_prop_modelled o k : get_prop o k <> Js.Unmodelled.
Proof.
  destruct o; simpl; try done;
    repeat match goal with
           | |- context [if ?b then _ else _] => destruct b
           | |- context [match ?x with _ => _ end] => destruct x
           end; done.
Qed.

Lemma get_path_modelled o p : get_path o p <> Js.Unmodelled.
Proof.
  revert o. induction p as [|k p IH]; intros o; simpl; [done|].
  destruct (get_prop o k) eqn:E; simpl; [apply IH | done |].
  by destruct (get_prop_modelled o k).
Qed.




(** Every export promise settles, whatever its entity does. *)
Lemma run_fanOut_each {S A : Type} (h : handler S) (f : A -> Prog unit)
    (T : A -> list Call -> Prop) l :
  (forall x s, In x l ->
     exists b tr s',
       run h (try_catch (f x;; Ret true) (fun _ => Ret false)) s =
         mkResult (Returned b) tr s' /\
       T x (List.map fst tr)) ->
  forall s,
    exists b tr s',
      run h (Backup.fanOut f l) s = mkResult (Returned b) tr s' /\
      forall x, In x l -> exists sent, T x sent /\ incl sent (List.map fst tr).
Proof.
  induction l as [|x l IH]; intros Hf s; simpl.
  - do 3 eexists. split; [reflexivity|]. intros ? [].
  - destruct (Hf x s (or_introl eq_refl)) as (b1 & tr1 & s1 & R1 & T1).
    destruct (IH (fun y st Hy => Hf y st (or_intror Hy)) s1)
      as (b2 & tr2 & s2 & R2 & T2).
    rewrite (run_bind_returned _ _ _ _ _ _ _ R1).
    rewrite (run_bind_returned _ _ _ _ _ _ _ R2). simpl.
    do 3 eexists. split; [reflexivity|].
    intros y [<-|Hy]; rewrite List.app_nil_r, List.map_app.
    + exists (List.map fst tr1). split; [done|].
      apply List.incl_appl, List.incl_refl.
    + destruct (T2 y Hy) as (sent & Hs & Hincl).
      exists sent. split; [done|]. apply List.incl_appr, Hincl.
Qed.






(** ** Clone *)

Lemma assoc_get_head k v ps : assoc_get k ((k, v) :: ps) = v.
Proof. simpl. by rewrite String.eqb_refl. Qed.

Lemma assoc_set_head k x v ps : assoc_set k x ((k, v) :: ps) = (k, x) :: ps.
Proof. simpl. by rewrite String.eqb_refl. Qed.

(** Reading and writing through objects whose fields are known. *)
Ltac fields :=
  repeat first
    [ rewrite assoc_get_set_eq
    | rewrite assoc_get_head
    | rewrite assoc_set_head
    | rewrite assoc_get_del_eq
    | rewrite assoc_get_set_ne by discriminate
    | rewrite assoc_get_del_ne by discriminate
    | match goal with
      | H : assoc_get ?k ?l = _ |- context [assoc_get ?k ?l] => rewrite H
      end
    | progress cbn -[assoc_get assoc_set assoc_del toString or_else truthy
                     String.eqb append] ].

(** C9.  Clone looks the dashboard up by name, then the device.  When the
    first page is empty it prints that the dashboard was not found and
    exits with code 1 after that single request; when the second is empty
    it prints that the device was not found and exits after the two
    lookups; nothing is posted in either case.  When both are found and
    the dashboard body has a first alias with a single-entity filter and a
    default state, exactly one dashboard is posted: its first alias is
    still that alias, now with the id and the name of the device; its
    [name] and [title] are the [-n] option or, when that is absent, the
    name of the device; and it has no [id]. *)
Theorem C9_clone_rewrites_first_alias {S : Type} (h : handler S) (s0 s1 : S)
    (dashboardName deviceName : string) (name dpage dashboard : value) :
  h (Request (GetDashboards (byName (VStr dashboardName)))) s0 = (Ok dpage, s1) ->
  get_path dpage ["data"; "0"] = Val dashboard ->
  let r := run h (Derived.clone dashboardName deviceName name) s0 in
  (truthy dashboard = false ->
   out r = Exited 1 /\
   calls r = [Request (GetDashboards (byName (VStr dashboardName)));
              notFound "Dashboard" dashboardName]) /\
  (truthy dashboard = true ->
   forall s2 devpage device,
     h (Request (GetDevices (byName (VStr deviceName)))) s1 = (Ok devpage, s2) ->
     get_path devpage ["data"; "0"] = Val device ->
     (truthy device = false ->
      out r = Exited 1 /\
      calls r = [Request (GetDashboards (byName (VStr dashboardName)));
                 Request (GetDevices (byName (VStr deviceName)));
                 notFound "Device" deviceName]) /\
     (truthy device = true ->
      forall s3 id deviceId deviceTitle body key,
        get_path dashboard ["id"; "id"] = Val id ->
        get_path device ["id"; "id"] = Val deviceId ->
        get_prop device "name" = Val deviceTitle ->
        h (Request (GetDashboardById id)) s2 = (Ok body, s3) ->
        cloneable body key ->
        exists created,
          posted r = [created] /\
          firstAlias created = Val key /\
          get_path created (Restore.aliasPath key ++ ["filter"; "singleEntity"; "id"]) =
            Val deviceId /\
          get_path created (Restore.aliasPath key ++ ["alias"]) = Val deviceTitle /\
          get_prop created "name" = Val (or_else name deviceTitle) /\
          get_prop created "title" = Val (or_else name deviceTitle) /\
          get_prop created "id" = Val VUndef)).
Proof.
  intros Hd Hdash r. subst r.
  apply get_path_cons_val in Hdash as (dashboards & Hdashboards & Hdash).
  apply get_path_cons_val in Hdash as (dashboard' & Hfirst & [= ->]).
  unfold Derived.clone, Derived.resolveOrExit, api.getDashboards, api.getDevices,
    api.getDashboardById, with_page0, posted, calls, get_index, notFound, console_log.
  change (string_of_nat 0) with "0".
  cbn -[get_path get_prop set_path set_prop delete_prop toString or_else truthy keys append].
  fold (byName (VStr dashboardName)). rewrite Hd.
  cbn -[get_path get_prop set_path set_prop delete_prop toString or_else truthy keys append].
  rewrite Hdashboards.
  cbn -[get_path get_prop set_path set_prop delete_prop toString or_else truthy keys append].
  rewrite Hfirst.
  cbn -[get_path get_prop set_path set_prop delete_prop toString or_else truthy keys append].
  split; intros Htruthy; rewrite Htruthy; [done|].
  intros s2 devpage device Hdev Hdevice.
  apply get_path_cons_val in Hdevice as (devices & Hdevices & Hdevice).
  apply get_path_cons_val in Hdevice as (device' & Hfirst' & [= ->]).
  cbn -[get_path get_prop set_path set_prop delete_prop toString or_else truthy keys append].
  fold (byName (VStr deviceName)). rewrite Hdev.
  cbn -[get_path get_prop set_path set_prop delete_prop toString or_else truthy keys append].
  rewrite Hdevices.
  cbn -[get_path get_prop set_path set_prop delete_prop toString or_else truthy keys append].
  rewrite Hfirst'.
  cbn -[get_path get_prop set_path set_prop delete_prop toString or_else truthy keys append].
  split; intros Htruthy'; rewrite Htruthy'; [done|].
  intros s3 id deviceId deviceTitle body key Hid Hdeviceid Htitle Hbody
    (top & conf & a0 & others & f & se & st & df & -> & Hconf & Haliases & Hf & Hse & Hst & Hdf).
  cbn -[get_path get_prop set_path set_prop delete_prop toString or_else truthy keys append].
  rewrite Htitle.
  cbn -[get_path get_prop set_path set_prop delete_prop toString or_else truthy keys append].
  rewrite Hid.
  cbn -[get_path get_prop set_path set_prop delete_prop toString or_else truthy keys append].
  rewrite Hbody.
  cbn -[assoc_get assoc_set assoc_del toString or_else truthy String.eqb append]
    in Hdeviceid.
  fields. rewrite Hdeviceid. fields.
  destruct (h _ s3) as [[d|d] s4]; fields;
    (eexists; split; [reflexivity|]);
    unfold firstAlias, Restore.aliasPath; fields; done.
Qed.

(** On the sample installation [Base] is cloned onto [Sensor-7]. *)
Lemma C9_witness :
  exists created,
    posted (run Sample.target (Derived.clone "base" "sensor-7" VUndef) []) = [created] /\
    firstAlias created = Val "alias-1" /\
    get_path created (Restore.aliasPath "alias-1" ++ ["filter"; "singleEntity"; "id"]) =
      Val (VStr "dev-7") /\
    get_path created (Restore.aliasPath "alias-1" ++ ["alias"]) = Val (VStr "Sensor-7") /\
    get_prop created "name" = Val (VStr "Sensor-7") /\
    get_prop created "title" = Val (VStr "Sensor-7") /\
    get_prop created "id" = Val VUndef.
Proof.
  destruct (C9_clone_rewrites_first_alias Sample.target [] [] "base" "sensor-7" VUndef
              (Sample.pageOf [Sample.liveDashboard]) Sample.liveDashboard
              eq_refl eq_refl) as [_ Hfound].
  destruct (Hfound eq_refl [] (Sample.pageOf [Sample.liveDevice]) Sample.liveDevice
              eq_refl eq_refl) as [_ Hboth].
  apply (Hboth eq_refl [] (VStr "dash-1") (VStr "dev-7") (VStr "Sensor-7")
               Sample.liveDashboard "alias-1" eq_refl eq_refl eq_refl eq_refl).
  do 8 eexists. repeat split; reflexivity.
Defined.

(** ** Callbacks resumed in any order *)

Section Settle.
Context {I St : Type}.
Variable after : nat -> I -> value -> St -> res St.

(** When every waiting callback, resumed on a state that satisfies [Inv],
    succeeds, keeps [Inv] and reaches [Done] for its index and item, and
    [Done] once reached is kept, then whatever the order all callbacks succeed and
    [Done] holds for every item at the end. *)
Lemma settle_all (Inv : St -> Prop) (Done : nat -> I -> St -> Prop)
    (ok : nat * I * res value -> Prop) :
  (forall i item r s,
     ok (i, item, r) -> Inv s ->
     exists v s', r = Val v /\ after i item v s = Val s' /\ Inv s' /\ Done i item s' /\
                  (forall i' item', Done i' item' s -> Done i' item' s')) ->
  forall n picks ws s,
    length ws = n -> Forall ok ws -> Inv s ->
    exists s', settle after n picks ws s = Val s' /\ Inv s' /\
               (forall i item r, In (i, item, r) ws -> Done i item s') /\
               (forall i' item', Done i' item' s -> Done i' item' s').
Proof.
  intros Hstep. induction n as [|n IH]; intros picks ws s Hlen Hok Hinv.
  - destruct ws; [|done]. exists s. simpl. split; [done|]. split; [done|].
    split; [intros ? ? ? []|done].
  - simpl.
    assert (Hk : (hd 0 picks `mod` length ws < length ws)%nat)
      by (apply Nat.mod_upper_bound; lia).
    destruct (lookup_lt_is_Some_2 ws _ Hk) as [[[i item] r] Hw].
    rewrite Hw.
    assert (Hokw : ok (i, item, r)).
    { rewrite List.Forall_forall in Hok. apply Hok.
      apply list_elem_of_In. by eapply list_elem_of_lookup_2. }
    destruct (Hstep i item r s Hokw Hinv) as (v & s1 & -> & Hafter & Hinv1 & Hdone1 & Hkeep1).
    simpl. rewrite Hafter. simpl.
    destruct (IH (tl picks) (delete (hd 0 picks `mod` length ws)%nat ws) s1)
      as (s' & Hsettle & Hinv' & Hdone' & Hkeep'); [|  |done|].
    { rewrite length_delete by eauto. lia. }
    { rewrite List.Forall_forall in *. intros w Hin. apply Hok.
      apply list_elem_of_In. apply list_elem_of_In in Hin.
      by eapply list_elem_of_delete_inv. }
    exists s'. split; [done|]. split; [done|]. split; [|by auto].
    intros i' item' r' Hin.
    apply list_elem_of_In, list_elem_of_lookup in Hin as [j Hj].
    destruct (decide (j = hd 0 picks `mod` length ws)%nat) as [->|Hne].
    + rewrite Hw in Hj. injection Hj as <- <- <-. by apply Hkeep'.
    + apply (Hdone' i' item' r'). apply list_elem_of_In, list_elem_of_lookup.
      destruct (decide (j < hd 0 picks `mod` length ws)%nat).
      * exists j. by rewrite list_lookup_delete_lt.
      * exists (pred j). rewrite list_lookup_delete_ge by lia.
        replace (S (pred j)) with j by lia. done.
Qed.

(** A property of the state that every callback keeps holds of the state
    the callbacks end with, when they do. *)
Lemma settle_keeps (Inv : St -> Prop) :
  (forall i item v s s', Inv s -> after i item v s = Val s' -> Inv s') ->
  forall n picks ws s s',
    Inv s -> settle after n picks ws s = Val s' -> Inv s'.
Proof.
  intros Hstep. induction n as [|n IH]; intros picks ws s s' Hinv; simpl.
  - by intros [= <-].
  - destruct (ws !! _) as [[[i item] r]|]; [|by intros [= <-]].
    destruct r as [v| |]; simpl; try done.
    destruct (after i item v s) as [s1| |] eqn:E; simpl; try done.
    apply IH. by eapply Hstep.
Qed.

End Settle.

Section PromiseAllFacts.
Context {S I St : Type}.
Variable h : handler S.
Variable before : St -> nat -> I -> res (option (Prog value)).
Variable after : nat -> I -> value -> St -> res St.

Lemma all_calls_start (P : Call -> Prop) s items i :
  (forall j item p, before s j item = Val (Some p) -> all_calls P p) ->
  all_calls P (start before s i items).
Proof.
  intros Hp. revert i. induction items as [|item items IH]; intros i; simpl.
  - constructor.
  - destruct (before s i item) as [[p|]| |] eqn:E.
    + apply all_calls_bind.
      * apply all_calls_try_catch; [|intros; constructor].
        apply all_calls_bind; [by eapply Hp | intros; constructor].
      * intros r. apply all_calls_bind; [apply IH|]. intros [e ws]. constructor.
    + apply IH.
    + apply all_calls_bind; [apply IH|]. intros [e' ws]. constructor.
    + constructor.
Qed.

Lemma all_calls_promise_all (P : Call -> Prop) picks items s :
  (forall j item p, before s j item = Val (Some p) -> all_calls P p) ->
  all_calls P (promise_all_map before after picks items s).
Proof.
  intros Hp. unfold promise_all_map.
  apply all_calls_bind; [by apply all_calls_start|].
  intros [[e|] ws]; [constructor | apply all_calls_lift].
Qed.

(** The first pass on items whose callback either returns at once or
    awaits a promise that is fulfilled; [i0] is the index of the first
    item. *)
Lemma run_start_fulfilled (waits : I -> Prop) (ok : nat * I * res value -> Prop) s
    items :
  forall i0,
    (forall j item st,
       items !! j = Some item ->
       (~ waits item /\ before s (i0 + j)%nat item = Val None) \/
       (waits item /\
        exists p v tr st',
          before s (i0 + j)%nat item = Val (Some p) /\
          run h p st = mkResult (Returned v) tr st' /\
          ok ((i0 + j)%nat, item, Val v))) ->
    forall st,
      exists ws tr st',
        run h (start before s i0 items) st = mkResult (Returned (None, ws)) tr st' /\
        Forall ok ws /\
        (forall j item, items !! j = Some item -> waits item ->
                        exists r, In ((i0 + j)%nat, item, r) ws).
Proof.
  induction items as [|item items IH]; intros i0 Hbefore st; simpl.
  - exists [], [], st. split; [done|]. split; [constructor|]. by intros [|?] ? ?.
  - assert (Hrest : forall j x st',
               items !! j = Some x ->
               (~ waits x /\ before s (Datatypes.S i0 + j)%nat x = Val None) \/
               (waits x /\
                exists p v tr st'',
                  before s (Datatypes.S i0 + j)%nat x = Val (Some p) /\
                  run h p st' = mkResult (Returned v) tr st'' /\
                  ok ((Datatypes.S i0 + j)%nat, x, Val v))).
    { intros j x st' Hx. pose proof (Hbefore (Datatypes.S j) x st' Hx) as H.
      by rewrite Nat.add_succ_r in H. }
    specialize (IH (Datatypes.S i0) Hrest).
    pose proof (Hbefore 0%nat item st eq_refl) as Hhead.
    rewrite Nat.add_0_r in Hhead.
    destruct Hhead as [[Hnot ->] | (Hw & p & v & tr & st1 & -> & Hrun & Hok)].
    + destruct (IH st) as (ws & tr & st' & R & Hoks & Hcover).
      exists ws, tr, st'. split; [done|]. split; [done|].
      intros [|j] item' Hj Hw.
      * injection Hj as <-. done.
      * rewrite Nat.add_succ_r. by apply Hcover.
    + destruct (IH st1) as (ws & tr2 & st' & R & Hoks & Hcover).
      assert (Rc : run h (capture p) st = mkResult (Returned (Val v)) tr st1).
      { unfold capture. rewrite run_try_catch, (run_bind_returned _ _ _ _ _ _ _ Hrun).
        simpl. by rewrite List.app_nil_r. }
      rewrite (run_bind_returned _ _ _ _ _ _ _ Rc).
      rewrite (run_bind_returned _ _ _ _ _ _ _ R). simpl.
      do 3 eexists. split; [reflexivity|]. split; [by constructor|].
      intros [|j] item' Hj Hw'.
      * injection Hj as <-. exists (Val v). rewrite Nat.add_0_r. by left.
      * destruct (Hcover j item' Hj Hw') as (r & Hr). exists r.
        rewrite Nat.add_succ_r. by right.
Qed.

(** The whole [await Promise.all(...)] under the same conditions. *)
Lemma run_promise_all_fulfilled (waits : I -> Prop) (Inv : St -> Prop)
    (Done : nat -> I -> St -> Prop) (ok : nat * I * res value -> Prop)
    picks items s st :
  (forall j item st,
     items !! j = Some item ->
     (~ waits item /\ before s j item = Val None) \/
     (waits item /\
      exists p v tr st',
        before s j item = Val (Some p) /\
        run h p st = mkResult (Returned v) tr st' /\
        ok (j, item, Val v))) ->
  (forall i item r s,
     ok (i, item, r) -> Inv s ->
     exists v s', r = Val v /\ after i item v s = Val s' /\ Inv s' /\ Done i item s' /\
                  (forall i' item', Done i' item' s -> Done i' item' s')) ->
  Inv s ->
  exists s' tr st',
    run h (promise_all_map before after picks items s) st =
      mkResult (Returned s') tr st' /\
    Inv s' /\
    (forall j item, items !! j = Some item -> waits item -> Done j item s').
Proof.
  intros Hbefore Hstep Hinv. unfold promise_all_map.
  destruct (run_start_fulfilled waits ok s items 0%nat Hbefore st)
    as (ws & tr & st' & R & Hoks & Hcover).
  destruct (settle_all after Inv Done ok Hstep (length ws) picks ws s eq_refl Hoks Hinv)
    as (s' & Hsettle & Hinv' & Hdone & _).
  rewrite (run_bind_returned _ _ _ _ _ _ _ R). simpl. rewrite Hsettle. simpl.
  do 3 eexists. split; [reflexivity|]. split; [done|].
  intros j item Hin Hw. destruct (Hcover j item Hin Hw) as (r & Hj). by eapply Hdone.
Qed.

(** When the [await Promise.all(...)] returns, its value is what the
    callbacks made of the state. *)
Lemma run_promise_all_returned (Inv : St -> Prop) picks items s st s' :
  (forall i item v s s', Inv s -> after i item v s = Val s' -> Inv s') ->
  Inv s ->
  out (run h (promise_all_map before after picks items s) st) = Returned s' ->
  Inv s'.
Proof.
  intros Hstep Hinv. unfold promise_all_map. rewrite run_bind. unfold and_then.
  destruct (run h (start before s 0 items) st) as [[[e ws]| | |] tr st1]; simpl; try done.
  destruct e as [e|]; simpl; [done|].
  destruct (settle after (length ws) picks ws s) as [s1| |] eqn:E; simpl; try done.
  intros [= <-]. by eapply settle_keeps.
Qed.

End PromiseAllFacts.

(** ** Dashboard restore: aliases *)

Lemma assoc_get_in k ps : In k (List.map fst ps) -> In (k, assoc_get k ps) ps.
Proof.
  induction ps as [|[k' v] ps IH]; simpl; [done|].
  destruct (String.eqb k k') eqn:E.
  - apply String.eqb_eq in E. subst. by left.
  - intros [->|H]; [by rewrite String.eqb_refl in E | right; by apply IH].
Qed.

Lemma assoc_set_set k x y ps : assoc_set k x (assoc_set k y ps) = assoc_set k x ps.
Proof.
  induction ps as [|[k' v] ps IH]; simpl.
  - by rewrite String.eqb_refl.
  - destruct (String.eqb k k') eqn:E; simpl; rewrite E; [done | by rewrite IH].
Qed.

Lemma assoc_get_set k k' x ps :
  assoc_get k' (assoc_set k x ps) = if String.eqb k k' then x else assoc_get k' ps.
Proof.
  destruct (String.eqb k k') eqn:E.
  - apply String.eqb_eq in E. subst. apply assoc_get_set_eq.
  - apply assoc_get_set_ne. intros ->. by rewrite String.eqb_refl in E.
Qed.

Lemma firstId_none page :
  firstId page = Val None ->
  exists found first,
    get_prop page "data" = Val found /\ get_index found 0 = Val first /\
    truthy first = false.
Proof.
  unfold firstId.
  destruct (get_prop page "data") as [found| |] eqn:Ef; cbn -[get_path get_index truthy]; try done.
  destruct (get_index found 0) as [first| |] eqn:Ei; cbn -[get_path get_index truthy]; try done.
  destruct (truthy first) eqn:Et.
  - by destruct (get_path first ["id"; "id"]).
  - intros _. by exists found, first.
Qed.

Lemma firstId_some page i :
  firstId page = Val (Some i) ->
  exists found first,
    get_prop page "data" = Val found /\ get_index found 0 = Val first /\
    truthy first = true /\ get_path first ["id"; "id"] = Val i.
Proof.
  unfold firstId.
  destruct (get_prop page "data") as [found| |] eqn:Ef; cbn -[get_path get_index truthy]; try done.
  destruct (get_index found 0) as [first| |] eqn:Ei; cbn -[get_path get_index truthy]; try done.
  destruct (truthy first) eqn:Et; [|done].
  destruct (get_path first ["id"; "id"]) as [i'| |] eqn:Ep; cbn -[get_path get_index truthy]; try done.
  intros [= ->]. by exists found, first.
Qed.

Section AliasFacts.
Context {S : Type}.
Variable h : handler S.
Variable live : value -> option value.
Variables top0 conf aliases : list (string * value).
Hypothesis Hconf : assoc_get "configuration" top0 = VObj conf.
Hypothesis Haliases : assoc_get "entityAliases" conf = VObj aliases.
Hypothesis Hreadable : Forall (fun p => readable_alias p.2) aliases.
Hypothesis Hlive : resolves_devices h live.

#[local] Abbreviation alias_state := (Spec.alias_state live top0 aliases).
#[local] Abbreviation alias_done := (Spec.alias_done live aliases).
#[local] Abbreviation alias_waiting := (Spec.alias_waiting live aliases).

Lemma readable_key key :
  In key (List.map fst aliases) -> readable_alias (assoc_get key aliases).
Proof using Hreadable.
  intros Hin. apply assoc_get_in in Hin.
  rewrite List.Forall_forall in Hreadable. exact (Hreadable _ Hin).
Qed.

Lemma aliasBefore_readable i key :
  In key (List.map fst aliases) ->
  Restore.aliasBefore (VObj top0) i key =
    Val (if single_device (assoc_get key aliases)
         then Some (api.getDevices
                      {| pageSize := Some 1; page := None;
                         textSearch := get_opt (assoc_get key aliases) "alias" |})
         else None).
Proof using Hconf Haliases Hreadable.
  intros Hin. destruct (readable_key key Hin) as (ps & f & Ha & Hf & Hse).
  unfold Restore.aliasBefore, Restore.aliasPath, single_device. rewrite Ha.
  fields.
  destruct (strict_eq (assoc_get "type" f) (VStr "singleEntity")) eqn:Et; [|done].
  destruct (Hse eq_refl) as [se Hs]. fields.
  by destruct (strict_eq (assoc_get "entityType" se) _).
Qed.

Lemma aliasAfter_step i key r d :
  alias_waiting (i, key, r) -> alias_state d ->
  exists v d',
    r = Val v /\ Restore.aliasAfter i key v d = Val d' /\ alias_state d' /\
    alias_done key d' /\ (forall key', alias_done key' d -> alias_done key' d').
Proof using Hreadable.
  intros (Hin & Hsingle & page & Hr & Hpage)
    (topd & confd & al & -> & Hc & Ha & Hentries & Hassigned).
  simpl in Hin, Hsingle, Hr, Hpage. subst r.
  destruct (readable_key key Hin) as (ps & f & Hps & Hf & Hse).
  assert (Hrw : rewritten live (assoc_get key aliases) =
                match live (get_opt (assoc_get key aliases) "alias") with
                | Some i => with_id i (assoc_get key aliases)
                | None => assoc_get key aliases
                end) by (unfold rewritten; by rewrite Hsingle).
  exists page. unfold Restore.aliasAfter.
  destruct (live (get_opt (assoc_get key aliases) "alias")) as [id|].
  - destruct (firstId_some _ _ Hpage) as (found & first & Hfound & Hfirst & Ht & Hid).
    rewrite Hfound. cbn -[get_path set_path get_index].
    rewrite Hfirst. cbn -[get_path set_path get_index].
    rewrite Ht, Hid. cbn -[get_path set_path get_index].
    assert (Hse' : exists se, assoc_get "singleEntity" f = VObj se).
    { apply Hse. unfold single_device in Hsingle. rewrite Hps in Hsingle.
      revert Hsingle. fields. by destruct (strict_eq _ _). }
    destruct Hse' as [se Hs].
    assert (Hwith : with_id id (assoc_get key aliases) =
                    VObj (assoc_set "filter"
                            (VObj (assoc_set "singleEntity"
                                     (VObj (assoc_set "id" id se)) f)) ps)).
    { rewrite Hps. unfold with_id. by rewrite Hf, Hs. }
    assert (Hset : exists d',
               set_path (VObj topd)
                 ["configuration"; "entityAliases"; key; "filter"; "singleEntity"]
                 "id" id = Val d' /\
               d' = VObj (assoc_set "configuration"
                            (VObj (assoc_set "entityAliases"
                                     (VObj (assoc_set key
                                              (with_id id (assoc_get key aliases)) al))
                                     confd)) topd)).
    { rewrite Hwith.
      destruct (Hentries key) as [E|E]; rewrite ?Hrw, ?Hwith, ?Hps in E;
        fields; rewrite ?assoc_set_set; eauto. }
    destruct Hset as (d' & Hset & ->). rewrite Hset.
    eexists. split; [done|]. split; [done|]. split; [|split].
    + exists (assoc_set "configuration"
                (VObj (assoc_set "entityAliases"
                         (VObj (assoc_set key (with_id id (assoc_get key aliases)) al))
                         confd)) topd),
             (assoc_set "entityAliases"
                (VObj (assoc_set key (with_id id (assoc_get key aliases)) al)) confd),
             (assoc_set key (with_id id (assoc_get key aliases)) al).
      split; [done|]. split; [apply assoc_get_set_eq|].
      split; [apply assoc_get_set_eq|].
      split; [|by rewrite assoc_get_set_ne by discriminate].
      intros key'. rewrite assoc_get_set.
      destruct (String.eqb key key') eqn:E; [|apply Hentries].
      apply String.eqb_eq in E. subst key'. right. by rewrite Hrw.
    + unfold Spec.alias_done. fields.
      rewrite <- Hps. by rewrite Hrw, Hwith.
    + intros key'. unfold Spec.alias_done. fields.
      rewrite assoc_get_set.
      destruct (String.eqb key key') eqn:E; [|done].
      apply String.eqb_eq in E. subst key'. intros _.
      rewrite <- ?Hps. by rewrite Hrw, Hwith.
  - destruct (firstId_none _ Hpage) as (found & first & Hfound & Hfirst & Ht).
    rewrite Hfound. cbn -[get_path set_path get_index].
    rewrite Hfirst. cbn -[get_path set_path get_index]. rewrite Ht.
    eexists. split; [done|]. split; [done|]. split; [|split; [|done]].
    + by do 3 eexists.
    + unfold Spec.alias_done. fields. rewrite <- ?Hps, Hrw.
      destruct (Hentries key) as [E|E]; rewrite E; [done | by rewrite Hrw].
Qed.

Lemma alias_done_all d key : alias_state d -> ~ single_device (assoc_get key aliases) = true ->
  alias_done key d.
Proof using Type.
  intros (topd & confd & al & -> & Hc & Ha & Hentries & _) Hnot.
  unfold Spec.alias_done. fields.
  assert (Hrw : rewritten live (assoc_get key aliases) = assoc_get key aliases).
  { unfold rewritten. by destruct (single_device (assoc_get key aliases)). }
  rewrite Hrw. destruct (Hentries key) as [E|E]; rewrite E; [done | by rewrite Hrw].
Qed.

(** The alias stage on a stored dashboard whose aliases can be read, on a
    platform that answers the lookups: it returns, whatever the order of
    the answers, with every alias rewritten. *)
Lemma run_rewriteAliases picks st :
  exists d1 tr st',
    run h (Restore.rewriteAliases picks (VObj top0)) st =
      mkResult (Returned d1) tr st' /\
    alias_state d1 /\
    (forall key, alias_done key d1).
Proof using All.
  unfold Restore.rewriteAliases. fields.
  destruct (run_promise_all_fulfilled h Restore.aliasBefore Restore.aliasAfter
              (fun key => single_device (assoc_get key aliases) = true)
              alias_state (fun _ => alias_done) alias_waiting
              picks (List.map fst aliases) (VObj top0) st)
    as (d1 & tr & st' & R & Hstate & Hdone).
  - intros i key st1 Hin. apply list_elem_of_lookup_2, list_elem_of_In in Hin.
    rewrite (aliasBefore_readable i key Hin).
    destruct (single_device (assoc_get key aliases)) eqn:Hs; [right | by left].
    split; [done|].
    destruct (Hlive (get_opt (assoc_get key aliases) "alias") st1) as (page & Hpage & Hid).
    eexists _, page, _, _. split; [done|]. split.
    + unfold api.getDevices, with_page0. simpl.
      fold (byName (get_opt (assoc_get key aliases) "alias")).
      by rewrite Hpage.
    + split; [done|]. split; [done|]. by exists page.
  - intros i key r d Hw Hd.
    destruct (aliasAfter_step i key r d Hw Hd) as (v & d' & ? & ? & ? & ? & ?).
    exists v, d'. repeat split; auto.
  - exists top0, conf, aliases. repeat split; auto.
  - exists d1, tr, st'. split; [done|]. split; [done|].
    intros key.
    destruct (single_device (assoc_get key aliases)) eqn:Hs.
    + destruct (in_dec string_dec key (List.map fst aliases)) as [Hin|Hnin].
      * apply list_elem_of_In, list_elem_of_lookup in Hin as [j Hj].
        by apply (Hdone j).
      * exfalso.
        assert (Hundef : assoc_get key aliases = VUndef).
        { clear -Hnin. induction aliases as [|[k v] l IH]; simpl; [done|].
          destruct (String.eqb key k) eqn:E.
          - apply String.eqb_eq in E. subst. destruct Hnin. by left.
          - apply IH. intros H. apply Hnin. by right. }
        by rewrite Hundef in Hs.
    + apply alias_done_all; [done|]. by rewrite Hs.
Qed.

End AliasFacts.

Lemma rewritten_id live a :
  readable_alias a -> single_device a = true ->
  get_path (rewritten live a) ["filter"; "singleEntity"; "id"] =
    Val (match live (get_opt a "alias") with
         | Some i => i
         | None => get_opt (get_opt (get_opt a "filter") "singleEntity") "id"
         end).
Proof.
  intros (ps & f & -> & Hf & Hse) Hs. unfold rewritten. rewrite Hs.
  assert (Hse' : exists se, assoc_get "singleEntity" f = VObj se).
  { apply Hse. unfold single_device in Hs. revert Hs. fields.
    by destruct (strict_eq (assoc_get "type" f) _). }
  destruct Hse' as [se Hs'].
  destruct (live _); unfold with_id; fields; done.
Qed.

(** *** What the two stages can send *)

Lemma aliasBefore_awaits d j key p :
  Restore.aliasBefore d j key = Val (Some p) ->
  exists params, p = api.getDevices params.
Proof.
  unfold Restore.aliasBefore, Restore.aliasPath. cbn -[get_path].
  destruct (get_path d ["configuration"; "entityAliases"; key]) as [entry| |];
    cbn -[get_path]; try done.
  destruct entry; try done;
    repeat match goal with
           | |- context [mbind _ (get_path ?o ?q)] =>
               destruct (get_path o q); cbn -[get_path]; try done
           | |- context [if ?b then _ else _] => destruct b; try done
           end;
    intros [= <-]; eauto.
Qed.

Lemma customerBefore_awaits d j entry p :
  Restore.customerBefore d j entry = Val (Some p) ->
  exists params, p = api.getCustomers params.
Proof.
  unfold Restore.customerBefore.
  destruct (get_prop entry "title") as [title| |]; cbn; try done.
  intros [= <-]. eauto.
Qed.

Lemma rewriteAliases_calls picks d :
  all_calls (fun c => forall d', c <> Request (SaveDashboard d'))
            (Restore.rewriteAliases picks d).
Proof.
  unfold Restore.rewriteAliases.
  apply all_calls_bind; [apply all_calls_lift|]. intros aliases.
  apply all_calls_bind; [apply all_calls_lift|]. intros ks.
  apply all_calls_promise_all. intros j key p Hp.
  apply aliasBefore_awaits in Hp as [params ->].
  apply all_calls_await. done.
Qed.

Lemma rewriteCustomers_calls picks d :
  all_calls (fun c => forall d', c <> Request (SaveDashboard d'))
            (Restore.rewriteCustomers picks d).
Proof.
  unfold Restore.rewriteCustomers.
  apply all_calls_bind; [apply all_calls_lift|]. intros assigned.
  destruct (truthy assigned); [|constructor].
  apply all_calls_bind; [apply all_calls_lift|]. intros entries.
  apply all_calls_promise_all. intros j key p Hp.
  apply customerBefore_awaits in Hp as [params ->].
  apply all_calls_await. done.
Qed.

Lemma dashboardsIn_none cs :
  Forall (fun c => forall d, c <> Request (SaveDashboard d)) cs ->
  dashboardsIn cs = [].
Proof.
  induction 1 as [|c cs Hc _ IH]; [done|].
  destruct c as [a| | |]; [destruct a|..]; try exact IH.
  by destruct (Hc dashboard).
Qed.

Lemma dashboardsIn_app cs1 cs2 :
  dashboardsIn (cs1 ++ cs2) = (dashboardsIn cs1 ++ dashboardsIn cs2)%list.
Proof. unfold dashboardsIn. apply omap_app. Qed.

(** *** The customer stage leaves the configuration alone *)

Lemma customerAfter_keeps c i entry page d d' :
  keeps_configuration c d ->
  Restore.customerAfter i entry page d = Val d' ->
  keeps_configuration c d'.
Proof.
  intros (topd & -> & Hc). unfold Restore.customerAfter.
  destruct (get_prop page "data") as [customers| |]; cbn -[get_path get_index]; try done.
  destruct (get_index customers 0) as [first| |]; cbn -[get_path]; try done.
  destruct (truthy first).
  - destruct (get_path first ["id"; "id"]) as [id| |]; cbn -[set_path]; try done.
    match goal with
    | |- mbind _ ?m = _ -> _ => destruct m as [x| |]; cbn; try done
    end.
    intros [= <-]. eexists. split; [done|]. by rewrite assoc_get_set_ne.
  - cbn. destruct (as_array (assoc_get "assignedCustomers" topd)) as [l| |]; cbn; try done.
    intros [= <-]. eexists. split; [done|]. by rewrite assoc_get_set_ne.
Qed.

Lemma rewriteCustomers_keeps {S : Type} (h : handler S) c picks d st d' :
  keeps_configuration c d ->
  out (run h (Restore.rewriteCustomers picks d) st) = Returned d' ->
  keeps_configuration c d'.
Proof.
  intros Hk. pose proof Hk as (topd & -> & Hc). unfold Restore.rewriteCustomers.
  cbn -[promise_all_map].
  destruct (truthy (assoc_get "assignedCustomers" topd)); [|by intros [= <-]].
  destruct (as_array (assoc_get "assignedCustomers" topd)) as [l| |];
    cbn -[promise_all_map]; try done.
  apply (run_promise_all_returned h _ _ (keeps_configuration c)); [|done].
  intros i entry v s s'. apply customerAfter_keeps.
Qed.

(** *** Assignments that all resolve *)

Lemma index_of_string n : index_of_key (string_of_nat n) = Some n.
Proof.
  unfold index_of_key, string_of_nat.
  assert (Hn : Nat.to_uint n <> Decimal.Nil).
  { pose proof (DecimalNat.Unsigned.to_of (Nat.to_uint n)) as H.
    rewrite DecimalNat.Unsigned.of_to in H. rewrite H.
    unfold Decimal.unorm. by destruct (Decimal.nzhead _). }
  rewrite (NilZero.usu _ Hn), DecimalNat.Unsigned.of_to.
  by rewrite String.eqb_refl.
Qed.

Lemma string_of_nat_not_length n : String.eqb (string_of_nat n) "length" = false.
Proof.
  destruct (String.eqb (string_of_nat n) "length") eqn:E; [|done].
  apply String.eqb_eq in E. pose proof (index_of_string n) as H.
  rewrite E in H. discriminate.
Qed.

Lemma get_prop_index l n :
  get_prop (VArr l) (string_of_nat n) = Val (default VUndef (l !! n)).
Proof.
  unfold get_prop. by rewrite string_of_nat_not_length, index_of_string.
Qed.

Section CustomerFacts.
Context {S : Type}.
Variable h : handler S.
Variable live : value -> option value.
Variable l : list value.
Hypothesis Hall : all_resolved live l.
Hypothesis Hlive : resolves_customers h live.

#[local] Abbreviation customer_state := (Spec.customer_state live l).
#[local] Abbreviation customer_done := (Spec.customer_done live l).
#[local] Abbreviation customer_waiting := (Spec.customer_waiting live l).

Lemma customerAfter_step j e r d :
  customer_waiting (j, e, r) -> customer_state d ->
  exists v d',
    r = Val v /\ Restore.customerAfter j e v d = Val d' /\ customer_state d' /\
    customer_done j e d' /\
    (forall j' e', customer_done j' e' d -> customer_done j' e' d').
Proof using Hall.
  intros (Hj & page & id & Hr & Hid & Hpage)
    (topd & cur & -> & Hcur & Hlen & Hentries).
  simpl in Hj, Hr, Hid, Hpage. subst r.
  assert (Hre : readable_assignment e).
  { unfold all_resolved in Hall. rewrite List.Forall_forall in Hall.
    apply Hall, list_elem_of_In. by eapply list_elem_of_lookup_2. }
  destruct Hre as (ps & c & -> & Hc).
  assert (Hlt : (j < length cur)%nat).
  { rewrite Hlen. by eapply lookup_lt_Some. }
  set (re := VObj (assoc_set "customerId" (VObj (assoc_set "id" id c)) ps)).
  assert (Hrw : reassigned live (VObj ps) = re).
  { unfold reassigned. rewrite Hid. unfold with_customer. by rewrite Hc. }
  destruct (firstId_some _ _ Hpage) as (found & first & Hfound & Hfirst & Ht & Hfid).
  assert (Hset : set_path (VObj topd)
                   ["assignedCustomers"; string_of_nat j; "customerId"] "id" id =
                 Val (VObj (assoc_set "assignedCustomers" (VArr (<[j := re]> cur)) topd))).
  { cbn [set_path].
    change (get_prop (VObj topd) "assignedCustomers")
      with (Val (assoc_get "assignedCustomers" topd)).
    rewrite Hcur. cbn [mbind res_bind]. rewrite get_prop_index.
    cbn [mbind res_bind].
    destruct (Hentries j _ Hj) as [E|E]; rewrite E; simpl default.
    - unfold get_prop. rewrite Hc. simpl. rewrite index_of_string.
      unfold array_set. by destruct (decide (j < length cur)%nat).
    - rewrite Hrw. unfold re at 1 2. unfold get_prop. rewrite assoc_get_set_eq.
      simpl. rewrite !assoc_set_set, index_of_string. fold re.
      unfold array_set. by destruct (decide (j < length cur)%nat). }
  exists page. unfold Restore.customerAfter.
  rewrite Hfound. cbn -[get_path set_path get_index].
  rewrite Hfirst. cbn -[get_path set_path get_index].
  rewrite Ht, Hfid. cbn -[get_path set_path get_index].
  change (string_of_nat j :: ?q) with (string_of_nat j :: q).
  rewrite Hset.
  eexists. split; [done|]. split; [done|]. split; [|split].
  - exists (assoc_set "assignedCustomers" (VArr (<[j := re]> cur)) topd), (<[j := re]> cur).
    split; [done|]. split; [apply assoc_get_set_eq|].
    split; [by rewrite length_insert|].
    intros j' e' Hj'. destruct (decide (j' = j)) as [->|Hne].
    + right. rewrite Hj in Hj'. injection Hj' as <-.
      by rewrite list_lookup_insert_eq, Hrw.
    + rewrite list_lookup_insert_ne by done. by apply Hentries.
  - split; [done|]. cbn [get_path].
    change (get_prop (VObj ?t) "assignedCustomers")
      with (Val (assoc_get "assignedCustomers" t)).
    rewrite assoc_get_set_eq. cbn [mbind res_bind]. rewrite get_prop_index.
    by rewrite list_lookup_insert_eq, Hrw.
  - intros j' e' [Hj' Hpath]. split; [done|]. revert Hpath. cbn [get_path].
    change (get_prop (VObj ?t) "assignedCustomers")
      with (Val (assoc_get "assignedCustomers" t)).
    rewrite assoc_get_set_eq, Hcur. cbn [mbind res_bind]. rewrite !get_prop_index.
    destruct (decide (j' = j)) as [->|Hne].
    + intros _. rewrite Hj in Hj'. injection Hj' as <-.
      by rewrite list_lookup_insert_eq, Hrw.
    + by rewrite list_lookup_insert_ne.
Qed.

(** The customer stage on a dashboard whose assignments all resolve: it
    returns, whatever the order of the answers, with every assignment
    carrying the live id of its customer. *)
Lemma run_rewriteCustomers topd picks st :
  assoc_get "assignedCustomers" topd = VArr l ->
  exists d2 tr st',
    run h (Restore.rewriteCustomers picks (VObj topd)) st =
      mkResult (Returned d2) tr st' /\
    customer_state d2 /\
    (forall j e, l !! j = Some e -> customer_done j e d2).
Proof using All.
  intros Hassigned. unfold Restore.rewriteCustomers.
  cbn -[promise_all_map]. rewrite Hassigned. cbn -[promise_all_map].
  destruct (run_promise_all_fulfilled h Restore.customerBefore Restore.customerAfter
              (fun _ => True) customer_state customer_done customer_waiting
              picks l (VObj topd) st)
    as (d2 & tr & st' & R & Hstate & Hdone).
  - intros j e st1 Hj. right. split; [done|].
    unfold all_resolved in Hall. rewrite List.Forall_forall in Hall.
    destruct (Hall e) as [(ps & c & -> & Hc) [id Hid]].
    { apply list_elem_of_In. by eapply list_elem_of_lookup_2. }
    destruct (Hlive (get_opt (VObj ps) "title") st1) as (page & Hpage & Hfirst).
    eexists _, page, _, _. split; [done|]. split.
    + unfold api.getCustomers, with_page0. simpl.
      fold (byName (assoc_get "title" ps)). simpl in Hpage.
      by rewrite Hpage.
    + split; [done|]. exists page, id. simpl. split; [done|]. split; [done|].
      by rewrite <- Hid.
  - intros j e r d. apply customerAfter_step.
  - exists topd, l. split; [done|]. split; [done|]. split; [done|]. by left.
  - exists d2, tr, st'. split; [done|]. split; [done|].
    intros j e Hj. by apply Hdone.
Qed.

End CustomerFacts.

(** When every assignment names a customer of the target, the customer
    stage returns with as many assignments as were stored, each carrying
    the live id of its customer, whatever the order of the answers. *)
Lemma resolved_assignments_rewritten {S : Type} (h : handler S)
    (customers : value -> option value) (l : list value)
    (topd : list (string * value)) picks st :
  assoc_get "assignedCustomers" topd = VArr l ->
  all_resolved customers l ->
  resolves_customers h customers ->
  exists d2,
    out (run h (Restore.rewriteCustomers picks (VObj topd)) st) = Returned d2 /\
    get_path d2 ["assignedCustomers"; "length"] = Val (VNum (Z.of_nat (length l))) /\
    (forall j e,
       l !! j = Some e ->
       exists id,
         customers (get_opt e "title") = Some id /\
         get_path d2 ["assignedCustomers"; string_of_nat j; "customerId"; "id"] =
           Val id).
Proof.
  intros Hassigned Hall Hlive.
  destruct (run_rewriteCustomers h customers l Hall Hlive topd picks st Hassigned)
    as (d2 & tr & st' & R & (top2 & cur & -> & Hcur & Hlen & _) & Hdone).
  exists (VObj top2). rewrite R. split; [done|]. split.
  - cbn. by rewrite Hcur, <- Hlen.
  - intros j e Hj. destruct (Hdone j e Hj) as [_ Hpath].
    unfold all_resolved in Hall. rewrite List.Forall_forall in Hall.
    destruct (Hall e) as [(ps & c & -> & Hc) [id Hid]].
    { apply list_elem_of_In. by eapply list_elem_of_lookup_2. }
    exists id. split; [done|].
    change ["assignedCustomers"; string_of_nat j; "customerId"; "id"]
      with (["assignedCustomers"; string_of_nat j] ++ ["customerId"; "id"])%list.
    rewrite (get_path_val_app _ _ _ _ Hpath).
    unfold reassigned. rewrite Hid. unfold with_customer. rewrite Hc.
    cbn. rewrite assoc_get_set_eq. cbn. by rewrite assoc_get_set_eq.
Qed.

(** The dashboard submitted, if any, is what the customer stage made of
    the dashboard the alias stage returned. *)
Lemma restoreDashboard_submits {S : Type} (h : handler S) s aliasOrder customerOrder
    parsed d0 d1 tr1 s1 :
  Restore.stripSourceFields parsed = Val d0 ->
  run h (Restore.rewriteAliases aliasOrder d0) s = mkResult (Returned d1) tr1 s1 ->
  submitted (run h (Restore.restoreDashboard aliasOrder customerOrder parsed) s) =
    match out (run h (Restore.rewriteCustomers customerOrder d1) s1) with
    | Returned d2 => [d2]
    | _ => []
    end.
Proof.
  intros Hstrip R1. unfold Restore.restoreDashboard, submitted, calls.
  rewrite Hstrip, run_try_catch. cbn [lift mbind Prog_bind bind].
  pose proof (all_calls_run _ _ h s (rewriteAliases_calls aliasOrder d0)) as H1.
  unfold calls in H1. rewrite R1 in H1. simpl in H1.
  pose proof (all_calls_run _ _ h s1 (rewriteCustomers_calls customerOrder d1)) as H2.
  unfold calls in H2.
  change (bind (Restore.rewriteAliases aliasOrder d0) ?f)
    with (Restore.rewriteAliases aliasOrder d0 ≫= f).
  rewrite (run_bind_returned _ _ _ _ _ _ _ R1), run_bind.
  destruct (run h (Restore.rewriteCustomers customerOrder d1) s1) as [o tr2 s2].
  simpl in H2. unfold and_then, or_catch. cbn [out trace final].
  destruct o as [d2| | |]; cbn -[dashboardsIn].
  1: destruct (h (Request (SaveDashboard d2)) s2) as [[x|x] s3]; cbn -[dashboardsIn].
  all: rewrite ?List.app_nil_r, !List.map_app, !dashboardsIn_app,
         (dashboardsIn_none _ H1), (dashboardsIn_none _ H2); done.
Qed.

(** Take a stored dashboard whose alias entries can be read and a target
    that answers the lookups of devices by name.  Whatever the order in
    which the answers arrive, a dashboard that the restore submits has,
    under every alias key, the stored entry, except that a single-entity
    device alias whose name resolves carries the live id of that device;
    the id of one whose name does not resolve is the stored one.  And the
    dashboard is submitted, whether its aliases resolve or not, when it
    carries no customer assignment or when each of its assignments names a
    customer of the target. *)
Lemma single_device_aliases_rewritten {S : Type} (h : handler S) (s : S)
    (aliasOrder customerOrder : schedule) (top conf aliases : list (string * value))
    (live customers : value -> option value) :
  assoc_get "configuration" top = VObj conf ->
  assoc_get "entityAliases" conf = VObj aliases ->
  Forall (fun p => readable_alias p.2) aliases ->
  resolves_devices h live ->
  let r := run h (Restore.restoreDashboard aliasOrder customerOrder (VObj top)) s in
  (forall d key,
     In d (submitted r) ->
     get_path d (Restore.aliasPath key) = Val (rewritten live (assoc_get key aliases)) /\
     (In key (List.map fst aliases) ->
      single_device (assoc_get key aliases) = true ->
      get_path d (Restore.aliasPath key ++ ["filter"; "singleEntity"; "id"]) =
        Val (match live (get_opt (assoc_get key aliases) "alias") with
             | Some i => i
             | None =>
                 get_opt (get_opt (get_opt (assoc_get key aliases) "filter")
                                  "singleEntity") "id"
             end))) /\
  (truthy (assoc_get "assignedCustomers" top) = false \/
   (exists l, assoc_get "assignedCustomers" top = VArr l /\
              all_resolved customers l /\ resolves_customers h customers) ->
   exists d, submitted r = [d]).
Proof.
  intros Hconf Haliases Hreadable Hlive r. subst r.
  set (top0 := assoc_del "tenantId" (assoc_del "createdTime" (assoc_del "id" top))).
  assert (Hstrip : Restore.stripSourceFields (VObj top) = Val (VObj top0)) by done.
  assert (Hconf0 : assoc_get "configuration" top0 = VObj conf).
  { unfold top0. by rewrite !assoc_get_del_ne by discriminate. }
  assert (Hassigned0 : assoc_get "assignedCustomers" top0 =
                       assoc_get "assignedCustomers" top).
  { unfold top0. by rewrite !assoc_get_del_ne by discriminate. }
  destruct (run_rewriteAliases h live top0 conf aliases Hconf0 Haliases Hreadable Hlive
              aliasOrder s) as (d1 & tr1 & s1 & R1 & Hstate & Hdone).
  rewrite (restoreDashboard_submits h s aliasOrder customerOrder _ _ _ _ _ Hstrip R1).
  destruct Hstate as (topd & confd & al & -> & Hc & Ha & Hentries & Hassigned).
  split.
  - intros d key Hin.
    destruct (out (run h (Restore.rewriteCustomers customerOrder (VObj topd)) s1))
      as [d2| | |] eqn:Hout; try done.
    destruct Hin as [<-|[]].
    assert (Hk : keeps_configuration (VObj confd) d2).
    { eapply rewriteCustomers_keeps; [|exact Hout]. by exists topd. }
    destruct Hk as (topd2 & -> & Hc2).
    assert (Hentry : get_path (VObj topd2) (Restore.aliasPath key) =
                     Val (rewritten live (assoc_get key aliases))).
    { specialize (Hdone key). unfold Spec.alias_done in Hdone.
      unfold Restore.aliasPath. revert Hdone. fields. done. }
    split; [done|]. intros Hkey Hsingle.
    rewrite (get_path_val_app _ _ _ _ Hentry).
    apply rewritten_id; [|done].
    apply assoc_get_in in Hkey. rewrite List.Forall_forall in Hreadable.
    exact (Hreadable _ Hkey).
  - intros [Hnone | (l & Hl & Hall & Hcust)].
    + unfold Restore.rewriteCustomers.
      cbn -[promise_all_map truthy]. rewrite Hassigned, Hassigned0, Hnone.
      by eexists.
    + rewrite Hassigned0, Hl in Hassigned.
      destruct (run_rewriteCustomers h customers l Hall Hcust topd customerOrder s1
                  Hassigned) as (d2 & tr2 & s2 & R2 & _).
      rewrite R2. by eexists.
Qed.

(** The sample dashboard, assigned to [Acme], restored on the sample
    installation, the second device page arriving first: the alias of
    [Sensor-7] gets the live id, the alias of [Gone-3] keeps the stored
    one, and the dashboard is submitted. *)
Lemma single_device_aliases_rewritten_on_sample :
  exists d,
    submitted (run Sample.target
                 (Restore.restoreDashboard [1%nat] []
                    (Sample.dashboardWith (VArr [Sample.assignment "Acme" "src-c3"])))
                 []) = [d] /\
    get_path d (Restore.aliasPath "alias-1" ++ ["filter"; "singleEntity"; "id"]) =
      Val (VStr "dev-7") /\
    get_path d (Restore.aliasPath "alias-2" ++ ["filter"; "singleEntity"; "id"]) =
      Val (VStr "src-3").
Proof.
  assert (Hread : Forall (fun p : string * value => readable_alias p.2)
                         Sample.sampleAliases).
  { repeat constructor; do 2 eexists;
      (split; [reflexivity|]); (split; [reflexivity|]);
      first [ intros _; eexists; reflexivity | discriminate ]. }
  assert (Hlive : resolves_devices Sample.target Sample.liveIds).
  { intros name st. eexists. split; [reflexivity|].
    unfold Sample.liveIds. simpl. by destruct (Sample.asks _ _ _). }
  assert (Hcust : resolves_customers Sample.target Sample.liveCustomers).
  { intros title st. eexists. split; [reflexivity|].
    unfold Sample.liveCustomers. simpl. by destruct (Sample.asks _ _ _). }
  assert (Hall : all_resolved Sample.liveCustomers [Sample.assignment "Acme" "src-c3"]).
  { repeat constructor; [do 2 eexists; split; reflexivity | by eexists]. }
  destruct (single_device_aliases_rewritten Sample.target [] [1%nat] []
              (Sample.dashboardFields (VArr [Sample.assignment "Acme" "src-c3"]))
              Sample.sampleConfiguration Sample.sampleAliases Sample.liveIds
              Sample.liveCustomers eq_refl eq_refl Hread Hlive)
    as [Hin Hsubmitted].
  destruct (Hsubmitted (or_intror (ex_intro _ _ (conj eq_refl (conj Hall Hcust)))))
    as [d Hd].
  exists d. split; [exact Hd|].
  assert (Hd' : In d (submitted (run Sample.target
                   (Restore.restoreDashboard [1%nat] []
                      (VObj (Sample.dashboardFields
                               (VArr [Sample.assignment "Acme" "src-c3"])))) []))).
  { rewrite Hd. by left. }
  split.
  - apply (proj2 (Hin d "alias-1" Hd')); [simpl; tauto | reflexivity].
  - apply (proj2 (Hin d "alias-2" Hd')); [simpl; tauto | reflexivity].
Qed.

(** C2.  The sample dashboard has an alias for the device [Gone-3], which
    the sample installation does not hold.  Restored without customer
    assignments it is submitted, that alias carrying its stored id.
    Restored with the assignments [Initech], unknown to the installation,
    and [Acme], known to it, the answers arriving in the order of the
    requests, it is not submitted at all: the entry of [Initech] is removed
    first, and the callback of [Acme] then writes to an index that is past
    the end of the list, which throws inside the [try] of the file. *)
Theorem C2_dashboard_with_stale_alias_not_created :
  Sample.liveIds (VStr "Gone-3") = None /\
  (fun d => get_path d (Restore.aliasPath "alias-2" ++ ["filter"; "singleEntity"; "id"])) <$>
    submitted (run Sample.target
                 (Restore.restoreDashboard [] [] (Sample.dashboardWith VNull)) []) =
    [Val (VStr "src-3")] /\
  Sample.liveCustomers (VStr "Initech") = None /\
  Sample.liveCustomers (VStr "Acme") = Some (VStr "cust-live") /\
  submitted (run Sample.target
               (Restore.restoreDashboard [] []
                  (Sample.dashboardWith
                     (VArr [Sample.assignment "Initech" "src-c1";
                            Sample.assignment "Acme" "src-c3"]))) []) = [] /\
  out (run Sample.target
           (Restore.restoreDashboard [] []
              (Sample.dashboardWith
                 (VArr [Sample.assignment "Initech" "src-c1";
                        Sample.assignment "Acme" "src-c3"]))) []) = Returned tt.
Proof. repeat split; reflexivity. Qed.

(** ** Further properties of the entry file *)

(** *** File names *)

Lemma split_dot_cons s : exists piece pieces, Restore.split_dot s = piece :: pieces.
Proof.
  induction s as [|c s (piece & pieces & IH)]; simpl; [by eexists _, _|].
  destruct (Ascii.eqb c "."); [by eexists _, _|]. rewrite IH. by eexists _, _.
Qed.

Lemma split_dot_app a b :
  Restore.split_dot (a +:+ "." +:+ b) = (Restore.split_dot a ++ Restore.split_dot b)%list.
Proof.
  induction a as [|c a IH]; simpl; [done|].
  rewrite IH. destruct (Ascii.eqb c "."); [done|].
  by destruct (split_dot_cons a) as (piece & pieces & ->).
Qed.

Lemma split_dot_plain s : has_dot s = false -> Restore.split_dot s = [s].
Proof.
  induction s as [|c s IH]; simpl; [done|].
  destruct (Ascii.eqb c "."); simpl; [done|]. intros H. by rewrite IH.
Qed.

Lemma join_split_dot s : join "." (Restore.split_dot s) = s.
Proof.
  unfold join. induction s as [|c s IH]; simpl; [done|].
  destruct (Ascii.eqb c ".") eqn:E.
  - apply Ascii.eqb_eq in E. subst c.
    destruct (split_dot_cons s) as (piece & pieces & Hs).
    rewrite Hs in *. simpl in *. by rewrite IH.
  - destruct (split_dot_cons s) as (piece & pieces & Hs).
    rewrite Hs in *. simpl in *. destruct pieces; simpl in *; by rewrite <- IH.
Qed.

(** X1.  [file.split('.').slice(0, -1).join('.')] removes exactly the last
    extension: for a file called [name.ext], [ext] without a dot, it gives
    back [name], dots of [name] included.  So the name an entity is
    exported under, [name.json], is the name it is restored with. *)
Theorem X1_entityName_strips_last_extension (name ext : string) :
  has_dot ext = false ->
  Restore.entityName (name +:+ "." +:+ ext) = name.
Proof.
  intros Hext. unfold Restore.entityName.
  rewrite split_dot_app, (split_dot_plain _ Hext), List.removelast_last.
  apply join_split_dot.
Qed.

Lemma X1_witness : Restore.entityName ("Sensor.7" +:+ "." +:+ "json") = "Sensor.7".
Proof. apply X1_entityName_strips_last_extension. reflexivity. Defined.

(** X2.  A file of [devices/] whose name has no dot is restored as a
    device with the empty name: the first request of its restore creates
    [{ name: '', type: 'AT_CORE' }]. *)
Theorem X2_dotless_file_creates_nameless_device {S : Type} (h : handler S) (s : S)
    (file : string) (device tok : value) :
  has_dot file = false ->
  get_prop device "accessToken" = Val tok ->
  Restore.entityName file = "" /\
  hd_error (calls (run h (Restore.restoreDevice file device) s)) =
    Some (Request (SaveDevice (deviceBody "") tok)) /\
  hd_error (calls (run h (Legacy.restoreDevice file device) s)) =
    Some (Request (SaveDevice (deviceBody "") tok)).
Proof.
  intros Hdot Htok.
  assert (Hname : Restore.entityName file = "").
  { unfold Restore.entityName. by rewrite (split_dot_plain _ Hdot). }
  split; [done|].
  unfold Legacy.restoreDevice, Restore.restoreDevice, Restore.restoreDeviceBody,
    Restore.establishIdentity, Restore.createDevice, api.saveDevice, calls.
  rewrite Hname, Htok. split; reflexivity.
Qed.

Lemma X2_witness :
  hd_error (calls (run Sample.emptyTarget
                       (Restore.restoreDevice "README" Sample.storedDevice) [])) =
    Some (Request (SaveDevice (deviceBody "") (VStr "tok-1"))).
Proof.
  apply (X2_dotless_file_creates_nameless_device Sample.emptyTarget [] "README"
           Sample.storedDevice (VStr "tok-1") eq_refl eq_refl).
Defined.

(** *** Attribute lists *)





Lemma throwing_not_taken e : throwing e = true -> taken e = false.
Proof.
  unfold throwing. destruct e; try done; cbn [nullish orb taken];
    by destruct (toPropertyKey _).
Qed.

(** X4.  Take a list each of whose entries is either taken or one on which
    the callback throws: an entry that is [null] or [undefined] (the
    destructuring of the parameter fails on it) or whose key has no
    primitive value (an object with a [toString] property of its own).
    [getAttributesObject] throws a [TypeError] exactly when the list holds
    an entry of the second kind, and returns a map otherwise; and it throws
    on whatever is not an array. *)
Theorem X4_getAttributesObject_throws_iff (v : value) :
  (forall l, v = VArr l -> Forall (fun e => taken e || throwing e = true) l) ->
  (Restore.getAttributesObject v = Raise TypeError <->
   (forall l, v = VArr l -> Exists (fun e => throwing e = true) l)) /\
  (Restore.getAttributesObject v = Raise TypeError \/
   exists m, Restore.getAttributesObject v = Val m).
Proof.
  intros Hdom.
  destruct v as [| | | | |l|];
    try (split; [split; [intros _ ? [=] | reflexivity] | by left]).
  specialize (Hdom l eq_refl).
  unfold Restore.getAttributesObject. cbn [as_array mbind res_bind].
  generalize (∅ : gmap string value).
  induction Hdom as [|e l He _ IH]; intros m.
  { split; [|right; by eexists]. split; [done|].
    intros H. specialize (H [] eq_refl). by apply List.Exists_nil in H. }
  rewrite getAttributesObject_cons.
  destruct (taken e) eqn:Et.
  - destruct (IH (withEntry m e)) as [Hiff Hor]. split; [|exact Hor].
    rewrite Hiff. split.
    + intros H l' [= <-]. right. by apply H.
    + intros H l' [= <-]. specialize (H (e :: l) eq_refl).
      apply List.Exists_cons in H as [H|H]; [|done].
      by rewrite (throwing_not_taken _ H) in Et.
  - cbn [orb] in He. rewrite He. split; [|by left]. split; [|done].
    intros _ l' [= <-]. by left.
Qed.

Lemma X4_witness :
  Restore.getAttributesObject
    (VArr [VObj [("key", VStr "fw"); ("value", VNum 3)];
           VObj [("key", VObj [("toString", VNum 1)]); ("value", VNum 0)]]) =
    Raise TypeError.
Proof.
  apply (proj2 (proj1 (X4_getAttributesObject_throws_iff
                         (VArr [VObj [("key", VStr "fw"); ("value", VNum 3)];
                                VObj [("key", VObj [("toString", VNum 1)]);
                                      ("value", VNum 0)]])
                         ltac:(intros l [= <-]; repeat constructor)))).
  intros l [= <-]. right. left. reflexivity.
Defined.

(** *** From the exported device to the restored one *)

Lemma nullish_without k e : nullish (without k e) = nullish e.
Proof.
  destruct e; simpl; try done.
  destruct (index_of_key k); [|done]. by destruct (decide _).
Qed.

Lemma get_opt_without_lastUpdateTs e k :
  k <> "lastUpdateTs" -> get_opt (without "lastUpdateTs" e) k = get_opt e k.
Proof.
  intros Hk. destruct e; try done.
  simpl. by rewrite assoc_get_del_ne.
Qed.

Lemma mapM_delete_prop k l l' :
  mapM (fun item => delete_prop item k) l = Val l' ->
  Forall (fun e => nullish e = false) l /\ l' = without k <$> l.
Proof.
  revert l'. induction l as [|e l IH]; simpl; intros l'.
  - intros [= <-]. by split.
  - destruct (delete_prop e k) as [e'| |] eqn:He; simpl; try done.
    destruct (mapM _ l) as [l0| |]; simpl; try done.
    intros [= <-]. destruct (IH l0 eq_refl) as [Hl ->].
    destruct e; simpl in He; try done; injection He as <-; split; try done;
      by constructor.
Qed.

Lemma attributesOf_without l :
  attributesOf (without "lastUpdateTs" <$> l) = attributesOf l.
Proof.
  unfold attributesOf. generalize (∅ : gmap string value).
  induction l as [|e l IH]; intros m; [done|].
  rewrite fmap_cons. cbn [foldl]. rewrite IH. unfold withEntry.
  by rewrite !get_opt_without_lastUpdateTs.
Qed.

Lemma taken_without e : taken (without "lastUpdateTs" e) = taken e.
Proof.
  destruct e as [| | | | |l|ps]; try done.
  unfold taken. by rewrite !get_opt_without_lastUpdateTs.
Qed.

Lemma throwing_without e : throwing (without "lastUpdateTs" e) = throwing e.
Proof.
  unfold throwing. by rewrite nullish_without, get_opt_without_lastUpdateTs.
Qed.

Lemma storable_without l : storable l -> storable (without "lastUpdateTs" <$> l).
Proof.
  induction 1 as [|e l He _ IH]; [constructor|].
  rewrite fmap_cons. constructor; [by rewrite taken_without | exact IH].
Qed.

(** Without its [lastUpdateTs] an entry does to the map what it did with
    it. *)
Lemma getAttributesObject_without l :
  Restore.getAttributesObject (VArr (without "lastUpdateTs" <$> l)) =
  Restore.getAttributesObject (VArr l).
Proof.
  unfold Restore.getAttributesObject. cbn [as_array mbind res_bind].
  generalize (∅ : gmap string value).
  induction l as [|e l IH]; intros m; [done|].
  rewrite fmap_cons, !getAttributesObject_cons, taken_without, throwing_without.
  destruct (taken e) eqn:Et; [|done].
  rewrite IH. unfold withEntry. by rewrite !get_opt_without_lastUpdateTs.
Qed.

(** X5.  Dropping [lastUpdateTs] at export changes nothing of what the
    restore sends: the map [getAttributesObject] builds from the exported
    list is the one it builds from the live list, and the exported list
    has as many entries, none of them with a [lastUpdateTs]. *)
Theorem X5_dropLastUpdateTs_keeps_the_attributes (live stored : value) :
  Backup.dropLastUpdateTs live = Val stored ->
  Restore.getAttributesObject stored = Restore.getAttributesObject live /\
  exists l l',
    live = VArr l /\ stored = VArr l' /\ length l' = length l /\
    Forall (fun e => get_opt e "lastUpdateTs" = VUndef) l'.
Proof.
  unfold Backup.dropLastUpdateTs.
  destruct live as [| | | | |l|]; simpl; try done.
  destruct (mapM _ l) as [l'| |] eqn:Hm; simpl; try done.
  intros [= <-]. destruct (mapM_delete_prop _ _ _ Hm) as [Hl ->].
  split.
  - apply getAttributesObject_without.
  - exists l, (without "lastUpdateTs" <$> l). split; [done|]. split; [done|].
    split; [by rewrite length_fmap|].
    apply List.Forall_forall. intros e' He'.
    apply list_elem_of_In, list_elem_of_fmap in He' as (e & -> & _).
    destruct e; try done. simpl. apply assoc_get_del_eq.
Qed.

Lemma X5_witness :
  Restore.getAttributesObject
    (VArr [VObj [("key", VStr "fw"); ("value", VNum 3)]]) =
  Restore.getAttributesObject
    (VArr [VObj [("lastUpdateTs", VNum 1600000000002);
                 ("key", VStr "fw"); ("value", VNum 3)]]).
Proof.
  apply (X5_dropLastUpdateTs_keeps_the_attributes
           (VArr [VObj [("lastUpdateTs", VNum 1600000000002);
                        ("key", VStr "fw"); ("value", VNum 3)]])
           (VArr [VObj [("key", VStr "fw"); ("value", VNum 3)]]) eq_refl).
Defined.

(** What [JSON.stringify] writes of a JSON value parses back to it. *)
Lemma JSON_stringify_json v : is_json v = true -> Backup.JSON_stringify v = v.
Proof.
  induction v as [| | | | |l IH|ps IH] using value_nested_ind; simpl; try done.
  - intros H. f_equal. induction IH as [|x l Hx _ IHl]; simpl in *; [done|].
    apply andb_true_iff in H as [H1 H2]. rewrite IHl by done.
    rewrite <- (Hx H1) at 2. by destruct x.
  - intros H. f_equal. induction IH as [|[k x] ps Hx _ IHps]; simpl in *; [done|].
    apply andb_true_iff in H as [H1 H2].
    change (list_omap _ _ ?f ps) with (omap f ps). rewrite IHps by done.
    rewrite (Hx H1). by destruct x.
Qed.


Lemma run_capture_await {S : Type} (h : handler S) c s :
  run h (capture (await c)) s =
    mkResult (Returned (settled (h c s).1)) [(c, (h c s).1)] (h c s).2.
Proof. unfold capture, await, settled. simpl. by destruct (h c s).1. Qed.

Lemma run_backupDevice {S : Type} (h : handler S) tenantDir device id s0 :
  get_path device ["id"; "id"] = Val id ->
  run h (Backup.backupDevice tenantDir device) s0 =
    let a1 := h (Request (GetDeviceAttributesByScope id SERVER_SCOPE)) s0 in
    let a2 := h (Request (GetDeviceAttributesByScope id SHARED_SCOPE)) a1.2 in
    let a3 := h (Request (GetDeviceAttributesByScope id CLIENT_SCOPE)) a2.2 in
    let a4 := h (Request (GetDeviceCredentials id)) a3.2 in
    let rest := run h (afterReads tenantDir device (settled a1.1) (settled a2.1)
                                  (settled a3.1) (settled a4.1)) a4.2 in
    mkResult (out rest)
             ([(Request (GetDeviceAttributesByScope id SERVER_SCOPE), a1.1);
               (Request (GetDeviceAttributesByScope id SHARED_SCOPE), a2.1);
               (Request (GetDeviceAttributesByScope id CLIENT_SCOPE), a3.1);
               (Request (GetDeviceCredentials id), a4.1)] ++ trace rest)
             (final rest).
Proof.
  intros Hid. unfold Backup.backupDevice.
  rewrite Hid. cbn [lift mbind Prog_bind bind].
  unfold api.getDeviceAttributesByScope, api.getDeviceCredentials.
  change (bind ?p ?f) with (p ≫= f).
  rewrite (run_bind_returned _ _ _ _ _ _ _ (run_capture_await h _ s0)).
  rewrite (run_bind_returned _ _ _ _ _ _ _ (run_capture_await h _ _)).
  rewrite (run_bind_returned _ _ _ _ _ _ _ (run_capture_await h _ _)).
  rewrite (run_bind_returned _ _ _ _ _ _ _ (run_capture_await h _ _)).
  reflexivity.
Qed.





(** *** The reads of the export of a device *)

Lemma afterReads_calls tenantDir device r1 r2 r3 r4 :
  all_calls (fun c => exists path body, c = WriteFile path body)
            (afterReads tenantDir device r1 r2 r3 r4).
Proof.
  unfold afterReads, Backup.writeJson.
  calls_tac; eauto. intros []; constructor.
Qed.

(** X7.  The export of a device sends its four reads (the three attribute
    scopes, then the credentials) before it looks at any answer: they are
    the first four calls whatever the platform answers. *)
Theorem X7_backupDevice_sends_its_four_reads {S : Type} (h : handler S) (s : S)
    (tenantDir : string) (device id : value) :
  get_path device ["id"; "id"] = Val id ->
  firstn 4 (calls (run h (Backup.backupDevice tenantDir device) s)) = deviceReads id.
Proof.
  intros Hid. by rewrite (run_backupDevice h tenantDir device id s Hid).
Qed.

Lemma X7_witness :
  firstn 4 (calls (run Fixture.noCredentials
                       (Backup.backupDevice "tenants/T" Sample.liveDevice) [])) =
    deviceReads (VStr "dev-7").
Proof. apply X7_backupDevice_sends_its_four_reads. reflexivity. Defined.

(** X8.  When one of the four reads of a device is rejected, no file is
    written for the device: a device whose credentials or attributes
    cannot be read leaves no partial record. *)
Theorem X8_backupDevice_writes_nothing_after_a_rejected_read {S : Type}
    (h : handler S) (s : S) (tenantDir : string) (device id : value) (c : Call) :
  get_path device ["id"; "id"] = Val id ->
  In c (deviceReads id) ->
  In c (rejected (run h (Backup.backupDevice tenantDir device) s)) ->
  files (run h (Backup.backupDevice tenantDir device) s) = [].
Proof.
  intros Hid Hc. rewrite (run_backupDevice h tenantDir device id s Hid). cbn zeta.
  set (a1 := h (Request (GetDeviceAttributesByScope id SERVER_SCOPE)) s).
  set (a2 := h (Request (GetDeviceAttributesByScope id SHARED_SCOPE)) a1.2).
  set (a3 := h (Request (GetDeviceAttributesByScope id CLIENT_SCOPE)) a2.2).
  set (a4 := h (Request (GetDeviceCredentials id)) a3.2).
  destruct a1.1 as [d1|d1] eqn:E1; destruct a2.1 as [d2|d2] eqn:E2;
    destruct a3.1 as [d3|d3] eqn:E3; destruct a4.1 as [d4|d4] eqn:E4;
    try (intros _; reflexivity).
  intros Hrej. exfalso.
  pose proof (all_calls_run _ _ h a4.2
                (afterReads_calls tenantDir device (settled (Ok d1)) (settled (Ok d2))
                   (settled (Ok d3)) (settled (Ok d4)))) as Hrest.
  unfold rejected in Hrej. cbn [trace app omap list_omap] in Hrej.
  change (list_omap _ _ ?f ?l) with (omap f l) in Hrej.
  fold (rejected (run h (afterReads tenantDir device (settled (Ok d1)) (settled (Ok d2))
                           (settled (Ok d3)) (settled (Ok d4))) a4.2)) in Hrej.
  apply rejected_calls in Hrej.
  rewrite List.Forall_forall in Hrest.
  destruct (Hrest c Hrej) as (path & body & ->).
  simpl in Hc. intuition discriminate.
Qed.

Lemma X8_witness :
  files (run Fixture.noCredentials
             (Backup.backupDevice "tenants/T" Sample.liveDevice) []) = [].
Proof.
  apply (X8_backupDevice_writes_nothing_after_a_rejected_read Fixture.noCredentials []
           "tenants/T" Sample.liveDevice (VStr "dev-7")
           (Request (GetDeviceCredentials (VStr "dev-7"))) eq_refl).
  - simpl. tauto.
  - vm_compute. tauto.
Defined.

(** *** Export of a category *)

Lemma backupDashboard_calls (P : Call -> Prop) tenantDir d :
  (forall id, P (Request (GetDashboardById id))) ->
  (forall path body, P (WriteFile path body)) ->
  (forall e, P (ConsoleLog (LogError e))) ->
  all_calls P (Backup.backupDashboard tenantDir d).
Proof.
  intros H1 H2 H3.
  unfold Backup.backupDashboard, Backup.logAndReject, api.getDashboardById,
    Backup.writeJson, console_log_error.
  calls_tac; auto; intros []; constructor.
Qed.

(** X9.  The export of the dashboards of a tenant asks the platform for
    one page, of at most 1000 dashboards from page 0, and never for
    another: what the platform holds beyond that page is not exported. *)
Theorem X9_backupDashboards_lists_one_page {S : Type} (h : handler S) (s : S)
    (tenantDir : string) :
  exists rest,
    calls (run h (Backup.backupDashboards tenantDir) s) =
      ConsoleLog (LogValue (VStr "Backup Dashboards..."))
      :: Request (GetDashboards
                    {| pageSize := Some 1000; page := Some 0; textSearch := VUndef |})
      :: rest /\
    Forall (fun c => forall q, c <> Request (GetDashboards q)) rest.
Proof.
  unfold Backup.backupDashboards, Backup.logAndReject, api.getDashboards,
    console_log, perform, await, calls.
  cbn [mbind Prog_bind bind try_catch run trace List.map fst snd].
  eexists. split; [reflexivity|].
  apply (all_calls_run (fun c => forall q, c <> Request (GetDashboards q))).
  apply all_calls_try_catch.
  - apply all_calls_bind; [destruct (h _ _).1; constructor|].
    intros page. apply all_calls_bind; [apply all_calls_lift|].
    intros dashboards. apply all_calls_bind; [apply all_calls_lift|].
    intros listed. apply all_calls_bind.
    + apply all_calls_fanOut. intros d _.
      apply backupDashboard_calls; intros; discriminate.
    + intros []; simpl; constructor; [discriminate|]. intros; constructor.
  - intros e. unfold console_log_error, perform.
    constructor; [discriminate|]. intros; constructor.
Qed.

(** X10.  When the listing of the dashboards is rejected, the error is
    printed and the category is rejected with it; nothing is fetched and
    nothing is written. *)
Theorem X10_rejected_listing_ends_the_category {S : Type} (h : handler S)
    (s s2 : S) (tenantDir : string) (d : value) :
  h (Request (GetDashboards DEFAULT_GET_LIST_PARAMS))
    (h (ConsoleLog (LogValue (VStr "Backup Dashboards..."))) s).2 = (Fail d, s2) ->
  out (run h (Backup.backupDashboards tenantDir) s) = Threw (AxiosError d) /\
  calls (run h (Backup.backupDashboards tenantDir) s) =
    [ConsoleLog (LogValue (VStr "Backup Dashboards..."));
     Request (GetDashboards DEFAULT_GET_LIST_PARAMS);
     ConsoleLog (LogError (AxiosError d))].
Proof.
  intros Hlist.
  unfold Backup.backupDashboards, Backup.logAndReject, api.getDashboards,
    console_log, console_log_error, perform, await, calls.
  cbn [mbind Prog_bind bind try_catch run trace out List.map fst snd].
  change (with_page0 DEFAULT_GET_LIST_PARAMS) with DEFAULT_GET_LIST_PARAMS.
  rewrite Hlist. split; reflexivity.
Qed.

Lemma X10_witness :
  calls (run (fun c s => (Fail VUndef, s)) (Backup.backupDashboards "tenants/T") tt) =
    [ConsoleLog (LogValue (VStr "Backup Dashboards..."));
     Request (GetDashboards DEFAULT_GET_LIST_PARAMS);
     ConsoleLog (LogError (AxiosError VUndef))].
Proof.
  apply (X10_rejected_listing_ends_the_category (fun c s => (Fail VUndef, s)) tt tt
           "tenants/T" VUndef eq_refl).
Defined.

(** Every promise of a [Promise.all(entities.map(backupOne))] is started:
    when each of them settles, what each is known to send is sent. *)
Lemma get_path_cons_defined o k p v :
  get_path o (k :: p) = Val v -> nullish o = false.
Proof. by destruct o. Qed.

(** The export of one dashboard settles, and its fetch is sent when the
    dashboard has an id. *)
Lemma run_backupDashboard_settles {S : Type} (h : handler S) tenantDir d s :
  (forall i st, (h (Request (GetDashboardById i)) st).1 <> Ok VUndef) ->
  disk_accepts h ->
  exists b tr s',
    run h (try_catch (Backup.backupDashboard tenantDir d;; Ret true)
                     (fun _ => Ret false)) s =
      mkResult (Returned b) tr s' /\
    (forall id, get_path d ["id"; "id"] = Val id ->
                In (Request (GetDashboardById id)) (List.map fst tr)).
Proof.
  intros Hdef Hdisk. unfold Backup.backupDashboard.
  destruct (get_path d ["id"; "id"]) as [id| |] eqn:Hid.
  - pose proof (get_path_cons_defined _ _ _ _ Hid) as Hd.
    unfold Backup.logAndReject, api.getDashboardById, await, console_log_error,
      perform.
    rewrite (get_prop_get_opt _ "name" Hd).
    cbn [lift mbind Prog_bind bind try_catch run].
    specialize (Hdef id s).
    destruct (h (Request (GetDashboardById id)) s) as [[live|e] s1] eqn:Hfetch;
      cbn [fst snd] in *.
    + unfold Backup.writeJson.
      destruct (Hdisk [tenantDir; "dashboards"; toString (get_opt d "name") +:+ ".json"]
                  (Backup.JSON_stringify live) s1) as [w Hw].
      destruct live; try done;
        cbn [lift mbind Prog_bind bind try_catch run fst snd];
        rewrite Hw; do 3 eexists; (split; [reflexivity|]);
        intros ? [= <-]; simpl; tauto.
    + cbn [lift mbind Prog_bind bind try_catch run fst snd].
      do 3 eexists. split; [reflexivity|]. intros ? [= <-]. simpl. tauto.
  - simpl. do 3 eexists. split; [reflexivity|]. intros ? [=].
  - by destruct (get_path_modelled d ["id"; "id"]).
Qed.

(** X11.  Every dashboard of the listed page that has an id is fetched,
    whatever becomes of the others: a fetch the platform rejects, or a
    listed entry without an id, does not keep the export from asking for
    the rest.  (The platform answers no fetch with [undefined] and the
    disk takes the files.) *)
Theorem X11_every_listed_dashboard_is_fetched {S : Type} (h : handler S)
    (s s2 : S) (tenantDir : string) (page : value) (ds : list value) :
  h (Request (GetDashboards DEFAULT_GET_LIST_PARAMS))
    (h (ConsoleLog (LogValue (VStr "Backup Dashboards..."))) s).2 = (Ok page, s2) ->
  get_prop page "data" = Val (VArr ds) ->
  (forall i st, (h (Request (GetDashboardById i)) st).1 <> Ok VUndef) ->
  disk_accepts h ->
  forall d id,
    In d ds -> get_path d ["id"; "id"] = Val id ->
    In (Request (GetDashboardById id))
       (calls (run h (Backup.backupDashboards tenantDir) s)).
Proof.
  intros Hlist Hdata Hdef Hdisk d id Hd Hid.
  destruct (run_fanOut_each h (Backup.backupDashboard tenantDir)
              (fun d sent => forall id, get_path d ["id"; "id"] = Val id ->
                                        In (Request (GetDashboardById id)) sent)
              ds (fun x st _ => run_backupDashboard_settles h tenantDir x st Hdef Hdisk)
              s2) as (b & tr & s3 & Rfan & Hall).
  destruct (Hall d Hd) as (sent & Hsent & Hincl).
  unfold Backup.backupDashboards, Backup.logAndReject, api.getDashboards,
    console_log, perform, await, calls.
  cbn [mbind Prog_bind bind try_catch run trace List.map fst snd].
  change (with_page0 DEFAULT_GET_LIST_PARAMS) with DEFAULT_GET_LIST_PARAMS.
  rewrite Hlist. cbn [fst snd]. do 2 right.
  rewrite run_try_catch.
  change (bind (Ret page) ?f) with (f page). cbv beta.
  rewrite Hdata. cbn [lift as_array mbind Prog_bind bind].
  change (bind (Backup.fanOut ?f ?l) ?k) with (Backup.fanOut f l ≫= k).
  rewrite (run_bind_returned _ _ _ _ _ _ _ Rfan).
  unfold or_catch. cbn [out trace final].
  assert (Hin : In (Request (GetDashboardById id)) (List.map fst tr)).
  { apply Hincl. by apply Hsent. }
  destruct (out (run h (Backup.whenAll b "Dashboards backup completed!") s3));
    cbn [trace]; rewrite ?List.map_app, ?List.in_app_iff; tauto.
Qed.

Lemma X11_witness :
  In (Request (GetDashboardById (VStr "dash-2")))
     (calls (run Fixture.flaky (Backup.backupDashboards "tenants/T") [])) /\
  In (Request (GetDashboardById (VStr "dash-1")))
     (rejected (run Fixture.flaky (Backup.backupDashboards "tenants/T") [])).
Proof.
  split; [|vm_compute; tauto].
  assert (Hdef : forall i st,
             (Fixture.flaky (Request (GetDashboardById i)) st).1 <> Ok VUndef).
  { intros i st. unfold Fixture.flaky. cbn [fst].
    by destruct (strict_eq i (VStr "dash-1")). }
  assert (Hdisk : disk_accepts Fixture.flaky).
  { intros path body st. by eexists. }
  apply (X11_every_listed_dashboard_is_fetched Fixture.flaky [] [] "tenants/T"
           (Sample.pageOf [Fixture.listed "dash-1" "Base";
                           Fixture.listed "dash-2" "Plant"])
           [Fixture.listed "dash-1" "Base"; Fixture.listed "dash-2" "Plant"]
           eq_refl eq_refl Hdef Hdisk (Fixture.listed "dash-2" "Plant")
           (VStr "dash-2")).
  - simpl. tauto.
  - reflexivity.
Defined.

Lemma backupDashboard_returned {S : Type} (h : handler S) tenantDir d s :
  out (run h (Backup.backupDashboard tenantDir d) s) = Returned tt ->
  rejected (run h (Backup.backupDashboard tenantDir d) s) = [].
Proof.
  unfold Backup.backupDashboard.
  destruct (get_path d ["id"; "id"]) as [id| |]; try done.
  unfold Backup.logAndReject, api.getDashboardById, await, console_log_error,
    perform, rejected.
  cbn [lift mbind Prog_bind bind try_catch run out trace].
  destruct (h (Request (GetDashboardById id)) s) as [[live|e] s1];
    cbn [fst snd]; [|done].
  destruct (get_prop d "name") as [name| |]; try done.
  unfold Backup.writeJson.
  destruct live; try done;
    cbn [lift mbind Prog_bind bind try_catch run out trace fst snd];
    by destruct (h (WriteFile _ _) s1) as [[w|w] s2].
Qed.

Lemma fanOut_all_fulfilled {S A : Type} (h : handler S) (f : A -> Prog unit) l :
  (forall x s, out (run h (f x) s) = Returned tt -> rejected (run h (f x) s) = []) ->
  forall s,
    out (run h (Backup.fanOut f l) s) = Returned true ->
    rejected (run h (Backup.fanOut f l) s) = [].
Proof.
  intros Hf. induction l as [|x l IH]; intros s; [done|].
  cbn [Backup.fanOut]. rewrite run_bind, run_try_catch, run_bind.
  specialize (Hf x s). unfold rejected in *.
  destruct (run h (f x) s) as [[[]| | |] tr1 s1]; unfold and_then, or_catch;
    cbn [out trace final run app] in *; try done.
  - rewrite run_bind. specialize (IH s1). unfold and_then.
    destruct (run h (Backup.fanOut f l) s1) as [[b2| | |] tr2 s2];
      cbn [out trace final run app] in *; try done.
    destruct b2; [|done]. intros _.
    by rewrite !List.app_nil_r, omap_app, Hf, IH.
  - rewrite run_bind. unfold and_then.
    destruct (run h (Backup.fanOut f l) s1) as [[b2| | |] tr2 s2];
      cbn [out trace final run app] in *; done.
Qed.

(** X12.  The line [Dashboards backup completed!] is printed only when the
    listing, every fetch and every write of the category succeeded: after
    a single rejected fetch the category never reports completion. *)
Theorem X12_completion_means_nothing_was_rejected {S : Type} (h : handler S)
    (s : S) (tenantDir : string) :
  In (completed "Dashboards") (calls (run h (Backup.backupDashboards tenantDir) s)) ->
  Forall (fun c => exists l, c = ConsoleLog l)
         (rejected (run h (Backup.backupDashboards tenantDir) s)).
Proof.
  unfold Backup.backupDashboards, Backup.logAndReject, api.getDashboards,
    console_log, console_log_error, perform, await.
  cbn [mbind Prog_bind bind try_catch].
  change (bind ?p ?f) with (p ≫= f).
  change (with_page0 DEFAULT_GET_LIST_PARAMS) with DEFAULT_GET_LIST_PARAMS.
  unfold calls, rejected. cbn [run trace List.map fst snd].
  set (s1 := (h (ConsoleLog (LogValue (VStr "Backup Dashboards..."))) s).2).
  destruct (h (Request (GetDashboards DEFAULT_GET_LIST_PARAMS)) s1) as [[page|e] s2].
  2:{ cbn [fst snd try_catch run trace List.map]. intros [H|[H|[H|[]]]]; discriminate. }
  cbn [fst snd].
  change (Ret page ≫= ?f) with (f page). cbv beta.
  set (handle := fun e : exn => Vis (ConsoleLog (LogError e)) (fun _ => Throw e)).
  enough (Hrest : forall p : Prog unit,
             p = try_catch
                   (lift (get_prop page "data") ≫= fun dashboards =>
                    lift (as_array dashboards) ≫= fun listed =>
                    Backup.fanOut (Backup.backupDashboard tenantDir) listed ≫=
                      fun allFulfilled =>
                        Backup.whenAll allFulfilled "Dashboards backup completed!")
                   handle ->
             In (completed "Dashboards") (List.map fst (trace (run h p s2))) ->
             Forall (fun c => exists l, c = ConsoleLog l)
                    (omap (fun '(c, resp) => match resp with
                                             | Fail _ => Some c
                                             | Ok _ => None
                                             end) (trace (run h p s2)))).
  { intros [H|[H|H]]; try discriminate.
    specialize (Hrest _ eq_refl H). cbn [omap list_omap].
    change (list_omap _ _ ?f ?l) with (omap f l).
    destruct (h (ConsoleLog (LogValue (VStr "Backup Dashboards..."))) s).1;
      [done|]. constructor; [by eexists | done]. }
  intros p ->.
  destruct (get_prop page "data") as [dashboards| |];
    [|cbn; intros [H|[]]; discriminate | cbn; intros []].
  cbn [lift mbind Prog_bind bind].
  destruct (as_array dashboards) as [listed| |];
    [|cbn; intros [H|[]]; discriminate | cbn; intros []].
  cbn [lift mbind Prog_bind bind]. change (bind ?p ?f) with (p ≫= f).
  rewrite run_try_catch, run_bind.
  assert (Hnot : ~ In (completed "Dashboards")
                      (calls (run h (Backup.fanOut (Backup.backupDashboard tenantDir)
                                                   listed) s2))).
  { intros Hin.
    assert (Hall : all_calls (fun c => c <> completed "Dashboards")
                     (Backup.fanOut (Backup.backupDashboard tenantDir) listed)).
    { apply all_calls_fanOut. intros d _.
      apply backupDashboard_calls; intros; discriminate. }
    apply (all_calls_run _ _ h s2) in Hall.
    rewrite List.Forall_forall in Hall. by apply (Hall _ Hin). }
  pose proof (fanOut_all_fulfilled h (Backup.backupDashboard tenantDir) listed
                (backupDashboard_returned h tenantDir) s2) as Hclean.
  unfold calls, rejected in *.
  destruct (run h (Backup.fanOut (Backup.backupDashboard tenantDir) listed) s2)
    as [[[]| | |] trf sf]; unfold and_then, or_catch, handle;
    cbn [out trace final run Backup.whenAll console_log perform app] in *;
    rewrite ?List.app_nil_r, ?List.map_app, ?List.in_app_iff.
  - intros _. rewrite omap_app, (Hclean eq_refl). cbn.
    destruct (h _ sf).1; [done|]. constructor; [by eexists | done].
  - tauto.
  - cbn. intros [H|[H|[]]]; [tauto | discriminate].
  - tauto.
  - tauto.
Qed.

Lemma X12_witness :
  ~ In (completed "Dashboards")
       (calls (run Fixture.flaky (Backup.backupDashboards "tenants/T") [])) /\
  In (completed "Dashboards")
     (calls (run Sample.target (Backup.backupDashboards "tenants/T") [])).
Proof.
  split; [|vm_compute; tauto].
  intros Hin.
  pose proof (X12_completion_means_nothing_was_rejected Fixture.flaky []
                "tenants/T" Hin) as Hclean.
  vm_compute in Hclean. inversion Hclean as [|? ? [l Hl] _]. discriminate Hl.
Defined.

(** *** Restore of widget bundles *)

Lemma stripWidgetType_eq w :
  Widgets.stripWidgetType w =
    if nullish w then Raise TypeError else Val (withoutSource w).
Proof.
  unfold Widgets.stripWidgetType, withoutSource, delete_prop.
  by destruct w.
Qed.

(** The posts of the widget types of a file: one for each entry that is
    not [null], whatever they are answered. *)
Lemma run_forEachAsync {S : Type} (h : handler S) l :
  forall s,
    exists rs tr s',
      run h (Widgets.forEachAsync l) s = mkResult (Returned rs) tr s' /\
      List.map fst tr =
        (fun w => AxiosPost "widgetType" (withoutSource w))
          <$> filter (fun w => nullish w = false) l.
Proof.
  induction l as [|w l IH]; intros s.
  - by exists [], [], s.
  - cbn [Widgets.forEachAsync]. unfold Widgets.restoreWidgetType.
    rewrite stripWidgetType_eq, filter_cons.
    destruct (nullish w) eqn:Hw.
    + cbn [lift mbind Prog_bind bind try_catch].
      destruct (IH s) as (rs & tr & s' & R & Htr).
      change (bind ?p ?f) with (p ≫= f).
      rewrite (run_bind_returned _ _ _ _ _ _ _ R). cbn.
      destruct (decide (true = false)); [done|].
      do 3 eexists. split; [reflexivity|]. by rewrite List.app_nil_r.
    + unfold Widgets.saveWidgetType, await.
      cbn [lift mbind Prog_bind bind try_catch run].
      set (a := h (AxiosPost "widgetType" (withoutSource w)) s).
      destruct (IH a.2) as (rs & tr & s' & R & Htr).
      destruct (decide (false = false)); [|done].
      destruct a.1 as [d|d];
        cbn [lift mbind Prog_bind bind try_catch run out trace final];
        change (bind ?p ?f) with (p ≫= f);
        rewrite (run_bind_returned _ _ _ _ _ _ _ R);
        cbn [out trace final run app];
        do 3 eexists; (split; [reflexivity|]);
        rewrite List.app_nil_r; cbn [List.map fst];
        rewrite fmap_cons; f_equal; exact Htr.
Qed.

(** X13.  The restore of a file of [widgets/] first creates the bundle,
    titled as the file is named and with the lower-cased title as alias;
    everything it sends after that is the post of a widget type; when the
    creation of the bundle is rejected nothing else is sent; and in no
    case does the restore of the file throw. *)
Theorem X13_widget_bundle_is_created_first {S : Type} (h : handler S) (s : S)
    (file alias : string) (widgetTypes : value) :
  Node.toLowerCase (Restore.entityName file) = Val alias ->
  let bundle := AxiosPost "widgetsBundle" (bundleOf (Restore.entityName file) alias) in
  let r := run h (Widgets.restoreWidgetsFile file widgetTypes) s in
  hd_error (calls r) = Some bundle /\
  Forall (fun c => exists w, c = AxiosPost "widgetType" w) (tl (calls r)) /\
  ((exists d, (h bundle s).1 = Fail d) -> calls r = [bundle]) /\
  (exists rs, out r = Returned rs).
Proof.
  intros Hlower bundle r. subst r bundle.
  unfold Widgets.restoreWidgetsFile, Widgets.saveWidgetsBundle, await, calls.
  rewrite Hlower. cbn [lift mbind Prog_bind bind try_catch run trace out].
  fold (bundleOf (Restore.entityName file) alias).
  set (a := h (AxiosPost "widgetsBundle" (bundleOf (Restore.entityName file) alias)) s).
  destruct a.1 as [d|d] eqn:Ha;
    cbn [lift mbind Prog_bind bind try_catch run trace out List.map fst hd_error tl].
  2:{ split; [done|]. split; [constructor|]. split; [done|]. by eexists. }
  split; [done|].
  destruct (as_array widgetTypes) as [l| |] eqn:Hl;
    cbn [lift mbind Prog_bind bind try_catch run trace out List.map].
  - destruct (run_forEachAsync h l a.2) as (rs & tr & s' & R & Htr).
    rewrite run_try_catch, R. unfold or_catch. cbn [out trace].
    split; [|split; [by intros [? [=]] | by eexists]].
    rewrite Htr. apply List.Forall_forall. intros c Hc.
    apply list_elem_of_In, list_elem_of_fmap in Hc as (w & -> & _). by eexists.
  - split; [constructor|]. split; [by intros [? [=]] | by eexists].
  - by destruct widgetTypes.
Qed.

Lemma X13_witness :
  hd_error (calls (run Sample.target
                       (Widgets.restoreWidgetsFile "Plant Gauges.json"
                          (VArr [Sample.widgetType])) [])) =
    Some (AxiosPost "widgetsBundle"
            (VObj [("alias", VStr "plant gauges"); ("image", VNull);
                   ("title", VStr "Plant Gauges")])).
Proof.
  apply (X13_widget_bundle_is_created_first Sample.target [] "Plant Gauges.json"
           "plant gauges" (VArr [Sample.widgetType]) eq_refl).
Defined.

(** X14.  Once the bundle is created, every widget type of the file that
    is not [null] is posted, in the order of the file and whatever the
    platform answers to the posts before it: each as it was stored, less
    its [id], [createdTime] and [tenantId]. *)
Theorem X14_widget_types_are_posted_stripped {S : Type} (h : handler S) (s : S)
    (file alias : string) (l : list value) (d : value) :
  Node.toLowerCase (Restore.entityName file) = Val alias ->
  (h (AxiosPost "widgetsBundle" (bundleOf (Restore.entityName file) alias)) s).1 =
    Ok d ->
  widgetTypesPosted (run h (Widgets.restoreWidgetsFile file (VArr l)) s) =
    withoutSource <$> filter (fun w => nullish w = false) l.
Proof.
  intros Hlower Hbundle.
  unfold Widgets.restoreWidgetsFile, Widgets.saveWidgetsBundle, await,
    widgetTypesPosted, calls.
  rewrite Hlower. cbn [lift mbind Prog_bind bind try_catch run trace out].
  fold (bundleOf (Restore.entityName file) alias). rewrite Hbundle.
  cbn [lift as_array mbind Prog_bind bind try_catch run trace out List.map fst].
  destruct (run_forEachAsync h l
              (h (AxiosPost "widgetsBundle"
                    (bundleOf (Restore.entityName file) alias)) s).2)
    as (rs & tr & s' & R & Htr).
  rewrite run_try_catch, R. unfold or_catch. cbn [out trace omap list_omap].
  change (list_omap _ _ ?f ?l) with (omap f l).
  rewrite Htr. clear.
  induction (filter (fun w => nullish w = false) l) as [|w ws IH]; [done|].
  rewrite !fmap_cons. cbn [omap list_omap].
  change (list_omap _ _ ?f ?l) with (omap f l). by rewrite IH.
Qed.

Lemma X14_witness :
  widgetTypesPosted
    (run Sample.target
         (Widgets.restoreWidgetsFile "Plant.json"
            (VArr [VObj [("id", VObj [("id", VStr "wt-1")]);
                         ("bundleAlias", VStr "plant_gauges");
                         ("name", VStr "Gauge")];
                   VNull])) []) =
    [VObj [("bundleAlias", VStr "plant_gauges"); ("name", VStr "Gauge")]].
Proof.
  apply (X14_widget_types_are_posted_stripped Sample.target [] "Plant.json" "plant"
           [VObj [("id", VObj [("id", VStr "wt-1")]);
                  ("bundleAlias", VStr "plant_gauges");
                  ("name", VStr "Gauge")];
            VNull] VNull eq_refl eq_refl).
Defined.

(** *** What a restored dashboard is submitted with *)

Lemma in_keys_assoc_set k p c top :
  In k (List.map fst (assoc_set p c top)) <-> k = p \/ In k (List.map fst top).
Proof.
  induction top as [|[k' v] top IH]; simpl; [intuition|].
  destruct (String.eqb p k') eqn:E; simpl.
  - apply String.eqb_eq in E. subst k'. intuition.
  - rewrite IH. intuition.
Qed.

Lemma in_keys_assoc_del k p top :
  In k (List.map fst (assoc_del p top)) <-> k <> p /\ In k (List.map fst top).
Proof.
  induction top as [|[k' v] top IH]; simpl; [intuition|].
  destruct (String.eqb p k') eqn:E; simpl.
  - apply String.eqb_eq in E. subst k'. rewrite IH. intuition congruence.
  - rewrite IH. split; [|intuition].
    intros [->|[? ?]]; [|intuition].
    split; [|by left]. intros ->. by rewrite String.eqb_refl in E.
Qed.

Lemma set_path_top top p rest k x d' :
  set_path (VObj top) (p :: rest) k x = Val d' ->
  exists c, d' = VObj (assoc_set p c top).
Proof.
  simpl. destruct (set_path (assoc_get p top) rest k x) as [c| |]; simpl; try done.
  intros [= <-]. by eexists.
Qed.

Section TopLevel.
Context {S : Type}.
Variable h : handler S.

(** A property of the top-level fields that no assignment to
    [configuration] or to [assignedCustomers] can change. *)
Variable Q : list (string * value) -> Prop.
Hypothesis Qconfiguration : forall c top, Q top -> Q (assoc_set "configuration" c top).
Hypothesis Qcustomers : forall c top, Q top -> Q (assoc_set "assignedCustomers" c top).

Lemma aliasAfter_top i key page d d' :
  (exists top, d = VObj top /\ Q top) ->
  Restore.aliasAfter i key page d = Val d' ->
  exists top', d' = VObj top' /\ Q top'.
Proof using Qconfiguration.
  intros (top & -> & HQ). unfold Restore.aliasAfter, Restore.aliasPath.
  destruct (get_prop page "data") as [devices| |]; cbn -[get_path set_path get_index];
    try done.
  destruct (get_index devices 0) as [first| |]; cbn -[get_path set_path]; try done.
  destruct (truthy first); [|intros [= <-]; eauto].
  destruct (get_path first ["id"; "id"]) as [id| |]; cbn -[set_path]; try done.
  intros Hset. apply set_path_top in Hset as [c ->]. eauto.
Qed.

Lemma customerAfter_top i entry page d d' :
  (exists top, d = VObj top /\ Q top) ->
  Restore.customerAfter i entry page d = Val d' ->
  exists top', d' = VObj top' /\ Q top'.
Proof using Qcustomers.
  intros (top & -> & HQ). unfold Restore.customerAfter.
  destruct (get_prop page "data") as [customers| |]; cbn -[get_path set_path get_index];
    try done.
  destruct (get_index customers 0) as [first| |]; cbn -[get_path set_path]; try done.
  destruct (truthy first).
  - destruct (get_path first ["id"; "id"]) as [id| |]; cbn -[set_path]; try done.
    intros Hset. apply set_path_top in Hset as [c ->]. eauto.
  - cbn. destruct (as_array (assoc_get "assignedCustomers" top)) as [l| |]; cbn;
      try done.
    intros [= <-]. eauto.
Qed.

Lemma rewriteAliases_top picks d0 s d1 :
  out (run h (Restore.rewriteAliases picks d0) s) = Returned d1 ->
  (forall top0, d0 = VObj top0 -> Q top0) ->
  exists top0 top1, d0 = VObj top0 /\ d1 = VObj top1 /\ Q top1.
Proof using Qconfiguration.
  intros Hout HQ.
  assert (Hobj : exists top0, d0 = VObj top0).
  { unfold Restore.rewriteAliases in Hout.
    destruct d0; try done; by eexists. }
  destruct Hobj as [top0 ->]. specialize (HQ top0 eq_refl).
  exists top0. revert Hout. unfold Restore.rewriteAliases.
  destruct (get_path (VObj top0) ["configuration"; "entityAliases"]) as [aliases| |];
    cbn -[promise_all_map]; try done.
  destruct (keys aliases) as [ks| |]; cbn -[promise_all_map]; try done.
  intros Hout.
  destruct (run_promise_all_returned h Restore.aliasBefore Restore.aliasAfter
              (fun d => exists top, d = VObj top /\ Q top) picks ks (VObj top0) s d1)
    as (top1 & -> & HQ1); eauto.
  intros i key v d d'. apply aliasAfter_top.
Qed.

Lemma rewriteCustomers_top picks top1 s d2 :
  Q top1 ->
  out (run h (Restore.rewriteCustomers picks (VObj top1)) s) = Returned d2 ->
  exists top2, d2 = VObj top2 /\ Q top2.
Proof using Qcustomers.
  intros HQ. unfold Restore.rewriteCustomers. cbn -[promise_all_map].
  destruct (truthy (assoc_get "assignedCustomers" top1)); [|intros [= <-]; eauto].
  destruct (as_array (assoc_get "assignedCustomers" top1)) as [l| |];
    cbn -[promise_all_map]; try done.
  apply (run_promise_all_returned h Restore.customerBefore Restore.customerAfter
           (fun d => exists top, d = VObj top /\ Q top)); [|eauto].
  intros i entry v d d'. apply customerAfter_top.
Qed.

End TopLevel.

(** The calls of the restore of a dashboard, stage by stage. *)
Lemma restoreDashboard_calls {S : Type} (h : handler S) s aliasOrder customerOrder
    parsed d0 :
  Restore.stripSourceFields parsed = Val d0 ->
  calls (run h (Restore.restoreDashboard aliasOrder customerOrder parsed) s) =
    let R1 := run h (Restore.rewriteAliases aliasOrder d0) s in
    (calls R1 ++
     match out R1 with
     | Returned d1 =>
         let R2 := run h (Restore.rewriteCustomers customerOrder d1) (final R1) in
         calls R2 ++
         match out R2 with
         | Returned d2 => [Request (SaveDashboard d2)]
         | _ => []
         end
     | _ => []
     end)%list.
Proof.
  intros Hstrip. unfold Restore.restoreDashboard, api.saveDashboard, await, calls.
  rewrite Hstrip, run_try_catch. cbn [lift mbind Prog_bind bind].
  change (bind ?p ?f) with (p ≫= f). rewrite run_bind. cbn zeta.
  destruct (run h (Restore.rewriteAliases aliasOrder d0) s) as [o1 tr1 s1].
  unfold and_then, or_catch. cbn [out trace final].
  destruct o1 as [d1| | |]; cbn [out trace final run List.map];
    rewrite ?List.app_nil_r; try reflexivity.
  rewrite run_bind.
  destruct (run h (Restore.rewriteCustomers customerOrder d1) s1) as [o2 tr2 s2].
  unfold and_then. cbn [out trace final].
  destruct o2 as [d2| | |]; cbn [out trace final run List.map];
    rewrite ?List.app_nil_r, ?List.map_app; try reflexivity.
  cbn [mbind Prog_bind bind run trace out].
  destruct (h (Request (SaveDashboard d2)) s2) as [[x|x] s3];
    simpl; by rewrite ?List.app_nil_r, !List.map_app.
Qed.

Lemma rewriteAliases_only_devices picks d :
  all_calls (fun c => exists q, c = Request (GetDevices q))
            (Restore.rewriteAliases picks d).
Proof.
  unfold Restore.rewriteAliases.
  apply all_calls_bind; [apply all_calls_lift|]. intros aliases.
  apply all_calls_bind; [apply all_calls_lift|]. intros ks.
  apply all_calls_promise_all. intros j key p Hp.
  apply aliasBefore_awaits in Hp as [params ->].
  apply all_calls_await. by eexists.
Qed.

Lemma stripSourceFields_object parsed top0 :
  Restore.stripSourceFields parsed = Val (VObj top0) ->
  ~ In "id" (List.map fst top0) /\ ~ In "createdTime" (List.map fst top0) /\
  ~ In "tenantId" (List.map fst top0).
Proof.
  unfold Restore.stripSourceFields, delete_prop.
  destruct parsed as [| | | | |l|top]; try done.
  cbn -[assoc_del]. intros [= <-].
  rewrite !in_keys_assoc_del. intuition congruence.
Qed.

(** X15.  Whatever the file holds and whatever the platform answers, the
    restore of a file of [dashboards/] submits at most one dashboard, which
    has no [id], no [createdTime] and no [tenantId] (so it is created anew
    on the target, never written over the dashboard it was exported from),
    and the restore of the file does not throw. *)
Theorem X15_restored_dashboard_has_no_source_fields {S : Type} (h : handler S)
    (s : S) (aliasOrder customerOrder : schedule) (parsed : value) :
  let r := run h (Restore.restoreDashboard aliasOrder customerOrder parsed) s in
  (submitted r = [] \/
   exists d, submitted r = [d] /\
             lacks "id" d /\ lacks "createdTime" d /\ lacks "tenantId" d) /\
  (forall e, out r <> Threw e).
Proof.
  intros r. subst r. split; [|intros e; apply run_swallowed].
  destruct (Restore.stripSourceFields parsed) as [d0| |] eqn:Hstrip.
  2,3: left; unfold Restore.restoreDashboard; by rewrite Hstrip.
  unfold submitted. rewrite (restoreDashboard_calls h s _ _ _ _ Hstrip). cbn zeta.
  rewrite dashboardsIn_app.
  rewrite (dashboardsIn_none _ (all_calls_run _ _ h s
                                  (rewriteAliases_calls aliasOrder d0))).
  destruct (out (run h (Restore.rewriteAliases aliasOrder d0) s)) as [d1| | |] eqn:E1;
    [|by left..].
  rewrite dashboardsIn_app.
  rewrite (dashboardsIn_none _ (all_calls_run _ _ h _
                                  (rewriteCustomers_calls customerOrder d1))).
  destruct (out (run h (Restore.rewriteCustomers customerOrder d1) _))
    as [d2| | |] eqn:E2; [|by left..].
  right. exists d2. split; [done|].
  set (Q := fun top : list (string * value) =>
              ~ In "id" (List.map fst top) /\ ~ In "createdTime" (List.map fst top) /\
              ~ In "tenantId" (List.map fst top)).
  assert (Hset : forall p c top, p = "configuration" \/ p = "assignedCustomers" ->
                                 Q top -> Q (assoc_set p c top)).
  { intros p c top Hp (H1 & H2 & H3). unfold Q. rewrite !in_keys_assoc_set.
    intuition (subst; discriminate). }
  destruct (rewriteAliases_top h Q (fun c top => Hset _ c top (or_introl eq_refl))
              aliasOrder d0 s d1 E1) as (top0 & top1 & -> & -> & HQ1).
  { intros top0 ->. by apply (stripSourceFields_object parsed). }
  destruct (rewriteCustomers_top h Q (fun c top => Hset _ c top (or_intror eq_refl))
              customerOrder top1 _ d2 HQ1 E2) as (top2 & -> & H1 & H2 & H3).
  repeat split; by exists top2.
Qed.

(** *** Convert *)

Lemma assoc_del_absent k top : ~ In k (List.map fst top) -> assoc_del k top = top.
Proof.
  induction top as [|[k' v] top IH]; simpl; [done|]. intros H.
  destruct (String.eqb k k') eqn:E.
  - apply String.eqb_eq in E. subst. tauto.
  - rewrite IH; tauto.
Qed.

Lemma assoc_get_absent k top : ~ In k (List.map fst top) -> assoc_get k top = VUndef.
Proof.
  induction top as [|[k' v] top IH]; [done|].
  cbn -[String.eqb]. intros H. destruct (String.eqb k k') eqn:E.
  - apply String.eqb_eq in E. subst k'. tauto.
  - apply IH. tauto.
Qed.

Lemma get_opt_without k k' v :
  k <> k' -> index_of_key k = None -> get_opt (without k v) k' = get_opt v k'.
Proof.
  intros Hk Hi. destruct v; try done; simpl.
  - by rewrite Hi.
  - by rewrite assoc_get_del_ne.
Qed.

Lemma get_opt_without_eq k v :
  index_of_key k = None -> String.eqb k "length" = false ->
  get_opt (without k v) k = VUndef.
Proof.
  intros Hi Hl. destruct v; try done; simpl;
    rewrite ?Hi; simpl; rewrite ?Hl, ?Hi; try done.
  apply assoc_get_del_eq.
Qed.

Lemma convertDashboard_eq parsed :
  Convert.convertDashboard parsed =
    if nullish parsed then Raise TypeError
    else Val (without "assignedCustomers" (withoutSource parsed)).
Proof. unfold Convert.convertDashboard, withoutSource, delete_prop. by destruct parsed. Qed.

Lemma stripSourceFields_eq v :
  Restore.stripSourceFields v =
    if nullish v then Raise TypeError else Val (withoutSource v).
Proof. unfold Restore.stripSourceFields, withoutSource, delete_prop. by destruct v. Qed.

Lemma convertDashboard_keys parsed top :
  Convert.convertDashboard parsed = Val (VObj top) ->
  forall k, In k ["id"; "createdTime"; "tenantId"; "assignedCustomers"] ->
            ~ In k (List.map fst top).
Proof.
  rewrite convertDashboard_eq. destruct (nullish parsed); [done|].
  destruct parsed as [| | | | |l|top0]; try done.
  unfold withoutSource, without. intros [= <-] k Hk.
  rewrite !in_keys_assoc_del. simpl in Hk. intuition congruence.
Qed.

Lemma withoutSource_absent v :
  (forall top, v = VObj top ->
               forall k, In k ["id"; "createdTime"; "tenantId"] ->
                         ~ In k (List.map fst top)) ->
  withoutSource v = v.
Proof.
  intros H. destruct v as [| | | | |l|top]; try done.
  specialize (H top eq_refl). unfold withoutSource, without.
  rewrite (assoc_del_absent "id" top), (assoc_del_absent "createdTime" top),
    (assoc_del_absent "tenantId" top); try done; apply H; simpl; tauto.
Qed.

Lemma convertDashboard_defined parsed converted :
  Convert.convertDashboard parsed = Val converted -> nullish converted = false.
Proof.
  rewrite convertDashboard_eq. destruct (nullish parsed) eqn:Hn; [done|].
  intros [= <-]. unfold withoutSource. by rewrite !nullish_without.
Qed.

(** X16.  [convert] removes from a dashboard its [id], [createdTime],
    [tenantId] and [assignedCustomers] and leaves every other field as it
    is; converting what it wrote changes nothing more. *)
Theorem X16_convert_removes_four_fields (parsed converted : value) :
  Convert.convertDashboard parsed = Val converted ->
  (forall k, In k ["id"; "createdTime"; "tenantId"; "assignedCustomers"] ->
             get_opt converted k = VUndef) /\
  (forall k, ~ In k ["id"; "createdTime"; "tenantId"; "assignedCustomers"] ->
             get_opt converted k = get_opt parsed k) /\
  Convert.convertDashboard converted = Val converted.
Proof.
  rewrite convertDashboard_eq. destruct (nullish parsed) eqn:Hn; [done|].
  intros [= <-]. unfold withoutSource. split; [|split].
  - intros k Hk. simpl in Hk.
    destruct Hk as [<-|[<-|[<-|[<-|[]]]]];
      rewrite ?get_opt_without by done; by apply get_opt_without_eq.
  - intros k Hk. simpl in Hk. rewrite !get_opt_without; tauto || by auto.
  - rewrite convertDashboard_eq, !nullish_without, Hn. f_equal.
    destruct parsed as [| | | | |l|top]; try done.
    unfold withoutSource, without.
    by rewrite !assoc_del_absent by (rewrite ?in_keys_assoc_del; intuition congruence).
Qed.

Lemma X16_witness :
  Convert.convertDashboard
    (VObj [("name", VStr "Base"); ("title", VStr "Base");
           ("configuration", VObj Sample.sampleConfiguration)]) =
  Val (VObj [("name", VStr "Base"); ("title", VStr "Base");
             ("configuration", VObj Sample.sampleConfiguration)]).
Proof.
  apply (X16_convert_removes_four_fields
           (Sample.dashboardWith (VArr [Sample.assignment "Acme" "src-c3"]))
           (VObj [("name", VStr "Base"); ("title", VStr "Base");
                  ("configuration", VObj Sample.sampleConfiguration)])).
  reflexivity.
Defined.

Lemma is_json_without k e :
  index_of_key k = None -> is_json e = true -> is_json (without k e) = true.
Proof.
  intros Hi. destruct e as [| | | | |l|ps]; try done.
  - simpl. by rewrite Hi.
  - unfold without. cbn [is_json].
    induction ps as [|[k' x] ps IH]; [done|].
    cbn -[String.eqb]. intros H. apply andb_true_iff in H as [H1 H2].
    destruct (String.eqb k k'); cbn -[String.eqb]; [by apply IH|].
    rewrite H1. by apply IH.
Qed.


(** X17.  A dashboard file written by [convert] can be restored as it
    is: the file is the converted dashboard, the three deletes of the
    restore find nothing to remove in it, and its restore asks the
    platform for no customer, since [assignedCustomers] is gone. *)
Theorem X17_converted_dashboard_restores_without_customers {S S' : Type}
    (h : handler S) (s : S) (dir filename : string) (parsed converted : value) :
  Convert.convertDashboard parsed = Val converted ->
  is_json parsed = true ->
  files (run h (Convert.convertDashboardFile dir filename parsed) s) =
    [([dir; "dashboards"; filename], converted)] /\
  Restore.stripSourceFields converted = Val converted /\
  (forall (h' : handler S') s' aliasOrder customerOrder,
     Forall (fun c => forall q, c <> Request (GetCustomers q))
            (calls (run h' (Restore.restoreDashboard aliasOrder customerOrder converted)
                        s'))).
Proof.
  intros Hconv Hjson.
  assert (Hstrip : Restore.stripSourceFields converted = Val converted).
  { pose proof (convertDashboard_defined _ _ Hconv) as Hn.
    assert (Hw : withoutSource converted = converted).
    { apply withoutSource_absent. intros top -> k Hk.
      apply (convertDashboard_keys _ _ Hconv). simpl in *. tauto. }
    by rewrite stripSourceFields_eq, Hn, Hw. }
  split; [|split; [exact Hstrip|]].
  - unfold Convert.convertDashboardFile. rewrite Hconv.
    revert Hconv. rewrite convertDashboard_eq.
    destruct (nullish parsed); [done|]. intros [= <-].
    cbn [lift mbind Prog_bind bind].
    rewrite JSON_stringify_json; [reflexivity|].
    unfold withoutSource. by repeat apply is_json_without.
  - intros h' s' aliasOrder customerOrder.
    rewrite (restoreDashboard_calls h' s' _ _ _ _ Hstrip). cbn zeta.
    apply List.Forall_app. split.
    { eapply List.Forall_impl;
        [|apply (all_calls_run _ _ h' s' (rewriteAliases_only_devices aliasOrder converted))].
      intros c [q ->] q'. discriminate. }
    destruct (out (run h' (Restore.rewriteAliases aliasOrder converted) s'))
      as [d1| | |] eqn:E1; [|constructor..].
    set (Q := fun top : list (string * value) =>
                assoc_get "assignedCustomers" top = VUndef).
    destruct (rewriteAliases_top h' Q
                (fun c top (H : Q top) =>
                   eq_trans (assoc_get_set_ne "configuration" "assignedCustomers" c top
                               ltac:(discriminate)) H)
                aliasOrder converted s' d1 E1) as (top0 & top1 & -> & -> & HQ1).
    { intros top0 ->. unfold Q.
      pose proof (convertDashboard_keys _ _ Hconv "assignedCustomers") as H.
      apply assoc_get_absent, H. simpl. tauto. }
    unfold Restore.rewriteCustomers. cbn -[truthy]. unfold Q in HQ1. rewrite HQ1.
    cbn. repeat constructor. discriminate.
Qed.

Lemma X17_witness :
  Forall (fun c => forall q, c <> Request (GetCustomers q))
         (calls (run Sample.target
                     (Restore.restoreDashboard [] []
                        (VObj [("name", VStr "Base"); ("title", VStr "Base");
                               ("configuration", VObj Sample.sampleConfiguration)]))
                     [])).
Proof.
  apply (X17_converted_dashboard_restores_without_customers (S := Sample.journal)
           Sample.target [] "converts/1" "Base.json"
           (Sample.dashboardWith (VArr [Sample.assignment "Acme" "src-c3"]))
           (VObj [("name", VStr "Base"); ("title", VStr "Base");
                  ("configuration", VObj Sample.sampleConfiguration)])
           eq_refl eq_refl).
Defined.

Lemma stripNode_eq n :
  Convert.stripNode n = if nullish n then Raise TypeError else Val (strippedNode n).
Proof. unfold Convert.stripNode, strippedNode, delete_prop. by destruct n. Qed.

Lemma mapM_stripNode l :
  Forall (fun n => nullish n = false) l ->
  mapM Convert.stripNode l = Val (strippedNode <$> l).
Proof.
  induction 1 as [|n l Hn _ IH]; [done|].
  cbn [mapM]. rewrite stripNode_eq, Hn, IH. reflexivity.
Qed.

(** X18.  [convert] on a rule chain whose [nodes] hold no [null]: the
    converted file wraps the chain as [metadata] under a header named after
    the file, [root] and [debugMode] off.  The nodes are kept in number and
    order, so the index-based [connections] still point at the same nodes;
    each node loses its [id], [createdTime] and [ruleChainId], the chain
    loses its [ruleChainId], and every other field of the chain is as it
    was. *)
Theorem X18_convert_keeps_the_nodes_in_place (filename name : string)
    (top : list (string * value)) (nodes : list value) :
  assoc_get "nodes" top = VArr nodes ->
  Forall (fun n => nullish n = false) nodes ->
  Node.parse_name filename = Val name ->
  exists converted metadata,
    Convert.convertRuleChain filename (VObj top) = Val converted /\
    get_prop converted "metadata" = Val (VObj metadata) /\
    assoc_get "nodes" metadata = VArr (strippedNode <$> nodes) /\
    length (strippedNode <$> nodes) = length nodes /\
    assoc_get "ruleChainId" metadata = VUndef /\
    (forall k, k <> "nodes" -> k <> "ruleChainId" ->
               assoc_get k metadata = assoc_get k top) /\
    get_prop converted "ruleChain" =
      Val (VObj [("additionalInfo", VNull); ("name", VStr name);
                 ("firstRuleNodeId", VNull); ("root", VBool false);
                 ("debugMode", VBool false); ("configuration", VNull)]).
Proof.
  intros Hnodes Hdef Hname. unfold Convert.convertRuleChain.
  cbn -[assoc_del assoc_get Node.parse_name mapM].
  rewrite assoc_get_del_ne by discriminate. rewrite Hnodes.
  cbn -[assoc_del assoc_get assoc_set Node.parse_name mapM].
  rewrite (mapM_stripNode _ Hdef).
  cbn -[assoc_del assoc_get assoc_set Node.parse_name].
  rewrite Hname. cbn -[assoc_del assoc_get assoc_set].
  do 2 eexists. split; [reflexivity|].
  split; [reflexivity|]. split; [apply assoc_get_set_eq|].
  split; [apply length_fmap|].
  split; [by rewrite assoc_get_set_ne, assoc_get_del_eq by discriminate|].
  split; [|reflexivity].
  intros k H1 H2. by rewrite assoc_get_set_ne, assoc_get_del_ne by done.
Qed.

Lemma X18_witness :
  exists converted,
    Convert.convertRuleChain "Root Rule Chain.json"
      (VObj [("ruleChainId", VObj [("id", VStr "rc-1")]);
             ("firstNodeIndex", VNum 0);
             ("nodes", VArr [VObj [("id", VObj [("id", VStr "n-1")]);
                                   ("createdTime", VNum 1600000000000);
                                   ("ruleChainId", VObj [("id", VStr "rc-1")]);
                                   ("type", VStr "filter")]]);
             ("connections", VNull)]) = Val converted /\
    get_path converted ["metadata"; "nodes"] =
      Val (VArr [VObj [("type", VStr "filter")]]) /\
    get_path converted ["ruleChain"; "name"] = Val (VStr "Root Rule Chain").
Proof.
  destruct (X18_convert_keeps_the_nodes_in_place "Root Rule Chain.json"
              "Root Rule Chain"
              [("ruleChainId", VObj [("id", VStr "rc-1")]);
               ("firstNodeIndex", VNum 0);
               ("nodes", VArr [VObj [("id", VObj [("id", VStr "n-1")]);
                                     ("createdTime", VNum 1600000000000);
                                     ("ruleChainId", VObj [("id", VStr "rc-1")]);
                                     ("type", VStr "filter")]]);
               ("connections", VNull)]
              [VObj [("id", VObj [("id", VStr "n-1")]);
                     ("createdTime", VNum 1600000000000);
                     ("ruleChainId", VObj [("id", VStr "rc-1")]);
                     ("type", VStr "filter")]]
              eq_refl ltac:(by repeat constructor) eq_refl)
    as (converted & metadata & Hconv & Hmeta & Hnodes & _ & _ & _ & Hhead).
  exists converted. split; [exact Hconv|]. split.
  - cbn [get_path]. rewrite Hmeta. cbn [mbind res_bind get_path get_prop].
    by rewrite Hnodes.
  - cbn [get_path]. by rewrite Hhead.
Defined.

(** *** The categories of a restore run *)

(** X19.  With the options as the 1026-line entry file computes them, a
    category is passed to [restore] exactly when its flag is given or no
    category flag is given at all.  So [restore -r], which selects the rule
    chains alone, restores nothing: [restore] looks for [widgets],
    [devices] and [dashboards] only. *)
Theorem X19_category_selected_iff_flagged_or_no_flag
    (flags : list (string * value)) (category : string) :
  In category Cli.ALL_OPTIONS ->
  exists options,
    Cli.selectOptions (VObj flags) = Val options /\
    (Cli.includes options category = true <->
     truthy (assoc_get category flags) = true \/
     Forall (fun c => truthy (assoc_get c flags) = false) Cli.ALL_OPTIONS).
Proof.
  intros Hc. unfold Cli.selectOptions, Cli.ALL_OPTIONS in *.
  cbn -[assoc_get truthy Cli.includes].
  destruct (truthy (assoc_get "dashboards" flags)) eqn:E1,
           (truthy (assoc_get "rulechains" flags)) eqn:E2,
           (truthy (assoc_get "widgets" flags)) eqn:E3,
           (truthy (assoc_get "devices" flags)) eqn:E4;
    cbn -[assoc_get truthy]; eexists; (split; [reflexivity|]);
    simpl in Hc; destruct Hc as [<-|[<-|[<-|[<-|[]]]]];
    rewrite ?E1, ?E2, ?E3, ?E4; cbn;
    (split; [intros H; try discriminate H; try (by left); right; by repeat constructor
            |intros [H|H]; try discriminate H; try reflexivity;
             repeat match goal with
                    | H : Forall _ (_ :: _) |- _ => inversion H; subst; clear H
                    end; congruence]).
Qed.

Lemma X19_witness :
  exists options,
    Cli.selectOptions (VObj [("input", VStr "backup"); ("rulechains", VBool true)]) =
      Val options /\
    Cli.includes options "devices" = false.
Proof.
  destruct (X19_category_selected_iff_flagged_or_no_flag
              [("input", VStr "backup"); ("rulechains", VBool true)] "devices")
    as (options & Hsel & Hiff).
  { simpl. tauto. }
  exists options. split; [exact Hsel|].
  destruct (Cli.includes options "devices") eqn:E; [|done].
  destruct (proj1 Hiff eq_refl) as [H|H]; [discriminate H|].
  inversion H as [|? ? _ H']. inversion H' as [|? ? H'' _]. discriminate H''.
Defined.

(** *** Label *)

(** X20.  [label] looks the dashboard up by name, then the device.  When
    the dashboard is not found it prints so and exits with code 1 after
    that single request; when the device is not found it exits after the
    two lookups.  In both cases no attribute is read and nothing is
    posted. *)
Theorem X20_label_exits_when_a_name_is_unknown {S : Type} (h : handler S) (s0 s1 : S)
    (dashboardName deviceName : string) (dpage dashboard : value) :
  h (Request (GetDashboards (byName (VStr dashboardName)))) s0 = (Ok dpage, s1) ->
  get_path dpage ["data"; "0"] = Val dashboard ->
  let r := run h (Derived.label dashboardName deviceName) s0 in
  (truthy dashboard = false ->
   out r = Exited 1 /\
   calls r = [Request (GetDashboards (byName (VStr dashboardName)));
              notFound "Dashboard" dashboardName]) /\
  (truthy dashboard = true ->
   forall s2 devpage device,
     h (Request (GetDevices (byName (VStr deviceName)))) s1 = (Ok devpage, s2) ->
     get_path devpage ["data"; "0"] = Val device ->
     truthy device = false ->
     out r = Exited 1 /\
     calls r = [Request (GetDashboards (byName (VStr dashboardName)));
                Request (GetDevices (byName (VStr deviceName)));
                notFound "Device" deviceName]).
Proof.
  intros Hd Hdash r. subst r.
  apply get_path_cons_val in Hdash as (dashboards & Hdashboards & Hdash).
  apply get_path_cons_val in Hdash as (dashboard' & Hfirst & [= ->]).
  unfold Derived.label, Derived.resolveOrExit, api.getDashboards, api.getDevices,
    with_page0, calls, get_index, notFound, console_log.
  change (string_of_nat 0) with "0".
  cbn -[get_path get_prop set_path set_prop toString truthy append Derived.relabelAll].
  fold (byName (VStr dashboardName)). rewrite Hd.
  cbn -[get_path get_prop set_path set_prop toString truthy append Derived.relabelAll].
  rewrite Hdashboards.
  cbn -[get_path get_prop set_path set_prop toString truthy append Derived.relabelAll].
  rewrite Hfirst.
  cbn -[get_path get_prop set_path set_prop toString truthy append Derived.relabelAll].
  split; intros Htruthy; rewrite Htruthy; [done|].
  intros s2 devpage device Hdev Hdevice Hnone.
  apply get_path_cons_val in Hdevice as (devices & Hdevices & Hdevice).
  apply get_path_cons_val in Hdevice as (device' & Hfirst' & [= ->]).
  cbn -[get_path get_prop set_path set_prop toString truthy append Derived.relabelAll].
  fold (byName (VStr deviceName)). rewrite Hdev.
  cbn -[get_path get_prop set_path set_prop toString truthy append Derived.relabelAll].
  rewrite Hdevices.
  cbn -[get_path get_prop set_path set_prop toString truthy append Derived.relabelAll].
  rewrite Hfirst'.
  cbn -[get_path get_prop set_path set_prop toString truthy append Derived.relabelAll].
  by rewrite Hnone.
Qed.

(** On the sample installation there is no dashboard called [plant]. *)
Lemma X20_witness :
  out (run Sample.target (Derived.label "plant" "sensor-7") []) = Exited 1 /\
  calls (run Sample.target (Derived.label "plant" "sensor-7") []) =
    [Request (GetDashboards (byName (VStr "plant"))); notFound "Dashboard" "plant"].
Proof.
  exact (proj1 (X20_label_exits_when_a_name_is_unknown Sample.target [] _ "plant"
                  "sensor-7" (Sample.pageOf []) VUndef eq_refl eq_refl) eq_refl).
Defined.

(** X21.  When both names are found but the device has no [LABELS]
    attribute, the platform answers the attribute read with an empty list
    and [attributes[0].value] throws: [label] is rejected after the three
    reads, the dashboard body is not fetched and nothing is posted. *)
Theorem X21_label_throws_without_a_LABELS_attribute {S : Type} (h : handler S)
    (s0 s1 s2 s3 : S) (dashboardName deviceName : string)
    (dpage dashboard devpage device deviceId : value) :
  h (Request (GetDashboards (byName (VStr dashboardName)))) s0 = (Ok dpage, s1) ->
  get_path dpage ["data"; "0"] = Val dashboard ->
  truthy dashboard = true ->
  h (Request (GetDevices (byName (VStr deviceName)))) s1 = (Ok devpage, s2) ->
  get_path devpage ["data"; "0"] = Val device ->
  truthy device = true ->
  get_path device ["id"; "id"] = Val deviceId ->
  h (Request (GetDeviceAttributes deviceId ["LABELS"])) s2 = (Ok (VArr []), s3) ->
  let r := run h (Derived.label dashboardName deviceName) s0 in
  out r = Threw TypeError /\
  calls r = [Request (GetDashboards (byName (VStr dashboardName)));
             Request (GetDevices (byName (VStr deviceName)));
             Request (GetDeviceAttributes deviceId ["LABELS"])] /\
  posted r = [].
Proof.
  intros Hd Hdash Hfound Hdev Hdevice Hfound' Hid Hattr r. subst r.
  apply get_path_cons_val in Hdash as (dashboards & Hdashboards & Hdash).
  apply get_path_cons_val in Hdash as (dashboard' & Hfirst & [= ->]).
  apply get_path_cons_val in Hdevice as (devices & Hdevices & Hdevice).
  apply get_path_cons_val in Hdevice as (device' & Hfirst' & [= ->]).
  unfold Derived.label, Derived.resolveOrExit, api.getDashboards, api.getDevices,
    api.getDeviceAttributes, with_page0, posted, calls, get_index, console_log.
  change (string_of_nat 0) with "0".
  cbn -[get_path get_prop set_path set_prop toString truthy append Derived.relabelAll].
  fold (byName (VStr dashboardName)). rewrite Hd.
  cbn -[get_path get_prop set_path set_prop toString truthy append Derived.relabelAll].
  rewrite Hdashboards.
  cbn -[get_path get_prop set_path set_prop toString truthy append Derived.relabelAll].
  rewrite Hfirst.
  cbn -[get_path get_prop set_path set_prop toString truthy append Derived.relabelAll].
  rewrite Hfound.
  cbn -[get_path get_prop set_path set_prop toString truthy append Derived.relabelAll].
  fold (byName (VStr deviceName)). rewrite Hdev.
  cbn -[get_path get_prop set_path set_prop toString truthy append Derived.relabelAll].
  rewrite Hdevices.
  cbn -[get_path get_prop set_path set_prop toString truthy append Derived.relabelAll].
  rewrite Hfirst'.
  cbn -[get_path get_prop set_path set_prop toString truthy append Derived.relabelAll].
  rewrite Hfound'.
  cbn -[get_path get_prop set_path set_prop toString truthy append Derived.relabelAll].
  rewrite Hid.
  cbn -[get_path get_prop set_path set_prop toString truthy append Derived.relabelAll].
  rewrite Hattr. done.
Qed.

Lemma X21_witness :
  out (run Fixture.unlabelled (Derived.label "base" "sensor-7") []) = Threw TypeError /\
  posted (run Fixture.unlabelled (Derived.label "base" "sensor-7") []) = [].
Proof.
  destruct (X21_label_throws_without_a_LABELS_attribute Fixture.unlabelled
              [] _ _ _ "base" "sensor-7"
              (Sample.pageOf [Sample.liveDashboard]) Sample.liveDashboard
              (Sample.pageOf [Sample.liveDevice]) Sample.liveDevice (VStr "dev-7")
              eq_refl eq_refl eq_refl eq_refl eq_refl eq_refl eq_refl eq_refl)
    as (Hout & _ & Hposted).
  by split.
Defined.

Lemma assoc_get_mid k w pre post :
  ~ In k (List.map fst pre) -> assoc_get k (pre ++ (k, w) :: post) = w.
Proof.
  induction pre as [|[k' v] pre IH]; simpl; intros Hk.
  - by rewrite String.eqb_refl.
  - destruct (String.eqb_spec k k') as [->|_]; [tauto|]. apply IH. tauto.
Qed.

Lemma assoc_set_mid k x w pre post :
  ~ In k (List.map fst pre) ->
  assoc_set k x (pre ++ (k, w) :: post) = (pre ++ (k, x) :: post)%list.
Proof.
  induction pre as [|[k' v] pre IH]; simpl; intros Hk.
  - by rewrite String.eqb_refl.
  - destruct (String.eqb_spec k k') as [->|_]; [tauto|]. f_equal. apply IH. tauto.
Qed.

Lemma relabel_fold_stuck {A : Type} (step : res value -> A -> res value) ks acc :
  (forall a, step (Raise TypeError) a = Raise TypeError) ->
  (forall d a, step (Raise (AxiosError d)) a = Raise (AxiosError d)) ->
  (forall a, step Unmodelled a = Unmodelled) ->
  (forall v, acc <> Val v) ->
  foldl step acc ks = acc.
Proof.
  intros H1 H2 H3. revert acc.
  induction ks as [|k ks IH]; intros acc Hacc; [done|]. simpl.
  destruct acc as [v|[|d]|]; [by destruct (Hacc v)| | |];
    rewrite ?H1, ?H2, ?H3; by apply IH.
Qed.

Lemma relabelAll_fold (relabel : value -> value -> res value) labels pre post :
  NoDup (List.map fst (pre ++ post)) ->
  foldl (fun acc widgetID =>
           ws ← acc;
           widget ← get_prop ws widgetID;
           widget ← relabel labels widget;
           set_prop ws widgetID widget)
        (Val (VObj (pre ++ post))) (List.map fst post) =
  (post' ← mapM (fun kw => w' ← relabel labels kw.2; Val (kw.1, w')) post;
   Val (VObj (pre ++ post'))).
Proof.
  revert pre.
  induction post as [|[k w] post IH]; intros pre Hnd; [done|].
  assert (Hk : ~ In k (List.map fst pre)).
  { rewrite List.map_app in Hnd. apply NoDup_app in Hnd as (_ & Hd & _).
    intros Hin. apply (Hd k); [by apply list_elem_of_In|]. simpl. left. }
  cbn [List.map foldl fst]. cbn [mbind res_bind get_prop set_prop].
  rewrite (assoc_get_mid _ _ _ _ Hk). cbn [mapM snd fst].
  destruct (relabel labels w) as [w'|e|] eqn:Hw.
  - cbn [mbind res_bind set_prop]. rewrite (assoc_set_mid _ _ _ _ _ Hk).
    replace (pre ++ (k, w') :: post)%list with ((pre ++ [(k, w')]) ++ post)%list
      by by rewrite <- List.app_assoc.
    rewrite IH.
    + destruct (mapM _ post) as [post'| |]; cbn [mbind res_bind mret]; try done.
      by rewrite <- List.app_assoc.
    + rewrite <- List.app_assoc. simpl.
      rewrite !List.map_app in *. exact Hnd.
  - cbn [mbind res_bind]. by apply relabel_fold_stuck; try done; intros [].
  - cbn [mbind res_bind]. by apply relabel_fold_stuck.
Qed.

(** X22.  The widget loop of [label] works on each widget on its own:
    over a [widgets] object the outcome is the one of relabelling the
    widgets one by one, in the order of their ids, from what each one held
    in the source dashboard.  So a relabelled dashboard has the widget ids
    of its source in the same order, and the first widget whose relabelling
    throws makes the whole command throw before anything is posted. *)
Theorem X22_label_relabels_each_widget_in_place
    (relabel : value -> value -> res value) (labels : value)
    (ws : list (string * value)) :
  NoDup (List.map fst ws) ->
  Derived.relabelAll relabel labels (VObj ws) =
    (ws' ← mapM (fun kw => w' ← relabel labels kw.2; Val (kw.1, w')) ws;
     Val (VObj ws')) /\
  (forall relabelled,
     Derived.relabelAll relabel labels (VObj ws) = Val relabelled ->
     keys relabelled = Val (List.map fst ws)).
Proof.
  intros Hnd.
  assert (Heq : Derived.relabelAll relabel labels (VObj ws) =
                (ws' ← mapM (fun kw => w' ← relabel labels kw.2; Val (kw.1, w')) ws;
                 Val (VObj ws'))).
  { unfold Derived.relabelAll. cbn [keys mbind res_bind].
    exact (relabelAll_fold relabel labels [] ws Hnd). }
  split; [exact Heq|].
  intros relabelled. rewrite Heq. clear Heq Hnd.
  destruct (mapM _ ws) as [ws'| |] eqn:Hm; cbn [mbind res_bind]; try done.
  intros [= <-]. cbn [keys]. f_equal.
  revert ws' Hm. induction ws as [|[k w] ws IH]; intros ws'; cbn [mapM snd fst].
  - by intros [= <-].
  - destruct (relabel labels w) as [w'| |]; cbn [mbind res_bind]; try done.
    destruct (mapM _ ws) as [rest| |]; cbn [mbind res_bind mret]; try done.
    intros [= <-]. simpl. f_equal. by apply IH.
Qed.

Lemma X22_witness :
  Derived.relabelAll Derived.relabelWidget (VObj [("temperature", VStr "Temperature")])
    (VObj [("w-alarm", Sample.chart "alarm" "Alarms" "temperature" "t");
           ("w-chart", Sample.chart "timeseries" "Trend" "humidity" "h")]) =
    Val (VObj [("w-alarm", Sample.chart "alarm" "Temperature" "temperature" "t");
               ("w-chart", Sample.chart "timeseries" "Trend" "humidity" "h")]).
Proof.
  rewrite (proj1 (X22_label_relabels_each_widget_in_place Derived.relabelWidget
                    (VObj [("temperature", VStr "Temperature")])
                    [("w-alarm", Sample.chart "alarm" "Alarms" "temperature" "t");
                     ("w-chart", Sample.chart "timeseries" "Trend" "humidity" "h")]
                    ltac:(refine (bool_decide_unpack _ _); vm_compute; exact I))).
  reflexivity.
Defined.

(** *** A duplicate the lookup does not find *)

(** X23.  When the creation of a device is refused with code 31 and the
    lookup by name returns an empty page, [devices[0].id.id] throws inside
    the [catch] block.  The 1026-line entry file swallows it: the restore
    of that device ends after the two requests, without a line printed,
    with its credentials and its attributes untouched.  In [src/index.ts]
    the same file makes the callback throw. *)
Theorem X23_duplicate_without_a_match_is_dropped {S : Type} (h : handler S)
    (s0 s1 s2 : S) (file : string) (device tok d page : value) :
  get_prop device "accessToken" = Val tok ->
  h (Request (SaveDevice (deviceBody (Restore.entityName file)) tok)) s0 = (Fail d, s1) ->
  strict_eq (get_opt d "errorCode") (VNum 31) = true ->
  h (Request (GetDevices (byName (VStr (Restore.entityName file))))) s1 = (Ok page, s2) ->
  get_prop page "data" = Val (VArr []) ->
  out (run h (Restore.restoreDevice file device) s0) = Returned tt /\
  calls (run h (Restore.restoreDevice file device) s0) =
    [Request (SaveDevice (deviceBody (Restore.entityName file)) tok);
     Request (GetDevices (byName (VStr (Restore.entityName file))))] /\
  out (run h (Legacy.restoreDevice file device) s0) = Threw TypeError /\
  calls (run h (Legacy.restoreDevice file device) s0) =
    calls (run h (Restore.restoreDevice file device) s0).
Proof.
  intros Htok Hcreate Hcode Hlist Hdata.
  assert (Hbody : run h (Restore.restoreDeviceBody file device) s0 =
                  mkResult (Threw TypeError)
                    [(Request (SaveDevice (deviceBody (Restore.entityName file)) tok),
                      Fail d);
                     (Request (GetDevices (byName (VStr (Restore.entityName file)))),
                      Ok page)] s2).
  { unfold Restore.restoreDeviceBody, Restore.establishIdentity, Restore.createDevice,
      api.saveDevice.
    rewrite Htok. step. fold (deviceBody (Restore.entityName file)).
    rewrite Hcreate. step. rewrite Hcode.
    unfold Restore.repairCredentials, api.getDevices, with_page0. step.
    fold (byName (VStr (Restore.entityName file))). rewrite Hlist. step.
    rewrite Hdata. reflexivity. }
  unfold Legacy.restoreDevice, Restore.restoreDevice, calls.
  rewrite run_try_catch, Hbody. by repeat split.
Qed.

Lemma X23_witness :
  out (run Fixture.hidden (Restore.restoreDevice "Sensor-7.json" Sample.storedDevice) []) =
    Returned tt /\
  calls (run Fixture.hidden (Restore.restoreDevice "Sensor-7.json" Sample.storedDevice) []) =
    [Request (SaveDevice (deviceBody "Sensor-7") (VStr "tok-1"));
     Request (GetDevices (byName (VStr "Sensor-7")))] /\
  out (run Fixture.hidden (Legacy.restoreDevice "Sensor-7.json" Sample.storedDevice) []) =
    Threw TypeError.
Proof.
  destruct (X23_duplicate_without_a_match_is_dropped Fixture.hidden [] _ _
              "Sensor-7.json" Sample.storedDevice (VStr "tok-1") _ (Sample.pageOf [])
              eq_refl eq_refl eq_refl eq_refl eq_refl) as (H1 & H2 & H3 & _).
  by repeat split.
Defined.

(** *** The devices of a tenant *)

Lemma dropLastUpdateTs_modelled v : Backup.dropLastUpdateTs v <> Unmodelled.
Proof.
  unfold Backup.dropLastUpdateTs. destruct v as [| | | | |l|]; try done.
  cbn [as_array mbind res_bind].
  assert (H : mapM (fun item => delete_prop item "lastUpdateTs") l <> Unmodelled).
  { induction l as [|x l IH]; [done|]. cbn [mapM].
    destruct x; cbn [delete_prop mbind res_bind]; try done;
      destruct (mapM _ l); done. }
  by destruct (mapM _ l).
Qed.

(** Once its four answers are there, the export of a device returns or
    throws. *)
Lemma run_afterReads_settles {S : Type} (h : handler S) tenantDir device a1 a2 a3 a4 s :
  disk_accepts h ->
  exists tr s',
    (run h (afterReads tenantDir device (settled a1) (settled a2) (settled a3)
                       (settled a4)) s = mkResult (Returned tt) tr s') \/
    (exists e, run h (afterReads tenantDir device (settled a1) (settled a2)
                                 (settled a3) (settled a4)) s =
               mkResult (Threw e) tr s').
Proof.
  intros Hdisk. unfold afterReads.
  destruct a1 as [d1|d1]; [|do 2 eexists; right; eexists; reflexivity].
  destruct a2 as [d2|d2]; [|do 2 eexists; right; eexists; reflexivity].
  destruct a3 as [d3|d3]; [|do 2 eexists; right; eexists; reflexivity].
  destruct a4 as [d4|d4]; [|do 2 eexists; right; eexists; reflexivity].
  cbn [settled lift mbind Prog_bind bind].
  pose proof (dropLastUpdateTs_modelled d1) as M1.
  destruct (Backup.dropLastUpdateTs d1) as [v1|e1|];
    [|do 2 eexists; right; eexists; reflexivity|done].
  cbn [lift mbind Prog_bind bind].
  pose proof (dropLastUpdateTs_modelled d2) as M2.
  destruct (Backup.dropLastUpdateTs d2) as [v2|e2|];
    [|do 2 eexists; right; eexists; reflexivity|done].
  cbn [lift mbind Prog_bind bind].
  pose proof (dropLastUpdateTs_modelled d3) as M3.
  destruct (Backup.dropLastUpdateTs d3) as [v3|e3|];
    [|do 2 eexists; right; eexists; reflexivity|done].
  cbn [lift mbind Prog_bind bind].
  pose proof (get_prop_modelled d4 "credentialsId") as M4.
  destruct (get_prop d4 "credentialsId") as [tok|e4|];
    [|do 2 eexists; right; eexists; reflexivity|done].
  cbn [lift mbind Prog_bind bind].
  pose proof (get_prop_modelled device "name") as M5.
  destruct (get_prop device "name") as [name|e5|];
    [|do 2 eexists; right; eexists; reflexivity|done].
  cbn [lift mbind Prog_bind bind Backup.writeJson run].
  match goal with
  | |- context [h (WriteFile ?p ?b) s] => destruct (Hdisk p b s) as [w Hw]
  end.
  rewrite Hw. do 2 eexists. left. reflexivity.
Qed.

(** The export of one device settles, and its four reads are sent when
    the device has an id. *)
Lemma run_backupDevice_settles {S : Type} (h : handler S) tenantDir d s :
  disk_accepts h ->
  exists b tr s',
    run h (try_catch (Backup.backupDevice tenantDir d;; Ret true)
                     (fun _ => Ret false)) s =
      mkResult (Returned b) tr s' /\
    (forall id, get_path d ["id"; "id"] = Val id ->
                forall c, In c (deviceReads id) -> In c (List.map fst tr)).
Proof.
  intros Hdisk. rewrite run_try_catch.
  change (Backup.backupDevice tenantDir d;; Ret true)
    with (Backup.backupDevice tenantDir d ≫= fun _ => Ret true).
  rewrite run_bind.
  destruct (get_path d ["id"; "id"]) as [id| |] eqn:Hid.
  - rewrite (run_backupDevice h tenantDir d id s Hid). cbn zeta.
    set (a1 := h (Request (GetDeviceAttributesByScope id SERVER_SCOPE)) s).
    set (a2 := h (Request (GetDeviceAttributesByScope id SHARED_SCOPE)) a1.2).
    set (a3 := h (Request (GetDeviceAttributesByScope id CLIENT_SCOPE)) a2.2).
    set (a4 := h (Request (GetDeviceCredentials id)) a3.2).
    destruct (run_afterReads_settles h tenantDir d a1.1 a2.1 a3.1 a4.1 a4.2 Hdisk)
      as (tr & s' & [R|[e R]]); rewrite R; unfold and_then, or_catch; simpl;
      do 3 eexists; (split; [reflexivity|]);
      intros ? [= <-] c Hc; rewrite ?List.app_nil_r;
      unfold deviceReads in Hc; simpl in *; tauto.
  - unfold Backup.backupDevice. rewrite Hid. simpl.
    do 3 eexists. split; [reflexivity|]. intros ? [=].
  - by destruct (get_path_modelled d ["id"; "id"]).
Qed.

(** X24.  Every device of the listed page that has an id has its three
    attribute scopes and its credentials read, whatever becomes of the
    other devices: a read the platform rejects or an entry without an id
    does not keep the export from asking for the rest.  (The disk takes
    the files.) *)
Theorem X24_every_listed_device_is_read {S : Type} (h : handler S)
    (s s2 : S) (tenantDir : string) (page : value) (ds : list value) :
  h (Request (GetDevices DEFAULT_GET_LIST_PARAMS))
    (h (ConsoleLog (LogValue (VStr "Backup Devices..."))) s).2 = (Ok page, s2) ->
  get_prop page "data" = Val (VArr ds) ->
  disk_accepts h ->
  forall d id,
    In d ds -> get_path d ["id"; "id"] = Val id ->
    incl (deviceReads id) (calls (run h (Category.backupDevices tenantDir) s)).
Proof.
  intros Hlist Hdata Hdisk d id Hd Hid.
  destruct (run_fanOut_each h (Backup.backupDevice tenantDir)
              (fun d sent => forall id, get_path d ["id"; "id"] = Val id ->
                                        forall c, In c (deviceReads id) -> In c sent)
              ds (fun x st _ => run_backupDevice_settles h tenantDir x st Hdisk)
              s2) as (b & tr & s3 & Rfan & Hall).
  destruct (Hall d Hd) as (sent & Hsent & Hincl).
  unfold Category.backupDevices, Backup.logAndReject, api.getDevices,
    console_log, perform, await, calls.
  cbn [mbind Prog_bind bind try_catch run trace List.map fst snd].
  change (with_page0 DEFAULT_GET_LIST_PARAMS) with DEFAULT_GET_LIST_PARAMS.
  rewrite Hlist. cbn [fst snd]. intros c Hc. do 2 right.
  rewrite run_try_catch.
  change (bind (Ret page) ?f) with (f page). cbv beta.
  rewrite Hdata. cbn [lift as_array mbind Prog_bind bind].
  change (bind (Backup.fanOut ?f ?l) ?k) with (Backup.fanOut f l ≫= k).
  rewrite (run_bind_returned _ _ _ _ _ _ _ Rfan).
  unfold or_catch. cbn [out trace final].
  assert (Hin : In c (List.map fst tr)).
  { apply Hincl. by apply (Hsent id). }
  destruct (out (run h (Backup.whenAll b "Devices backup completed!") s3));
    cbn [trace]; rewrite ?List.map_app, ?List.in_app_iff; tauto.
Qed.

Lemma X24_witness :
  incl (deviceReads (VStr "dev-7"))
       (calls (run Fixture.fleet (Category.backupDevices "tenants/T") [])).
Proof.
  assert (Hdisk : disk_accepts Fixture.fleet).
  { intros path body st. by eexists. }
  apply (X24_every_listed_device_is_read Fixture.fleet [] [] "tenants/T"
           (Sample.pageOf [VObj [("name", VStr "Ghost")]; Sample.liveDevice])
           [VObj [("name", VStr "Ghost")]; Sample.liveDevice]
           eq_refl eq_refl Hdisk Sample.liveDevice (VStr "dev-7")).
  - simpl. tauto.
  - reflexivity.
Defined.
